(** * The LLM orchestration core of the chat application

    A shallow embedding of the provider factory (app/services/llm_factory.py),
    the provider adapters (app/services/llm_providers.py), the MCP server
    registry (app/services/mcp_integration.py) and the tool-call loop of
    [stream_chat] (app/api/chat.py), followed by the properties established
    for them. *)

From Stdlib Require Import List String Ascii ZArith Bool Arith Lia.
Import ListNotations.
Open Scope string_scope.
Open Scope list_scope.
Set Warnings "-register-all".

(** ** Python values, exceptions and dictionaries *)

Module Py.

(** The values the code passes around as [Any]: what [json.load] produces.
    Numbers are the integers; a dictionary keeps its insertion order. *)
Inductive pyval : Type :=
| PNone
| PBool (b : bool)
| PInt (n : Z)
| PStr (s : string)
| PList (l : list pyval)
| PDict (d : list (string * pyval)).

Inductive exn : Type :=
| ValueError (msg : string)
| KeyError (key : string)
| TypeError
| AttributeError
| ValidationError
| VendorError (msg : string)
| HTTPException (status : Z) (detail : string).

Inductive result (A : Type) : Type :=
| Ok (a : A)
| Raise (e : exn).
Arguments Ok {A} a.
Arguments Raise {A} e.

Definition bind {A B} (r : result A) (k : A -> result B) : result B :=
  match r with
  | Ok a => k a
  | Raise e => Raise e
  end.

(** Python truthiness, as used by [if x:] and [not x]. *)
Definition truthy (v : pyval) : bool :=
  match v with
  | PNone => false
  | PBool b => b
  | PInt n => negb (Z.eqb n 0)
  | PStr s => negb (String.eqb s "")
  | PList l => match l with [] => false | _ => true end
  | PDict d => match d with [] => false | _ => true end
  end.

Section Dict.
Context {V : Type}.

(** [d.get(k)] *)
Fixpoint dict_get (k : string) (d : list (string * V)) : option V :=
  match d with
  | [] => None
  | (k', v) :: rest => if String.eqb k k' then Some v else dict_get k rest
  end.

(** [k in d] *)
Definition dict_mem (k : string) (d : list (string * V)) : bool :=
  match dict_get k d with Some _ => true | None => false end.

(** [d[k] = v]: an existing key keeps its position, a new one goes last. *)
Fixpoint dict_set (k : string) (v : V) (d : list (string * V)) : list (string * V) :=
  match d with
  | [] => [(k, v)]
  | (k', v') :: rest =>
      if String.eqb k k' then (k', v) :: rest else (k', v') :: dict_set k v rest
  end.

(** [del d[k]] for a key that [d] may hold or not *)
Fixpoint dict_del (k : string) (d : list (string * V)) : list (string * V) :=
  match d with
  | [] => []
  | (k', v') :: rest =>
      if String.eqb k k' then rest else (k', v') :: dict_del k rest
  end.

Definition keys (d : list (string * V)) : list string := map fst d.
Definition values (d : list (string * V)) : list V := map snd d.
End Dict.

(** [a == b] on these values: [True == 1], lists compare element-wise and
    dictionaries regardless of the order of their keys. *)
Fixpoint py_eq (a b : pyval) {struct a} : bool :=
  match a, b with
  | PNone, PNone => true
  | PBool x, PBool y => Bool.eqb x y
  | PBool x, PInt n => Z.eqb n (if x then 1 else 0)
  | PInt n, PBool x => Z.eqb n (if x then 1 else 0)
  | PInt n, PInt m => Z.eqb n m
  | PStr s, PStr t => String.eqb s t
  | PList l, PList m =>
      (fix go (l m : list pyval) : bool :=
         match l, m with
         | [], [] => true
         | x :: l', y :: m' => py_eq x y && go l' m'
         | _, _ => false
         end) l m
  | PDict d, PDict e =>
      Nat.eqb (List.length d) (List.length e) &&
      (fix go (d : list (string * pyval)) : bool :=
         match d with
         | [] => true
         | (k, v) :: d' =>
             match dict_get k e with
             | Some v' => py_eq v v'
             | None => false
             end && go d'
         end) d
  | _, _ => false
  end.

(** [v[k]] for a string key [k] *)
Definition getitem (v : pyval) (k : string) : result pyval :=
  match v with
  | PDict d => match dict_get k d with Some x => Ok x | None => Raise (KeyError k) end
  | _ => Raise TypeError
  end.

(** [v.get(k, default)] *)
Definition get_default (v : pyval) (k : string) (default : pyval) : result pyval :=
  match v with
  | PDict d => Ok (match dict_get k d with Some x => x | None => default end)
  | _ => Raise AttributeError
  end.

(** [v[k] = x] for a string key [k] *)
Definition setitem (v : pyval) (k : string) (x : pyval) : result pyval :=
  match v with
  | PDict d => Ok (PDict (dict_set k x d))
  | PList _ => Raise TypeError
  | _ => Raise TypeError
  end.

(** The elements [for t in v] goes through. *)
Definition iter (v : pyval) : result (list pyval) :=
  match v with
  | PList l => Ok l
  | PDict d => Ok (map PStr (keys d))
  | PStr s => Ok (map (fun c => PStr (String c EmptyString)) (list_ascii_of_string s))
  | _ => Raise TypeError
  end.

End Py.
Import Py.

Notation "x <- c ;; k" := (bind c (fun x => k))
  (at level 61, c at next level, right associativity).

(** ** app/services/llm_factory.py *)

Module LLMFactory.

(** The four adapter classes of llm_providers.py. *)
Inductive provider_class : Type :=
| OpenAIProvider | AnthropicProvider | GoogleProvider | GroqProvider.

(** app/schemas/llm_config.py, [LLMProviderInfo] *)
Record LLMProviderInfo : Type := {
  provider : string;
  name : string;
  description : string;
  models : list string;
  default_model : string;
  requires_api_key : bool
}.

(** [LLMProvider] is a [str] enumeration: the keys are its four strings. *)
Definition _providers : list (string * provider_class) :=
  [ ("openai", OpenAIProvider);
    ("anthropic", AnthropicProvider);
    ("google", GoogleProvider);
    ("groq", GroqProvider) ].

Definition _provider_info : list (string * LLMProviderInfo) :=
  [ ("openai",
     {| provider := "openai"; name := "OpenAI";
        description := "GPT models from OpenAI including GPT-4 and GPT-3.5";
        models := ["gpt-4"; "gpt-4-turbo"; "gpt-3.5-turbo"; "gpt-3.5-turbo-16k"];
        default_model := "gpt-3.5-turbo";
        requires_api_key := true |});
    ("anthropic",
     {| provider := "anthropic"; name := "Anthropic";
        description := "Claude models from Anthropic";
        models := ["claude-3-opus-20240229"; "claude-3-sonnet-20240229";
                   "claude-3-haiku-20240307"];
        default_model := "claude-3-sonnet-20240229";
        requires_api_key := true |});
    ("google",
     {| provider := "google"; name := "Google";
        description := "Gemini models from Google";
        models := ["gemini-2.5-pro"; "gemini-2.5-flash";
                   "gemini-2.5-flash-lite-preview-06-17"; "gemini-2.0-flash";
                   "gemini-2.0-flash-lite"; "gemini-1.5-pro"; "gemini-1.5-flash";
                   "gemini-1.5-flash-8b"];
        default_model := "gemini-2.5-pro";
        requires_api_key := true |});
    ("groq",
     {| provider := "groq"; name := "Groq";
        description := "Fast inference models on Groq hardware";
        models := ["mixtral-8x7b-32768"; "llama2-70b-4096"; "gemma-7b-it"];
        default_model := "mixtral-8x7b-32768";
        requires_api_key := true |}) ].

(** An adapter instance: [LLMInterface.__init__] stores the key and the
    model, each subclass adds its [default_models]. *)
Record LLMInterface : Type := {
  cls : provider_class;
  api_key : string;
  model : string;
  default_models : list string
}.

(** The [default_models] each [__init__] of llm_providers.py assigns. *)
Definition class_default_models (c : provider_class) : list string :=
  match c with
  | OpenAIProvider => ["gpt-4"; "gpt-4-turbo"; "gpt-3.5-turbo"; "gpt-3.5-turbo-16k"]
  | AnthropicProvider =>
      ["claude-3-opus-20240229"; "claude-3-sonnet-20240229"; "claude-3-haiku-20240307"]
  | GoogleProvider => ["gemini-2.5-pro"; "gemini-pro"; "gemini-pro-vision"]
  | GroqProvider => ["mixtral-8x7b-32768"; "llama2-70b-4096"; "gemma-7b-it"]
  end.

(** What a call leaves behind outside the process state.  Building an adapter
    builds the vendor's client object; requests go out only from the
    adapter's methods. *)
Inductive effect : Type :=
| ClientConstructed (c : provider_class) (key : string)
| VendorRequest (c : provider_class).

(** [provider_class(api_key=api_key, model=model)] *)
Definition provider_init (c : provider_class) (key : string) (m : string)
  : list effect * LLMInterface :=
  ([ClientConstructed c key],
   {| cls := c; api_key := key; model := m;
      default_models := class_default_models c |}).

(** [not model] for [model: str = None] *)
Definition model_unset (m : option string) : bool :=
  match m with
  | None => true
  | Some s => String.eqb s ""
  end.

Definition create_provider (provider_type : string) (key : string)
    (m : option string) : list effect * result LLMInterface :=
  match dict_get provider_type _providers with
  | None => ([], Raise (ValueError ("Unsupported provider: " ++ provider_type)%string))
  | Some provider_cls =>
      if model_unset m then
        match dict_get provider_type _provider_info with
        | None => ([], Raise (KeyError provider_type))
        | Some info =>
            let (fx, inst) := provider_init provider_cls key (default_model info) in
            (fx, Ok inst)
        end
      else
        let (fx, inst) :=
          provider_init provider_cls key (match m with Some s => s | None => "" end) in
        (fx, Ok inst)
  end.

Definition get_supported_providers : list string := keys _providers.

(** [LLMFactory.get_provider_info]: one provider's information, or all of
    them when no provider is named. *)
Definition get_provider_info (provider_type : option string)
  : result (LLMProviderInfo + list LLMProviderInfo) :=
  match provider_type with
  | Some p =>
      if String.eqb p "" then Ok (inr (values _provider_info))
      else match dict_get p _provider_info with
           | Some info => Ok (inl info)
           | None => Raise (ValueError ("Unsupported provider: " ++ p)%string)
           end
  | None => Ok (inr (values _provider_info))
  end.

Definition validate_provider_config (provider_type : string) (m : string) : bool :=
  match dict_get provider_type _provider_info with
  | None => false
  | Some provider_info => existsb (String.eqb m) (models provider_info)
  end.

(** [get_available_models] of every adapter returns [self.default_models]. *)
Definition get_available_models (inst : LLMInterface) : list string :=
  default_models inst.

End LLMFactory.

(** ** Text: the [str] methods the adapters call, and [json.loads] *)

Module Text.

(** [str.isspace] on the ASCII range: tab to carriage return, the four
    separators 28 to 31, and the space. *)
Definition isspace (c : ascii) : bool :=
  let n := nat_of_ascii c in
  (((9 <=? n) && (n <=? 13)) || ((28 <=? n) && (n <=? 31)) || (n =? 32))%nat.

Fixpoint lstrip (s : string) : string :=
  match s with
  | EmptyString => EmptyString
  | String c r => if isspace c then lstrip r else s
  end.

Fixpoint rstrip (s : string) : string :=
  match s with
  | EmptyString => EmptyString
  | String c r =>
      match rstrip r with
      | EmptyString => if isspace c then EmptyString else String c EmptyString
      | r' => String c r'
      end
  end.

(** [s.strip()] *)
Definition strip (s : string) : string := rstrip (lstrip s).

(** [s.startswith(p)] *)
Definition startswith (s p : string) : bool := String.prefix p s.

(** [needle in s] *)
Fixpoint contains (needle s : string) : bool :=
  String.prefix needle s ||
  match s with
  | EmptyString => false
  | String _ r => contains needle r
  end.

(** *** A decoder for the JSON texts of the examples

    [json.loads] belongs to the Python library; the adapters below take it
    as a parameter.  [loads] follows the library's scanner on the part of
    JSON that [pyval] can hold: objects, arrays, strings with the
    one-letter escapes, integers and the three literals.  It gives up on a
    unicode escape and on a number with a fraction or an exponent, where
    the library goes on. *)

Definition is_ws (c : ascii) : bool :=
  let n := nat_of_ascii c in
  ((n =? 32) || (n =? 9) || (n =? 10) || (n =? 13))%nat.

Fixpoint skip_ws (s : list ascii) : list ascii :=
  match s with
  | c :: r => if is_ws c then skip_ws r else s
  | [] => []
  end.

Definition unescape (c : ascii) : option ascii :=
  match nat_of_ascii c with
  | 34 => Some (ascii_of_nat 34)
  | 92 => Some (ascii_of_nat 92)
  | 47 => Some (ascii_of_nat 47)
  | 98 => Some (ascii_of_nat 8)
  | 102 => Some (ascii_of_nat 12)
  | 110 => Some (ascii_of_nat 10)
  | 114 => Some (ascii_of_nat 13)
  | 116 => Some (ascii_of_nat 9)
  | _ => None
  end.

(** The characters after an opening quote, up to the closing one. *)
Fixpoint scanstring (s : list ascii) (acc : list ascii) : option (string * list ascii) :=
  match s with
  | [] => None
  | c :: r =>
      if (nat_of_ascii c =? 34)%nat then Some (string_of_list_ascii (rev acc), r)
      else if (nat_of_ascii c =? 92)%nat then
        match r with
        | e :: r' =>
            match unescape e with
            | Some x => scanstring r' (x :: acc)
            | None => None
            end
        | [] => None
        end
      else if (nat_of_ascii c <? 32)%nat then None
      else scanstring r (c :: acc)
  end.

Definition digit (c : ascii) : option Z :=
  let n := nat_of_ascii c in
  if ((48 <=? n) && (n <=? 57))%nat then Some (Z.of_nat (n - 48)) else None.

Fixpoint scan_digits (s : list ascii) (acc : Z) : Z * list ascii :=
  match s with
  | c :: r =>
      match digit c with
      | Some d => scan_digits r (10 * acc + d)%Z
      | None => (acc, s)
      end
  | [] => (acc, [])
  end.

(** An optional minus sign, then a zero or a run of digits that does not start
    with zero; refused when a fraction or an exponent follows. *)
Definition scan_int (s : list ascii) : option (Z * list ascii) :=
  let (neg, s1) :=
    match s with
    | c :: r => if (nat_of_ascii c =? 45)%nat then (true, r) else (false, s)
    | [] => (false, s)
    end in
  match s1 with
  | c :: r =>
      match digit c with
      | None => None
      | Some d =>
          let (n, rest) := if (d =? 0)%Z then (0%Z, r) else scan_digits r d in
          match rest with
          | x :: _ =>
              let k := nat_of_ascii x in
              if ((k =? 46) || (k =? 101) || (k =? 69))%nat then None
              else Some (if neg then (- n)%Z else n, rest)
          | [] => Some (if neg then (- n)%Z else n, rest)
          end
      end
  | [] => None
  end.

Fixpoint drop_prefix (p s : list ascii) : option (list ascii) :=
  match p, s with
  | [], _ => Some s
  | a :: p', b :: s' => if Ascii.eqb a b then drop_prefix p' s' else None
  | _ :: _, [] => None
  end.

Definition literal (word : string) (v : pyval) (s : list ascii)
  : option (pyval * list ascii) :=
  match drop_prefix (list_ascii_of_string word) s with
  | Some r => Some (v, r)
  | None => None
  end.

(** [dict(pairs)]: a repeated key keeps its first place and its last value. *)
Definition dict_of_pairs (pairs : list (string * pyval)) : list (string * pyval) :=
  fold_left (fun d kv => dict_set (fst kv) (snd kv) d) pairs [].

Fixpoint scan_once (fuel : nat) (s : list ascii) {struct fuel}
  : option (pyval * list ascii) :=
  match fuel with
  | O => None
  | S fuel' =>
      match s with
      | [] => None
      | c :: r =>
          match nat_of_ascii c with
          | 34 =>
              match scanstring r [] with
              | Some (str, r') => Some (PStr str, r')
              | None => None
              end
          | 123 =>
              match skip_ws r with
              | c' :: r' =>
                  if (nat_of_ascii c' =? 125)%nat then Some (PDict [], r')
                  else match scan_members fuel' (c' :: r') [] with
                       | Some (pairs, r'') => Some (PDict (dict_of_pairs pairs), r'')
                       | None => None
                       end
              | [] => None
              end
          | 91 =>
              match skip_ws r with
              | c' :: r' =>
                  if (nat_of_ascii c' =? 93)%nat then Some (PList [], r')
                  else match scan_elements fuel' (c' :: r') [] with
                       | Some (items, r'') => Some (PList items, r'')
                       | None => None
                       end
              | [] => None
              end
          | 110 => literal "null" PNone s
          | 116 => literal "true" (PBool true) s
          | 102 => literal "false" (PBool false) s
          | _ =>
              match scan_int s with
              | Some (n, r') => Some (PInt n, r')
              | None => None
              end
          end
      end
  end

(** From the quote that opens a key to the closing brace. *)
with scan_members (fuel : nat) (s : list ascii) (acc : list (string * pyval))
  {struct fuel} : option (list (string * pyval) * list ascii) :=
  match fuel with
  | O => None
  | S fuel' =>
      match s with
      | c :: r =>
          if (nat_of_ascii c =? 34)%nat then
            match scanstring r [] with
            | None => None
            | Some (key, r1) =>
                match skip_ws r1 with
                | colon :: r2 =>
                    if (nat_of_ascii colon =? 58)%nat then
                      match scan_once fuel' (skip_ws r2) with
                      | None => None
                      | Some (v, r3) =>
                          match skip_ws r3 with
                          | x :: r4 =>
                              if (nat_of_ascii x =? 125)%nat
                              then Some (acc ++ [(key, v)], r4)
                              else if (nat_of_ascii x =? 44)%nat
                              then scan_members fuel' (skip_ws r4) (acc ++ [(key, v)])
                              else None
                          | [] => None
                          end
                      end
                    else None
                | [] => None
                end
            end
          else None
      | [] => None
      end
  end

(** From the first character of an element to the closing bracket. *)
with scan_elements (fuel : nat) (s : list ascii) (acc : list pyval)
  {struct fuel} : option (list pyval * list ascii) :=
  match fuel with
  | O => None
  | S fuel' =>
      match scan_once fuel' s with
      | None => None
      | Some (v, r1) =>
          match skip_ws r1 with
          | x :: r2 =>
              if (nat_of_ascii x =? 93)%nat then Some (acc ++ [v], r2)
              else if (nat_of_ascii x =? 44)%nat
              then scan_elements fuel' (skip_ws r2) (acc ++ [v])
              else None
          | [] => None
          end
      end
  end.

(** [json.loads(s)]: one value, white space around it, nothing else. *)
Definition loads (s : string) : option pyval :=
  let cs := list_ascii_of_string s in
  match scan_once (2 * List.length cs + 2) (skip_ws cs) with
  | Some (v, rest) => match skip_ws rest with [] => Some v | _ => None end
  | None => None
  end.

End Text.

(** ** app/services/llm_interface.py and app/services/llm_providers.py *)

Module Providers.
Import LLMFactory Text.

Record LLMMessage : Type := {
  role : string;
  content : string
}.

Record LLMResponse : Type := {
  r_content : pyval;
  r_usage : option (list (string * pyval));
  r_model : string;
  r_finish_reason : option string
}.

(** [LLMInterface.format_messages] *)
Definition format_message (msg : LLMMessage) : pyval :=
  PDict [("role", PStr (role msg)); ("content", PStr (content msg))].

Definition format_messages (messages : list LLMMessage) : list pyval :=
  map format_message messages.

(** What an adapter sends to its vendor.  The sampling temperature is a
    float handed over as received and is left out; [kwargs] is the
    keyword dictionary of the call. *)
Inductive vendor_request : Type :=
| ChatCompletion (c : provider_class) (model : string) (messages : list pyval)
    (max_tokens : Z) (kwargs : list (string * pyval))
| AnthropicMessages (model : string) (max_tokens : Z) (system : option string)
    (messages : list pyval) (kwargs : list (string * pyval))
| GeminiGenerate (model : string) (contents : list (string * string))
    (system_instruction : option string).

(** What the vendor's client hands back: the reply text
    ([choices[0].message.content], [content[0].text], [response.text]),
    the usage figures, the model and the finish or stop reason. *)
Record vendor_reply : Type := {
  text : pyval;
  reply_usage : option (list (string * pyval));
  reply_model : string;
  reply_finish : option string
}.

Section Adapters.
(** The vendor behind the client object: any request may raise. *)
Variable vendor : vendor_request -> result vendor_reply.
(** [json.loads], [None] where it raises. *)
Variable json_loads : string -> option pyval.
(** [str(x)] *)
Variable py_str : pyval -> string.
(** The verdict of the response model on a [content] that is not a
    string: [LLMResponse] declares [content: str] and is validated by
    the library it derives from. *)
Variable content_accepted : pyval -> bool.

(** [LLMResponse(content=..., usage=..., model=..., finish_reason=...)] *)
Definition new_LLMResponse (c : pyval) (u : option (list (string * pyval)))
    (m : string) (f : option string) : result LLMResponse :=
  let r := {| r_content := c; r_usage := u; r_model := m; r_finish_reason := f |} in
  match c with
  | PStr _ => Ok r
  | _ => if content_accepted c then Ok r else Raise ValidationError
  end.

(** The test of the tool-call detection:
    [isinstance(content, str) and content.strip().startswith('{')
     and 'tool_call' in content]. *)
Definition looks_like_tool_call (c : pyval) : bool :=
  match c with
  | PStr s => startswith (strip s) "{" && contains "tool_call" s
  | _ => false
  end.

(** The detection itself: parse when the test passes, keep the content
    when the parse raises. *)
Definition detect_tool_call (c : pyval) : pyval :=
  if looks_like_tool_call c then
    match c with
    | PStr s => match json_loads s with Some v => v | None => c end
    | _ => c
    end
  else c.

(** [OpenAIProvider.generate_response] and [GroqProvider.generate_response]:
    the two differ in the client they call. *)
Definition chat_generate_response (self : LLMInterface)
    (messages : list LLMMessage) (max_tokens : Z)
    (kwargs : list (string * pyval)) : result LLMResponse :=
  let formatted_messages := format_messages messages in
  response <- vendor (ChatCompletion (cls self) (model self) formatted_messages
                        max_tokens kwargs) ;;
  let c := detect_tool_call (text response) in
  new_LLMResponse c (reply_usage response) (reply_model response)
    (reply_finish response).

(** The loop of [AnthropicProvider.generate_response] over the messages. *)
Fixpoint split_system (messages : list LLMMessage) (system_message : option string)
    (formatted_messages : list pyval) : option string * list pyval :=
  match messages with
  | [] => (system_message, formatted_messages)
  | msg :: rest =>
      if String.eqb (role msg) "system"
      then split_system rest (Some (content msg)) formatted_messages
      else split_system rest system_message
             (formatted_messages ++ [format_message msg])
  end.

(** [response.usage.input_tokens] and the like *)
Definition usage_attr (u : option (list (string * pyval))) (k : string)
  : result pyval :=
  match u with
  | Some d => match dict_get k d with Some v => Ok v | None => Raise AttributeError end
  | None => Raise AttributeError
  end.

(** The arguments of [self.client.messages.create]. *)
Definition anthropic_request (self : LLMInterface)
    (messages : list LLMMessage) (max_tokens : Z)
    (kwargs : list (string * pyval)) : vendor_request :=
  let (system_message, formatted_messages) := split_system messages None [] in
  AnthropicMessages (model self) max_tokens system_message formatted_messages kwargs.

Definition anthropic_generate_response (self : LLMInterface)
    (messages : list LLMMessage) (max_tokens : Z)
    (kwargs : list (string * pyval)) : result LLMResponse :=
  response <- vendor (anthropic_request self messages max_tokens kwargs) ;;
  let c := detect_tool_call (text response) in
  i <- usage_attr (reply_usage response) "input_tokens" ;;
  o <- usage_attr (reply_usage response) "output_tokens" ;;
  new_LLMResponse c (Some [("input_tokens", i); ("output_tokens", o)])
    (reply_model response) (reply_finish response).

(** [GoogleProvider._format_contents_for_gemini] *)
Definition _format_contents_for_gemini (messages : list LLMMessage)
  : list (string * string) :=
  map (fun msg => (role msg, content msg)) messages.

(** [GoogleProvider.generate_response]: the reply is a response object
    with a [text] attribute, which is returned as it is. *)
Definition google_generate_response (self : LLMInterface)
    (messages : list LLMMessage) (max_tokens : Z)
    (kwargs : list (string * pyval)) : result LLMResponse :=
  let mcp_context := match dict_get "mcp_context" kwargs with
                     | Some v => v | None => PNone end in
  let contents := _format_contents_for_gemini messages in
  let system_instruction :=
    if truthy mcp_context then Some (py_str mcp_context) else None in
  response <- vendor (GeminiGenerate (model self) contents system_instruction) ;;
  new_LLMResponse (text response) None (model self) None.

(** [llm_provider.generate_response(...)] on an adapter instance *)
Definition generate_response (self : LLMInterface)
    (messages : list LLMMessage) (max_tokens : Z)
    (kwargs : list (string * pyval)) : result LLMResponse :=
  match cls self with
  | OpenAIProvider => chat_generate_response self messages max_tokens kwargs
  | GroqProvider => chat_generate_response self messages max_tokens kwargs
  | AnthropicProvider => anthropic_generate_response self messages max_tokens kwargs
  | GoogleProvider => google_generate_response self messages max_tokens kwargs
  end.
End Adapters.

End Providers.

(** ** app/services/mcp_integration.py *)

Module MCP.

(** [MCPServer]: every attribute but the name holds whatever the
    configuration gave for it. *)
Record MCPServer : Type := {
  name : string;
  command : pyval;
  args : pyval;
  env : pyval;
  disabled : pyval;
  description : pyval;
  tools : pyval
}.

(** [MCPServer.__init__] *)
Definition new_MCPServer (server_name : string) (config : pyval) : result MCPServer :=
  c <- get_default config "command" (PList []) ;;
  a <- get_default config "args" (PList []) ;;
  e <- get_default config "env" (PDict []) ;;
  d <- get_default config "disabled" (PBool false) ;;
  s <- get_default config "description" (PStr "") ;;
  t <- get_default config "tools" (PList []) ;;
  Ok {| name := server_name; command := c; args := a; env := e;
        disabled := d; description := s; tools := t |}.

(** [MCPServer.to_dict] *)
Definition to_dict (self : MCPServer) : pyval :=
  PDict [ ("command", command self);
          ("args", args self);
          ("env", env self);
          ("disabled", disabled self);
          ("description", description self);
          ("tools", tools self) ].

Definition set_disabled (self : MCPServer) (v : pyval) : MCPServer :=
  {| name := name self; command := command self; args := args self;
     env := env self; disabled := v; description := description self;
     tools := tools self |}.

Definition set_tools (self : MCPServer) (v : pyval) : MCPServer :=
  {| name := name self; command := command self; args := args self;
     env := env self; disabled := disabled self;
     description := description self; tools := v |}.

(** The file at [config_path]: text that [json.load] rejects, or the text
    of a value, identified with the value ([json.dump] followed by
    [json.load] gives the value back). *)
Inductive file_content : Type :=
| Unreadable
| Document (v : pyval).

(** The service object together with the file it reads and writes;
    [config_file] is [None] while the file does not exist. *)
Record MCPService : Type := {
  servers : list (string * MCPServer);
  config_file : option file_content
}.

Definition with_servers (self : MCPService) (s : list (string * MCPServer)) : MCPService :=
  {| servers := s; config_file := config_file self |}.

(** [MCPService.save_config] *)
Definition config_data (self : MCPService) : pyval :=
  PDict [ ("mcpServers",
           PDict (map (fun entry => (fst entry, to_dict (snd entry))) (servers self))) ].

Definition save_config (self : MCPService) : MCPService :=
  {| servers := servers self; config_file := Some (Document (config_data self)) |}.

Definition default_tool (n d : string) : pyval :=
  PDict [("name", PStr n); ("description", PStr d); ("disabled", PBool false)].

Definition default_servers : list (string * MCPServer) :=
  [ ("filesystem",
     {| name := "filesystem"; command := PList [PStr "npx"];
        args := PList [PStr "-y"; PStr "@modelcontextprotocol/server-filesystem";
                       PStr "/path/to/allowed/files"];
        env := PDict []; disabled := PBool false;
        description := PStr "File system access server";
        tools := PList [default_tool "read_file" "Read a file";
                        default_tool "write_file" "Write to a file"] |});
    ("brave-search",
     {| name := "brave-search"; command := PList [PStr "npx"];
        args := PList [PStr "-y"; PStr "@modelcontextprotocol/server-brave-search"];
        env := PDict [("BRAVE_API_KEY", PStr "your-brave-api-key-here")];
        disabled := PBool false;
        description := PStr "Brave search integration";
        tools := PList [default_tool "search" "Web search"] |});
    ("sqlite",
     {| name := "sqlite"; command := PList [PStr "npx"];
        args := PList [PStr "-y"; PStr "@modelcontextprotocol/server-sqlite";
                       PStr "/path/to/database.db"];
        env := PDict []; disabled := PBool false;
        description := PStr "SQLite database access";
        tools := PList [default_tool "query" "Run SQL query"] |}) ].

(** [MCPService.create_default_config] *)
Definition create_default_config (self : MCPService) : MCPService :=
  save_config (with_servers self default_servers).

(** [mcp_servers.items()] *)
Definition items (v : pyval) : result (list (string * pyval)) :=
  match v with
  | PDict d => Ok d
  | _ => Raise AttributeError
  end.

(** The loop of [load_config]: [self.servers[server_name] = MCPServer(...)]. *)
Fixpoint load_servers (entries : list (string * pyval))
    (acc : list (string * MCPServer)) : result (list (string * MCPServer)) :=
  match entries with
  | [] => Ok acc
  | (server_name, server_config) :: rest =>
      s <- new_MCPServer server_name server_config ;;
      load_servers rest (dict_set server_name s acc)
  end.

(** [MCPService.load_config]: a missing file, a file that does not parse and
    any exception on the way all end in the default configuration. *)
Definition load_config (self : MCPService) : MCPService :=
  match config_file self with
  | None => create_default_config self
  | Some Unreadable => create_default_config self
  | Some (Document data) =>
      match (mcp_servers <- get_default data "mcpServers" (PDict []) ;;
             entries <- items mcp_servers ;;
             load_servers entries (servers self)) with
      | Ok loaded => with_servers self loaded
      | Raise _ => create_default_config self
      end
  end.

(** [MCPService.__init__] on the file found at [config_path] *)
Definition new_MCPService (file : option file_content) : MCPService :=
  load_config {| servers := []; config_file := file |}.

Definition get_server (self : MCPService) (n : string) : option MCPServer :=
  dict_get n (servers self).

Definition get_all_servers (self : MCPService) : list (string * MCPServer) :=
  servers self.

Definition get_enabled_servers (self : MCPService) : list (string * MCPServer) :=
  filter (fun entry => negb (truthy (disabled (snd entry)))) (servers self).

(** [self.servers[name].disabled = v; self.save_config(); return True],
    shared by [enable_server] and [disable_server]. *)
Definition switch_server (v : bool) (self : MCPService) (n : string)
  : MCPService * bool :=
  match dict_get n (servers self) with
  | Some s =>
      (save_config (with_servers self (dict_set n (set_disabled s (PBool v)) (servers self))),
       true)
  | None => (self, false)
  end.

Definition enable_server := switch_server false.
Definition disable_server := switch_server true.

(** The comprehension of [get_enabled_tools]. *)
Fixpoint enabled_only (ts : list pyval) : result (list pyval) :=
  match ts with
  | [] => Ok []
  | tool :: rest =>
      d <- get_default tool "disabled" (PBool false) ;;
      r <- enabled_only rest ;;
      Ok (if truthy d then r else tool :: r)
  end.

Definition enabled_tools_of (server : MCPServer) : result (list pyval) :=
  ts <- iter (tools server) ;; enabled_only ts.

Definition get_enabled_tools (self : MCPService) (server_name : string)
  : result (list pyval) :=
  match get_server self server_name with
  | None => Ok []
  | Some server => enabled_tools_of server
  end.

(** The loop of [enable_tool] and [disable_tool]: the first tool of that
    name gets [tool["disabled"] = v]; [None] when the loop runs out. *)
Fixpoint switch_first (v : bool) (tool_name : string) (ts : list pyval)
  : result (option (list pyval)) :=
  match ts with
  | [] => Ok None
  | tool :: rest =>
      n <- getitem tool "name" ;;
      if py_eq n (PStr tool_name) then
        tool' <- setitem tool "disabled" (PBool v) ;;
        Ok (Some (tool' :: rest))
      else
        r <- switch_first v tool_name rest ;;
        Ok (option_map (cons tool) r)
  end.

Definition switch_tool (v : bool) (self : MCPService) (server_name tool_name : string)
  : result (MCPService * bool) :=
  match get_server self server_name with
  | None => Ok (self, false)
  | Some server =>
      ts <- iter (tools server) ;;
      r <- switch_first v tool_name ts ;;
      match r with
      | Some ts' =>
          Ok (save_config
                (with_servers self
                   (dict_set server_name (set_tools server (PList ts')) (servers self))),
              true)
      | None => Ok (self, false)
      end
  end.

Definition enable_tool := switch_tool false.
Definition disable_tool := switch_tool true.

(** [MCPService.add_server] *)
Definition add_server (self : MCPService) (n : string) (config : pyval)
  : result (MCPService * MCPServer) :=
  server <- new_MCPServer n config ;;
  Ok (save_config (with_servers self (dict_set n server (servers self))), server).

(** [MCPService.update_server] *)
Definition update_server (self : MCPService) (n : string) (config : pyval)
  : result (MCPService * option MCPServer) :=
  if dict_mem n (servers self) then
    server <- new_MCPServer n config ;;
    Ok (save_config (with_servers self (dict_set n server (servers self))),
        Some server)
  else Ok (self, None).

(** [MCPService.remove_server] *)
Definition remove_server (self : MCPService) (n : string) : MCPService * bool :=
  if dict_mem n (servers self) then
    (save_config (with_servers self (dict_del n (servers self))), true)
  else (self, false).

(** [isinstance(v, list)] and [isinstance(v, dict)] *)
Definition is_list (v : pyval) : bool :=
  match v with PList _ => true | _ => false end.
Definition is_dict (v : pyval) : bool :=
  match v with PDict _ => true | _ => false end.

(** [MCPService.validate_server_config] *)
Definition validate_server_config (config : pyval) : result (list string) :=
  required <- get_default config "command" PNone ;;
  let errors1 := if truthy required then [] else ["Command is required"] in
  c <- get_default config "command" (PList []) ;;
  let errors2 := if is_list c then errors1
                 else errors1 ++ ["Command must be a list"] in
  a <- get_default config "args" (PList []) ;;
  let errors3 := if is_list a then errors2
                 else errors2 ++ ["Args must be a list"] in
  e <- get_default config "env" (PDict []) ;;
  Ok (if is_dict e then errors3
      else errors3 ++ ["Environment variables must be a dictionary"]).

(** [list(server.env.keys())] *)
Definition env_vars (e : pyval) : result pyval :=
  match e with
  | PDict d => Ok (PList (map PStr (keys d)))
  | _ => Raise AttributeError
  end.

(** [MCPService.get_server_status] *)
Definition get_server_status (self : MCPService) (n : string) : result pyval :=
  match get_server self n with
  | None => Ok (PDict [("error", PStr "Server not found")])
  | Some server =>
      vars <- env_vars (env server) ;;
      Ok (PDict [ ("name", PStr n);
                  ("enabled", PBool (negb (truthy (disabled server))));
                  ("command", command server);
                  ("args", args server);
                  ("description", description server);
                  ("env_vars", vars) ])
  end.

Section Refresh.
(** [StdioServerParameters(command=..., args=..., env=...)], checked by
    the library that declares it. *)
Variable stdio_params : MCPServer -> result unit.
(** The subprocess session: start, [initialize], [list_tools].  It raises
    when the process does not start, the handshake fails or the answer is
    malformed, and returns the listing otherwise. *)
Variable session : MCPServer -> result pyval.

(** [fetch_tools_for_server]; the [print] concatenates a string with
    [server.command]. *)
Definition fetch_tools_for_server (svc : MCPService) (server_name : string)
  : result pyval :=
  match get_server svc server_name with
  | None => Raise (ValueError ("Server '" ++ server_name ++ "' not found in MCP config.")%string)
  | Some server =>
      if negb (truthy (command server)) then
        Raise (ValueError ("Server '" ++ server_name ++ "' has no command configured.")%string)
      else
        _ <- stdio_params server ;;
        match command server with
        | PStr _ => session server
        | _ => Raise TypeError
        end
  end.

(** [MCPServer.refresh_tools] *)
Definition refresh_tools (svc : MCPService) (self : MCPServer) : MCPServer :=
  match fetch_tools_for_server svc (name self) with
  | Ok ts => if truthy ts then set_tools self ts else self
  | Raise _ => self
  end.

(** One turn of [for server in mcp_service.get_all_servers().values():
    await server.refresh_tools()] on the server stored under [key]. *)
Definition refresh_server (svc : MCPService) (key : string) : MCPService :=
  match dict_get key (servers svc) with
  | Some self => with_servers svc (dict_set key (refresh_tools svc self) (servers svc))
  | None => svc
  end.

(** [refresh_all_mcp_tools] of main.py, and [lifespan] *)
Definition refresh_all_mcp_tools (svc : MCPService) : MCPService :=
  fold_left refresh_server (keys (servers svc)) svc.
End Refresh.

End MCP.

(** ** app/api/chat.py: the tool-call loop of [stream_chat] *)

Module Chat.
Import Providers MCP.

(** [llm_messages]: the system prompt when the chat has one, then the
    stored messages in the order of their creation. *)
Definition build_llm_messages (system_prompt : option string)
    (history : list LLMMessage) : list LLMMessage :=
  match system_prompt with
  | Some p =>
      if String.eqb p "" then history
      else {| role := "system"; content := p |} :: history
  | None => history
  end.

(** [mcp_context] *)
Definition mcp_context (enabled_servers : list (string * MCPServer)) : pyval :=
  PDict [ ("servers",
           PList (map (fun s => PDict [ ("name", PStr (name s));
                                        ("description", description s);
                                        ("tools", tools s) ])
                    (values enabled_servers))) ].

(** [isinstance(response.content, dict) and response.content.get("tool_call")],
    with the value of [response.content["tool_call"]] when it holds. *)
Definition requested_tool_call (response : LLMResponse) : option pyval :=
  match r_content response with
  | PDict d =>
      match dict_get "tool_call" d with
      | Some tc => if truthy tc then Some tc else None
      | None => None
      end
  | _ => None
  end.

(** [any(t["name"] == tool_name for t in s.tools)] *)
Fixpoint any_named (tool_name : pyval) (ts : list pyval) : result bool :=
  match ts with
  | [] => Ok false
  | t :: rest =>
      n <- getitem t "name" ;;
      if py_eq n tool_name then Ok true else any_named tool_name rest
  end.

Definition lists_tool (tool_name : pyval) (s : MCPServer) : result bool :=
  ts <- iter (tools s) ;; any_named tool_name ts.

(** [next((s for s in enabled_servers.values() if any(...)), None)] *)
Fixpoint find_server (tool_name : pyval) (ss : list MCPServer)
  : result (option MCPServer) :=
  match ss with
  | [] => Ok None
  | s :: rest =>
      b <- lists_tool tool_name s ;;
      if b then Ok (Some s) else find_server tool_name rest
  end.

Record loop_state : Type := {
  current_messages : list LLMMessage;
  tool_call_chain : list pyval
}.

(** How one pass through the body of [while True] ends. *)
Inductive pass : Type :=
| Continue (st : loop_state)
| Break (final_response : LLMResponse) (chain : list pyval).

Section StreamChat.
(** The bound adapter, called with the temperature, the token limit and
    the context of the request, which are the same at every call. *)
Variable generate_response : list LLMMessage -> result LLMResponse.
(** [str(x)], [json.dumps(x)] and [str(e)] *)
Variable py_str : pyval -> string.
Variable json_dumps : pyval -> string.
Variable exn_str : exn -> string.
(** [enabled_servers = mcp_service.get_enabled_servers()] *)
Variable enabled_servers : list (string * MCPServer).

Definition tool_message (tool_name tool_args : pyval) : LLMMessage :=
  let tool_result :=
    PDict [("result",
            PStr ("Simulated result for " ++ py_str tool_name ++
                  " with args " ++ py_str tool_args)%string)] in
  {| role := "tool";
     content := json_dumps (PDict [("tool_name", tool_name); ("result", tool_result)]) |}.

(** The body of [while True]. *)
Definition loop_body (st : loop_state) : result pass :=
  response <- generate_response (current_messages st) ;;
  match requested_tool_call response with
  | Some tool_call =>
      let chain := tool_call_chain st ++ [tool_call] in
      tool_name <- getitem tool_call "name" ;;
      tool_args <- get_default tool_call "arguments" (PDict []) ;;
      server <- find_server tool_name (values enabled_servers) ;;
      match server with
      | None =>
          Raise (HTTPException 500
                   ("Tool server for '" ++ py_str tool_name ++
                    "' not found or not enabled.")%string)
      | Some _ =>
          Ok (Continue {| current_messages :=
                            current_messages st ++ [tool_message tool_name tool_args];
                          tool_call_chain := chain |})
      end
  | None => Ok (Break response (tool_call_chain st))
  end.

(** [while True] run for at most [fuel] passes: [None] when the loop is
    still going after them. *)
Fixpoint tool_call_loop (fuel : nat) (st : loop_state)
  : option (result (LLMResponse * list pyval)) :=
  match fuel with
  | O => None
  | S fuel' =>
      match loop_body st with
      | Raise e => Some (Raise e)
      | Ok (Break final_response chain) => Some (Ok (final_response, chain))
      | Ok (Continue st') => tool_call_loop fuel' st'
      end
  end.

(** The state after [n] passes that all went round again. *)
Fixpoint after_passes (n : nat) (st : loop_state) : option loop_state :=
  match n with
  | O => Some st
  | S n' =>
      match loop_body st with
      | Ok (Continue st') => after_passes n' st'
      | _ => None
      end
  end.

(** The [try] block of [stream_chat] from the loop on: the answer on
    success, and any exception turned into a 500 response.  Storing the
    assistant message is the database's part and is left out. *)
Definition stream_chat (fuel : nat) (llm_messages : list LLMMessage)
  : option (result pyval) :=
  match tool_call_loop fuel {| current_messages := llm_messages;
                               tool_call_chain := [] |} with
  | None => None
  | Some (Ok (final_response, chain)) =>
      Some (Ok (PDict [ ("content", r_content final_response);
                        ("done", PBool true);
                        ("tool_calls", PList chain) ]))
  | Some (Raise e) =>
      Some (Raise (HTTPException 500
                     ("Error generating response: " ++ exn_str e)%string))
  end.
End StreamChat.

End Chat.

(** ** app/api/mcp_api.py *)

Module McpApi.
Import MCP.

(** The comprehension of [get_mcp_servers] over the tools of one server. *)
Fixpoint tool_views (ts : list pyval) : result (list pyval) :=
  match ts with
  | [] => Ok []
  | t :: rest =>
      n <- getitem t "name" ;;
      d <- get_default t "description" (PStr "") ;;
      f <- get_default t "disabled" (PBool false) ;;
      r <- tool_views rest ;;
      Ok (PDict [("name", n); ("description", d); ("disabled", f)] :: r)
  end.

Definition server_view (n : string) (server : MCPServer) : result pyval :=
  ts <- iter (tools server) ;;
  views <- tool_views ts ;;
  Ok (PDict [ ("name", PStr n);
              ("description", description server);
              ("disabled", disabled server);
              ("tools", PList views) ]).

(** The loop of [get_mcp_servers]: [servers[name] = {...}]. *)
Fixpoint server_views (entries : list (string * MCPServer))
    (acc : list (string * pyval)) : result (list (string * pyval)) :=
  match entries with
  | [] => Ok acc
  | (n, server) :: rest =>
      v <- server_view n server ;;
      server_views rest (dict_set n v acc)
  end.

Definition get_mcp_servers (svc : MCPService) : result pyval :=
  views <- server_views (get_all_servers svc) [] ;;
  Ok (PDict views).

Definition message (text : string) : pyval := PDict [("message", PStr text)].

(** The four switch endpoints: the service after the call, and the
    response or the exception of the request. *)
Definition enable_server (svc : MCPService) (server_name : string)
  : MCPService * result pyval :=
  let (svc', found) := MCP.enable_server svc server_name in
  if found
  then (svc', Ok (message ("Server '" ++ server_name ++ "' enabled.")%string))
  else (svc', Raise (HTTPException 404 "Server not found")).

Definition disable_server (svc : MCPService) (server_name : string)
  : MCPService * result pyval :=
  let (svc', found) := MCP.disable_server svc server_name in
  if found
  then (svc', Ok (message ("Server '" ++ server_name ++ "' disabled.")%string))
  else (svc', Raise (HTTPException 404 "Server not found")).

Definition enable_tool (svc : MCPService) (server_name tool_name : string)
  : MCPService * result pyval :=
  match MCP.enable_tool svc server_name tool_name with
  | Raise e => (svc, Raise e)
  | Ok (svc', true) =>
      (svc', Ok (message ("Tool '" ++ tool_name ++ "' on server '" ++ server_name
                          ++ "' enabled.")%string))
  | Ok (svc', false) => (svc', Raise (HTTPException 404 "Tool or server not found"))
  end.

Definition disable_tool (svc : MCPService) (server_name tool_name : string)
  : MCPService * result pyval :=
  match MCP.disable_tool svc server_name tool_name with
  | Raise e => (svc, Raise e)
  | Ok (svc', true) =>
      (svc', Ok (message ("Tool '" ++ tool_name ++ "' on server '" ++ server_name
                          ++ "' disabled.")%string))
  | Ok (svc', false) => (svc', Raise (HTTPException 404 "Tool or server not found"))
  end.

End McpApi.

(** ** app/models and app/schemas: the tables and the request bodies *)

Module Models.

(** A row of [chats].  The temperature is a float and is left out. *)
Module chats.
Record row : Type := {
  id : Z;
  title : string;
  user_id : Z;
  llm_provider : string;
  model_name : string;
  max_tokens : option Z;
  system_prompt : option string
}.
End chats.

Module messages.
Record row : Type := {
  id : Z;
  chat_id : Z;
  role : string;
  content : string;
  message_metadata : option pyval
}.
End messages.

(** The tables, rows in the order of their insertion, and the next
    primary key of each. *)
Record database : Type := {
  chat_rows : list chats.row;
  message_rows : list messages.row;
  next_chat_id : Z;
  next_message_id : Z
}.

(** [ChatCreate] *)
Module ChatCreate.
Record t : Type := {
  title : string;
  llm_provider : string;
  model_name : string;
  max_tokens : Z;
  system_prompt : option string
}.
End ChatCreate.

(** [ChatUpdate]: per field, [None] when the request leaves it out and
    the value, possibly null, when it sets it. *)
Module ChatUpdate.
Record t : Type := {
  title : option (option string);
  max_tokens : option (option Z);
  system_prompt : option (option string)
}.
End ChatUpdate.

(** [MessageCreate] *)
Module MessageCreate.
Record t : Type := {
  role : string;
  content : string;
  message_metadata : option pyval
}.
End MessageCreate.

(** [ChatStreamRequest] *)
Module ChatStreamRequest.
Record t : Type := {
  message : string;
  max_tokens : option Z
}.
End ChatStreamRequest.

(** [Settings]: the four keys of app/config.py. *)
Record Settings : Type := {
  OPENAI_API_KEY : option string;
  ANTHROPIC_API_KEY : option string;
  GOOGLE_API_KEY : option string;
  GROQ_API_KEY : option string
}.

(** How a request ends: with its body, with an [HTTPException], or with
    an exception the endpoint does not catch. *)
Inductive response (A : Type) : Type :=
| Returned (a : A)
| Rejected (status : Z) (detail : string)
| Failed.
Arguments Returned {A} a.
Arguments Rejected {A} status detail.
Arguments Failed {A}.

Section Rows.
Context {A : Type}.

(** The row an update through [.first()] changes. *)
Fixpoint update_first (p : A -> bool) (f : A -> A) (l : list A) : list A :=
  match l with
  | [] => []
  | x :: rest => if p x then f x :: rest else x :: update_first p f rest
  end.

(** The row [db.delete] removes. *)
Fixpoint remove_first (p : A -> bool) (l : list A) : list A :=
  match l with
  | [] => []
  | x :: rest => if p x then rest else x :: remove_first p rest
  end.
End Rows.

End Models.

(** ** app/api/chat.py: the endpoints *)

Module ChatApi.
Import LLMFactory Providers MCP Models.

(** [Chat.id == chat_id, Chat.user_id == current_user.id] *)
Definition owned (chat_id current_user : Z) (c : chats.row) : bool :=
  (chats.id c =? chat_id)%Z && (chats.user_id c =? current_user)%Z.

Definition find_chat (db : database) (chat_id current_user : Z) : option chats.row :=
  find (owned chat_id current_user) (chat_rows db).

Definition with_chats (db : database) (rows : list chats.row) : database :=
  {| chat_rows := rows; message_rows := message_rows db;
     next_chat_id := next_chat_id db; next_message_id := next_message_id db |}.

Definition create_chat (db : database) (chat : ChatCreate.t) (current_user : Z)
  : database * response chats.row :=
  if negb (validate_provider_config (ChatCreate.llm_provider chat)
             (ChatCreate.model_name chat))
  then (db, Rejected 400
              ("Invalid model " ++ ChatCreate.model_name chat ++ " for provider "
               ++ ChatCreate.llm_provider chat)%string)
  else
    let db_chat :=
      {| chats.id := next_chat_id db;
         chats.title := ChatCreate.title chat;
         chats.user_id := current_user;
         chats.llm_provider := ChatCreate.llm_provider chat;
         chats.model_name := ChatCreate.model_name chat;
         chats.max_tokens := Some (ChatCreate.max_tokens chat);
         chats.system_prompt := ChatCreate.system_prompt chat |} in
    ({| chat_rows := chat_rows db ++ [db_chat];
        message_rows := message_rows db;
        next_chat_id := (next_chat_id db + 1)%Z;
        next_message_id := next_message_id db |},
     Returned db_chat).

Definition get_chat (db : database) (chat_id current_user : Z)
  : database * response chats.row :=
  match find_chat db chat_id current_user with
  | Some chat => (db, Returned chat)
  | None => (db, Rejected 404 "Chat not found")
  end.

(** [setattr(chat, field, value)] for the fields the update sets; [None]
    when the title is set to null, which the column does not take. *)
Definition apply_update (u : ChatUpdate.t) (c : chats.row) : option chats.row :=
  match (match ChatUpdate.title u with
         | None => Some (chats.title c)
         | Some new_title => new_title
         end) with
  | None => None
  | Some t =>
      Some {| chats.id := chats.id c;
              chats.title := t;
              chats.user_id := chats.user_id c;
              chats.llm_provider := chats.llm_provider c;
              chats.model_name := chats.model_name c;
              chats.max_tokens :=
                match ChatUpdate.max_tokens u with
                | None => chats.max_tokens c
                | Some v => v
                end;
              chats.system_prompt :=
                match ChatUpdate.system_prompt u with
                | None => chats.system_prompt c
                | Some v => v
                end |}
  end.

Definition update_chat (db : database) (chat_id : Z) (chat_update : ChatUpdate.t)
    (current_user : Z) : database * response chats.row :=
  match find_chat db chat_id current_user with
  | None => (db, Rejected 404 "Chat not found")
  | Some chat =>
      match apply_update chat_update chat with
      | None => (db, Failed)
      | Some chat' =>
          (with_chats db (update_first (owned chat_id current_user)
                            (fun _ => chat') (chat_rows db)),
           Returned chat')
      end
  end.

(** [db.delete(chat)]: the messages of the chat go with it. *)
Definition delete_chat (db : database) (chat_id current_user : Z)
  : database * response pyval :=
  match find_chat db chat_id current_user with
  | None => (db, Rejected 404 "Chat not found")
  | Some chat =>
      ({| chat_rows := remove_first (owned chat_id current_user) (chat_rows db);
          message_rows :=
            filter (fun m => negb (messages.chat_id m =? chats.id chat)%Z)
              (message_rows db);
          next_chat_id := next_chat_id db;
          next_message_id := next_message_id db |},
       Returned (PDict [("message", PStr "Chat deleted successfully")]))
  end.

Definition insert_message (db : database) (chat_id : Z) (r c : string)
    (meta : option pyval) : database * messages.row :=
  let row := {| messages.id := next_message_id db;
                messages.chat_id := chat_id;
                messages.role := r;
                messages.content := c;
                messages.message_metadata := meta |} in
  ({| chat_rows := chat_rows db;
      message_rows := message_rows db ++ [row];
      next_chat_id := next_chat_id db;
      next_message_id := (next_message_id db + 1)%Z |}, row).

Definition add_message (db : database) (chat_id : Z) (message : MessageCreate.t)
    (current_user : Z) : database * response messages.row :=
  match find_chat db chat_id current_user with
  | None => (db, Rejected 404 "Chat not found")
  | Some _ =>
      let (db', row) := insert_message db chat_id (MessageCreate.role message)
                          (MessageCreate.content message)
                          (MessageCreate.message_metadata message) in
      (db', Returned row)
  end.

(** The key [stream_chat] picks for the provider of the chat. *)
Definition select_api_key (settings : Settings) (llm_provider : string)
  : option string :=
  if String.eqb llm_provider "openai" then OPENAI_API_KEY settings
  else if String.eqb llm_provider "anthropic" then ANTHROPIC_API_KEY settings
  else if String.eqb llm_provider "google" then GOOGLE_API_KEY settings
  else if String.eqb llm_provider "groq" then GROQ_API_KEY settings
  else None.

(** The stored messages of a chat, oldest first. *)
Definition chat_history (db : database) (chat_id : Z) : list LLMMessage :=
  map (fun m => {| role := messages.role m; content := messages.content m |})
    (filter (fun m => (messages.chat_id m =? chat_id)%Z) (message_rows db)).

(** [request.max_tokens or chat.max_tokens] *)
Definition effective_max_tokens (request : ChatStreamRequest.t) (chat : chats.row)
  : option Z :=
  match ChatStreamRequest.max_tokens request with
  | Some n => if (n =? 0)%Z then chats.max_tokens chat else Some n
  | None => chats.max_tokens chat
  end.

Section StreamChat.
  (** [llm_provider.generate_response(messages=..., temperature=...,
      max_tokens=..., mcp_context=...)] on the adapter built for the
      chat. *)
Variable generate : LLMInterface -> option Z -> pyval -> list LLMMessage
                    -> result LLMResponse.
Variable py_str : pyval -> string.
Variable json_dumps : pyval -> string.
Variable exn_str : exn -> string.
  (** What the database makes of the content of the assistant message:
      the text it stores, or the exception of the commit. *)
Variable store_content : pyval -> result string.

(** [stream_chat], the whole endpoint; [None] when the tool-call loop is
    still going after [fuel] passes. *)
Definition stream_chat (fuel : nat) (db : database) (svc : MCPService)
    (settings : Settings) (chat_id : Z) (request : ChatStreamRequest.t)
    (current_user : Z) : option (database * response pyval) :=
  match find_chat db chat_id current_user with
  | None => Some (db, Rejected 404 "Chat not found")
  | Some chat =>
      match select_api_key settings (chats.llm_provider chat) with
      | None =>
          Some (db, Rejected 400 ("No API key configured for "
                                  ++ chats.llm_provider chat)%string)
      | Some key =>
          if String.eqb key "" then
            Some (db, Rejected 400 ("No API key configured for "
                                    ++ chats.llm_provider chat)%string)
          else
            let llm_messages :=
              Chat.build_llm_messages (chats.system_prompt chat)
                (chat_history db chat_id) in
            let enabled_servers := get_enabled_servers svc in
            let context := Chat.mcp_context enabled_servers in
            match snd (create_provider (chats.llm_provider chat) key
                         (Some (chats.model_name chat))) with
            | Raise e =>
                Some (db, Rejected 500 ("Failed to initialize LLM provider: "
                                        ++ exn_str e)%string)
            | Ok llm_provider =>
                match Chat.tool_call_loop
                        (generate llm_provider (effective_max_tokens request chat)
                           context)
                        py_str json_dumps enabled_servers fuel
                        {| Chat.current_messages := llm_messages;
                           Chat.tool_call_chain := [] |} with
                | None => None
                | Some (Raise e) =>
                    Some (db, Rejected 500 ("Error generating response: "
                                            ++ exn_str e)%string)
                | Some (Ok (final_response, chain)) =>
                    match store_content (r_content final_response) with
                    | Raise e =>
                        Some (db, Rejected 500 ("Error generating response: "
                                                ++ exn_str e)%string)
                    | Ok stored =>
                        Some (fst (insert_message db chat_id "assistant" stored None),
                              Returned (PDict [ ("content", r_content final_response);
                                                ("done", PBool true);
                                                ("tool_calls", PList chain) ]))
                    end
                end
            end
      end
  end.
End StreamChat.

End ChatApi.

(** ** app/api/llm_config.py *)

Module LlmConfigApi.
Import LLMFactory Models.

(** A row of [llm_configs]; [api_key] holds the encrypted key. *)
Module llm_configs.
Record row : Type := {
  id : Z;
  user_id : Z;
  provider : string;
  api_key : option string;
  model_name : string;
  is_default : option bool;
  config_data : option pyval
}.
End llm_configs.

(** The table, the next primary key, and the content of the key file
    [encryption.key] when it exists. *)
Record store : Type := {
  rows : list llm_configs.row;
  next_id : Z;
  key_file : option string
}.

(** [LLMConfigCreate] *)
Module LLMConfigCreate.
Record t : Type := {
  provider : string;
  model_name : string;
  is_default : bool;
  config_data : option pyval;
  api_key : option string
}.
End LLMConfigCreate.

(** [LLMConfigUpdate]: per field, [None] when the request leaves it out;
    the key is only tested against null. *)
Module LLMConfigUpdate.
Record t : Type := {
  model_name : option (option string);
  api_key : option string;
  is_default : option (option bool);
  config_data : option (option pyval)
}.
End LLMConfigUpdate.

(** [LLMConfigResponse]: no key, only whether there is one. *)
Module LLMConfigResponse.
Record t : Type := {
  id : Z;
  user_id : Z;
  provider : string;
  model_name : string;
  is_default : bool;
  config_data : option pyval;
  has_api_key : bool
}.
End LLMConfigResponse.

Definition with_rows (st : store) (rs : list llm_configs.row) : store :=
  {| rows := rs; next_id := next_id st; key_file := key_file st |}.

Definition with_key_file (st : store) (k : option string) : store :=
  {| rows := rows st; next_id := next_id st; key_file := k |}.

Definition set_is_default (v : option bool) (r : llm_configs.row) : llm_configs.row :=
  {| llm_configs.id := llm_configs.id r;
     llm_configs.user_id := llm_configs.user_id r;
     llm_configs.provider := llm_configs.provider r;
     llm_configs.api_key := llm_configs.api_key r;
     llm_configs.model_name := llm_configs.model_name r;
     llm_configs.is_default := v;
     llm_configs.config_data := llm_configs.config_data r |}.

(** [LLMConfig.is_default == True] *)
Definition is_true (v : option bool) : bool :=
  match v with Some true => true | _ => false end.

(** [bool(config.api_key)] *)
Definition has_key (k : option string) : bool :=
  match k with Some s => negb (String.eqb s "") | None => false end.

(** [LLMConfigResponse(...)]: a null [is_default] does not validate. *)
Definition to_response (r : llm_configs.row) : response LLMConfigResponse.t :=
  match llm_configs.is_default r with
  | Some b =>
      Returned {| LLMConfigResponse.id := llm_configs.id r;
                  LLMConfigResponse.user_id := llm_configs.user_id r;
                  LLMConfigResponse.provider := llm_configs.provider r;
                  LLMConfigResponse.model_name := llm_configs.model_name r;
                  LLMConfigResponse.is_default := b;
                  LLMConfigResponse.config_data := llm_configs.config_data r;
                  LLMConfigResponse.has_api_key := has_key (llm_configs.api_key r) |}
  | None => Failed
  end.

(** [LLMConfig.id == config_id, LLMConfig.user_id == current_user.id] *)
Definition owned (config_id current_user : Z) (r : llm_configs.row) : bool :=
  (llm_configs.id r =? config_id)%Z && (llm_configs.user_id r =? current_user)%Z.

Definition find_config (st : store) (config_id current_user : Z)
  : option llm_configs.row :=
  find (owned config_id current_user) (rows st).

Section Endpoints.
(** [Fernet.generate_key()], [Fernet(key).encrypt] and
    [Fernet(key).decrypt], on text. *)
Variable generate_key : string.
Variable fernet_encrypt : string -> string -> string.
Variable fernet_decrypt : string -> string -> result string.

(** [get_encryption_key]: the key of the file, written first when the
    file is not there. *)
Definition get_encryption_key (k : option string) : option string * string :=
  match k with
  | Some key => (k, key)
  | None => (Some generate_key, generate_key)
  end.

Definition encrypt_api_key (k : option string) (api_key : string)
  : option string * string :=
  if String.eqb api_key "" then (k, "")
  else let (k', key) := get_encryption_key k in (k', fernet_encrypt key api_key).

Definition decrypt_api_key (k : option string) (encrypted_key : string)
  : option string * result string :=
  if String.eqb encrypted_key "" then (k, Ok "")
  else let (k', key) := get_encryption_key k in (k', fernet_decrypt key encrypted_key).

(** [encrypt_api_key(key) if key else None] *)
Definition encrypt_optional (k : option string) (api_key : option string)
  : option string * option string :=
  match api_key with
  | Some s =>
      if String.eqb s "" then (k, None)
      else let (k', c) := encrypt_api_key k s in (k', Some c)
  | None => (k, None)
  end.

Definition create_llm_config (st : store) (config : LLMConfigCreate.t)
    (current_user : Z) : store * response LLMConfigResponse.t :=
  if negb (validate_provider_config (LLMConfigCreate.provider config)
             (LLMConfigCreate.model_name config))
  then (st, Rejected 400
              ("Invalid model " ++ LLMConfigCreate.model_name config
               ++ " for provider " ++ LLMConfigCreate.provider config)%string)
  else if existsb (fun r => (llm_configs.user_id r =? current_user)%Z
                            && String.eqb (llm_configs.provider r)
                                 (LLMConfigCreate.provider config)) (rows st)
  then (st, Rejected 400
              ("Configuration for " ++ LLMConfigCreate.provider config
               ++ " already exists")%string)
  else
    let cleared :=
      if LLMConfigCreate.is_default config
      then map (fun r => if (llm_configs.user_id r =? current_user)%Z
                            && is_true (llm_configs.is_default r)
                         then set_is_default (Some false) r else r) (rows st)
      else rows st in
    let user_configs_count :=
      List.length (filter (fun r => (llm_configs.user_id r =? current_user)%Z) cleared) in
    let default := LLMConfigCreate.is_default config
                   || Nat.eqb user_configs_count 0 in
    let (k', encrypted_api_key) :=
      encrypt_optional (key_file st) (LLMConfigCreate.api_key config) in
    let db_config :=
      {| llm_configs.id := next_id st;
         llm_configs.user_id := current_user;
         llm_configs.provider := LLMConfigCreate.provider config;
         llm_configs.api_key := encrypted_api_key;
         llm_configs.model_name := LLMConfigCreate.model_name config;
         llm_configs.is_default := Some default;
         llm_configs.config_data := LLMConfigCreate.config_data config |} in
    ({| rows := cleared ++ [db_config]; next_id := (next_id st + 1)%Z;
        key_file := k' |},
     to_response db_config).

(** The loop of [get_llm_configs]: the first response that does not
    validate fails the request. *)
Fixpoint to_responses (rs : list llm_configs.row)
  : response (list LLMConfigResponse.t) :=
  match rs with
  | [] => Returned []
  | r :: rest =>
      match to_response r with
      | Returned x =>
          match to_responses rest with
          | Returned l => Returned (x :: l)
          | Rejected status detail => Rejected status detail
          | Failed => Failed
          end
      | Rejected status detail => Rejected status detail
      | Failed => Failed
      end
  end.

Definition get_llm_configs (st : store) (current_user : Z)
  : response (list LLMConfigResponse.t) :=
  to_responses
    (filter (fun r => (llm_configs.user_id r =? current_user)%Z) (rows st)).

Definition get_llm_config (st : store) (config_id current_user : Z)
  : store * response LLMConfigResponse.t :=
  match find_config st config_id current_user with
  | Some config => (st, to_response config)
  | None => (st, Rejected 404 "Configuration not found")
  end.

(** The fields the update sets, then the key; [None] when the model is
    set to null, which the column does not take. *)
Definition apply_update (u : LLMConfigUpdate.t) (encrypted : option string)
    (r : llm_configs.row) : option llm_configs.row :=
  match (match LLMConfigUpdate.model_name u with
         | None => Some (llm_configs.model_name r)
         | Some m => m
         end) with
  | None => None
  | Some m =>
      Some {| llm_configs.id := llm_configs.id r;
              llm_configs.user_id := llm_configs.user_id r;
              llm_configs.provider := llm_configs.provider r;
              llm_configs.api_key :=
                match LLMConfigUpdate.api_key u with
                | Some _ => encrypted
                | None => llm_configs.api_key r
                end;
              llm_configs.model_name := m;
              llm_configs.is_default :=
                match LLMConfigUpdate.is_default u with
                | None => llm_configs.is_default r
                | Some v => v
                end;
              llm_configs.config_data :=
                match LLMConfigUpdate.config_data u with
                | None => llm_configs.config_data r
                | Some v => v
                end |}
  end.

(** [if config_update.model_name:] *)
Definition model_given (u : LLMConfigUpdate.t) : option string :=
  match LLMConfigUpdate.model_name u with
  | Some (Some m) => if String.eqb m "" then None else Some m
  | _ => None
  end.

Definition update_llm_config (st : store) (config_id : Z)
    (config_update : LLMConfigUpdate.t) (current_user : Z)
  : store * response LLMConfigResponse.t :=
  match find_config st config_id current_user with
  | None => (st, Rejected 404 "Configuration not found")
  | Some config =>
      match (match model_given config_update with
             | Some m =>
                 if validate_provider_config (llm_configs.provider config) m
                 then None else Some m
             | None => None
             end) with
      | Some m =>
          (st, Rejected 400 ("Invalid model " ++ m ++ " for provider "
                             ++ llm_configs.provider config)%string)
      | None =>
          let others :=
            match LLMConfigUpdate.is_default config_update with
            | Some (Some true) =>
                map (fun r => if (llm_configs.user_id r =? current_user)%Z
                                 && negb (llm_configs.id r =? config_id)%Z
                                 && is_true (llm_configs.is_default r)
                              then set_is_default (Some false) r else r) (rows st)
            | _ => rows st
            end in
          let (k', encrypted) :=
            encrypt_optional (key_file st) (LLMConfigUpdate.api_key config_update) in
          match apply_update config_update encrypted config with
          | None => (with_key_file st k', Failed)
          | Some config' =>
              ({| rows := update_first (owned config_id current_user)
                            (fun _ => config') others;
                  next_id := next_id st; key_file := k' |},
               to_response config')
          end
      end
  end.

Definition delete_llm_config (st : store) (config_id current_user : Z)
  : store * response pyval :=
  match find_config st config_id current_user with
  | None => (st, Rejected 404 "Configuration not found")
  | Some _ =>
      (with_rows st (remove_first (owned config_id current_user) (rows st)),
       Returned (PDict [("message", PStr "Configuration deleted successfully")]))
  end.

Definition set_default_config (st : store) (config_id current_user : Z)
  : store * response pyval :=
  match find_config st config_id current_user with
  | None => (st, Rejected 404 "Configuration not found")
  | Some config =>
      let others :=
        map (fun r => if (llm_configs.user_id r =? current_user)%Z
                         && negb (llm_configs.id r =? config_id)%Z
                      then set_is_default (Some false) r else r) (rows st) in
      (with_rows st (update_first (owned config_id current_user)
                       (fun _ => set_is_default (Some true) config) others),
       Returned (PDict [("message", PStr "Configuration set as default")]))
  end.
End Endpoints.

End LlmConfigApi.

(** ** The specification's words, and inputs for the examples *)

Module Spec.
Import LLMFactory Providers MCP Chat.

Definition is_system (m : LLMMessage) : bool := String.eqb (role m) "system".

(** The content of the first system-role message of a conversation. *)
Definition first_system (messages : list LLMMessage) : option string :=
  option_map content (find is_system messages).

(** The content of the last one. *)
Fixpoint last_system (messages : list LLMMessage) : option string :=
  match messages with
  | [] => None
  | m :: rest =>
      match last_system rest with
      | Some c => Some c
      | None => if is_system m then Some (content m) else None
      end
  end.

(** The messages that are not of system role, in their order. *)
Definition inline_messages (messages : list LLMMessage) : list LLMMessage :=
  filter (fun m => negb (is_system m)) messages.

(** A registry as the service builds it: one entry per name, each server
    stored under its own name. *)
Definition well_formed (ss : list (string * MCPServer)) : Prop :=
  NoDup (keys ss) /\ Forall (fun entry => name (snd entry) = fst entry) ss.

(** The service after a call that may raise: an exception leaves it as the
    call found it. *)
Definition after {A : Type} (svc : MCPService) (r : result (MCPService * A))
  : MCPService :=
  match r with
  | Ok (svc', _) => svc'
  | Raise _ => svc
  end.

(** A tool list holds a tool of that name. *)
Definition exposes (tool_name : pyval) (ts : list pyval) : Prop :=
  exists t n, In t ts /\ getitem t "name" = Ok n /\ py_eq n tool_name = true.

(** A server exposes the name among its enabled tools. *)
Definition exposes_enabled (tool_name : pyval) (s : MCPServer) : Prop :=
  exists ts, enabled_tools_of s = Ok ts /\ exposes tool_name ts.

(** A refresh that fails: the session raises (the process does not start,
    the handshake fails, the answer is malformed), or what it returns is
    empty. *)
Definition session_fails (session : MCPServer -> result pyval) (server : MCPServer)
  : Prop :=
  (exists e, session server = Raise e) \/
  (exists ts, session server = Ok ts /\ truthy ts = false).

(** The response model keeps to its declaration [content: str]
    (llm_interface.py): it refuses a dictionary as content. *)
Definition content_is_str (content_accepted : pyval -> bool) : Prop :=
  forall d, content_accepted (PDict d) = false.

(** The vendor answers every request with a tool-call request: a text
    that passes the detection of the adapters and parses into a dictionary
    with a [tool_call]. *)
Definition vendor_always_requests_tool
    (vendor : vendor_request -> result vendor_reply)
    (json_loads : string -> option pyval) : Prop :=
  forall req, exists reply s d tool_call,
    vendor req = Ok reply /\ text reply = PStr s /\
    looks_like_tool_call (PStr s) = true /\
    json_loads s = Some (PDict d) /\
    dict_get "tool_call" d = Some tool_call /\ truthy tool_call = true.

(** A tool the listing of [get_mcp_servers] can show: a dictionary with a
    [name]; and a server all of whose tools are such. *)
Definition listable (t : pyval) : Prop :=
  exists d n, t = PDict d /\ dict_get "name" d = Some n.

Definition tools_listable (s : MCPServer) : Prop :=
  exists ts, iter (tools s) = Ok ts /\ Forall listable ts.

(** The administrative operations of the service, and the service after
    one of them. *)
Inductive admin_op : Type :=
| AddServer (n : string) (config : pyval)
| UpdateServer (n : string) (config : pyval)
| RemoveServer (n : string)
| EnableServer (n : string)
| DisableServer (n : string)
| EnableTool (server_name tool_name : string)
| DisableTool (server_name tool_name : string).

Definition apply_op (svc : MCPService) (op : admin_op) : MCPService :=
  match op with
  | AddServer n config => after svc (add_server svc n config)
  | UpdateServer n config => after svc (update_server svc n config)
  | RemoveServer n => fst (remove_server svc n)
  | EnableServer n => fst (enable_server svc n)
  | DisableServer n => fst (disable_server svc n)
  | EnableTool sn tn => after svc (enable_tool svc sn tn)
  | DisableTool sn tn => after svc (disable_tool svc sn tn)
  end.

(** A file that [load_config] reads without falling back: a dictionary
    whose [mcpServers] entry, when present, is a dictionary of
    dictionaries. *)
Definition loadable (f : option file_content) : bool :=
  match f with
  | Some (Document (PDict top)) =>
      match dict_get "mcpServers" top with
      | None => true
      | Some (PDict entries) => forallb (fun e => is_dict (snd e)) entries
      | Some _ => false
      end
  | _ => false
  end.

(** The tool list of a server names [tool_name]. *)
Definition named (tool_name : string) (t : pyval) : Prop :=
  exists n, getitem t "name" = Ok n /\ py_eq n (PStr tool_name) = true.

(** The name of the server a resolution ends with. *)
Definition resolved_name (r : result (option MCPServer)) : result (option string) :=
  match r with
  | Ok found => Ok (option_map name found)
  | Raise e => Raise e
  end.

End Spec.

(** The requests of the chat endpoints and the properties of the tables. *)
Module ChatSpec.
Import LLMFactory Models ChatApi.

Inductive chat_request : Type :=
| CreateChat (chat : ChatCreate.t)
| GetChat (chat_id : Z)
| UpdateChat (chat_id : Z) (chat_update : ChatUpdate.t)
| DeleteChat (chat_id : Z)
| AddMessage (chat_id : Z) (message : MessageCreate.t).

(** The tables after a request of [current_user]. *)
Definition handle (db : database) (current_user : Z) (r : chat_request) : database :=
  match r with
  | CreateChat chat => fst (create_chat db chat current_user)
  | GetChat chat_id => fst (get_chat db chat_id current_user)
  | UpdateChat chat_id u => fst (update_chat db chat_id u current_user)
  | DeleteChat chat_id => fst (delete_chat db chat_id current_user)
  | AddMessage chat_id m => fst (add_message db chat_id m current_user)
  end.

(** The chats that are not the user's, and the messages of chats that are
    not the user's. *)
Definition foreign_chat (current_user : Z) (c : chats.row) : bool :=
  negb (chats.user_id c =? current_user)%Z.

Definition foreign_message (db : database) (current_user : Z) (m : messages.row)
  : bool :=
  negb (existsb (owned (messages.chat_id m) current_user) (chat_rows db)).

(** Every stored chat names a provider and a model the factory accepts. *)
Definition chats_valid (db : database) : Prop :=
  Forall (fun c => validate_provider_config (chats.llm_provider c)
                     (chats.model_name c) = true) (chat_rows db).

(** Primary keys are below the next key and distinct, and every message
    belongs to a stored chat. *)
Definition consistent (db : database) : Prop :=
  Forall (fun c => (chats.id c < next_chat_id db)%Z) (chat_rows db) /\
  NoDup (map chats.id (chat_rows db)) /\
  Forall (fun m => (messages.id m < next_message_id db)%Z) (message_rows db) /\
  NoDup (map messages.id (message_rows db)) /\
  Forall (fun m => In (messages.chat_id m) (map chats.id (chat_rows db)))
    (message_rows db).

(** The setting [stream_chat] reads for each provider. *)
Definition provider_keys (settings : Settings) : list (string * option string) :=
  [ ("openai", OPENAI_API_KEY settings);
    ("anthropic", ANTHROPIC_API_KEY settings);
    ("google", GOOGLE_API_KEY settings);
    ("groq", GROQ_API_KEY settings) ].

(** No key is configured for a provider: it is none of the four, or its
    setting is unset or empty. *)
Definition no_key_configured (settings : Settings) (p : string) : Prop :=
  forall k, In (p, k) (provider_keys settings) -> k = None \/ k = Some "".

(** A key is configured for it. *)
Definition key_configured (settings : Settings) (p : string) : Prop :=
  exists key, In (p, Some key) (provider_keys settings) /\ key <> "".

End ChatSpec.

(** The requests of the configuration endpoints and the properties of
    their table. *)
Module ConfigSpec.
Import LLMFactory Models LlmConfigApi.

Inductive config_request : Type :=
| CreateConfig (config : LLMConfigCreate.t)
| GetConfig (config_id : Z)
| UpdateConfig (config_id : Z) (config_update : LLMConfigUpdate.t)
| DeleteConfig (config_id : Z)
| SetDefault (config_id : Z).

Section Handle.
Variable generate_key : string.
Variable fernet_encrypt : string -> string -> string.

(** The store after a request of [current_user]. *)
Definition handle (st : store) (current_user : Z) (r : config_request) : store :=
  match r with
  | CreateConfig config =>
      fst (create_llm_config generate_key fernet_encrypt st config current_user)
  | GetConfig config_id => fst (get_llm_config st config_id current_user)
  | UpdateConfig config_id u =>
      fst (update_llm_config generate_key fernet_encrypt st config_id u current_user)
  | DeleteConfig config_id => fst (delete_llm_config st config_id current_user)
  | SetDefault config_id => fst (set_default_config st config_id current_user)
  end.
End Handle.

(** The default configurations of a user. *)
Definition defaults_of (u : Z) (rs : list llm_configs.row) : list llm_configs.row :=
  filter (fun r => (llm_configs.user_id r =? u)%Z
                   && is_true (llm_configs.is_default r)) rs.

(** Primary keys are below the next key and distinct, a user has at most
    one default configuration, and at most one configuration for a
    provider. *)
Definition consistent (st : store) : Prop :=
  Forall (fun r => (llm_configs.id r < next_id st)%Z) (rows st) /\
  NoDup (map llm_configs.id (rows st)) /\
  (forall u, (List.length (defaults_of u (rows st)) <= 1)%nat) /\
  NoDup (map (fun r => (llm_configs.user_id r, llm_configs.provider r)) (rows st)).

(** A change of a row that keeps its primary key, its owner and its
    provider. *)
Definition keeps_keys (h : llm_configs.row -> llm_configs.row) (r : llm_configs.row)
  : Prop :=
  llm_configs.id (h r) = llm_configs.id r /\
  llm_configs.user_id (h r) = llm_configs.user_id r /\
  llm_configs.provider (h r) = llm_configs.provider r.

End ConfigSpec.

Module Examples.
Import LLMFactory Providers MCP Chat.

Definition dq : string := String (ascii_of_nat 34) EmptyString.
Definition quoted (s : string) : string := (dq ++ s ++ dq)%string.

Definition gpt : LLMInterface :=
  {| cls := OpenAIProvider; api_key := "sk-openai"; model := "gpt-4";
     default_models := class_default_models OpenAIProvider |}.

(** A reply that is a JSON object in which the marker is a value, not a key. *)
Definition marker_as_value : string :=
  ("{" ++ quoted "a" ++ ": " ++ quoted "tool_call" ++ "}")%string.

(** The tool-call request of the specification's scenario. *)
Definition search_request : string :=
  ("{" ++ quoted "tool_call" ++ ": {" ++ quoted "name" ++ ": " ++ quoted "search"
   ++ ", " ++ quoted "arguments" ++ ": {" ++ quoted "query" ++ ": "
   ++ quoted "cats" ++ "}}}")%string.

Definition reply_with (t : string) : vendor_reply :=
  {| text := PStr t; reply_usage := None; reply_model := "gpt-4";
     reply_finish := Some "stop" |}.

Definition claude : LLMInterface :=
  {| cls := AnthropicProvider; api_key := "sk-ant";
     model := "claude-3-sonnet-20240229";
     default_models := class_default_models AnthropicProvider |}.

(** A chat with a system prompt and a stored message of system role. *)
Definition two_system_messages : list LLMMessage :=
  [ {| role := "system"; content := "You are helpful" |};
    {| role := "user"; content := "search for cats" |};
    {| role := "system"; content := "Answer in French" |} ].

(** The registry of [create_default_config], not yet written to a file. *)
Definition default_service : MCPService :=
  {| servers := default_servers; config_file := None |}.

(** A server process that does not start. *)
Definition no_process (_ : MCPServer) : result pyval :=
  Raise (VendorError "No such file or directory: 'npx'").

Definition params_accepted (_ : MCPServer) : result unit := Ok tt.

Definition search_tool (off : bool) : pyval :=
  PDict [("name", PStr "search"); ("description", PStr "Web search");
         ("disabled", PBool off)].

(** A session that answers with a one-tool listing. *)
Definition one_tool_listed (_ : MCPServer) : result pyval :=
  Ok (PList [search_tool true]).

Definition search_server (n : string) (off : bool) : MCPServer :=
  {| name := n; command := PStr "node"; args := PList [PStr "server.js"];
     env := PDict []; disabled := PBool false; description := PStr "";
     tools := PList [search_tool off] |}.

(** Two enabled servers, each with an enabled tool called search. *)
Definition two_search_servers : MCPService :=
  {| servers := [("web", search_server "web" false);
                 ("images", search_server "images" false)];
     config_file := None |}.

(** One enabled server whose only tool, search, is disabled. *)
Definition search_switched_off : MCPService :=
  {| servers := [("web", search_server "web" true)]; config_file := None |}.

Definition text_response (t : string) : LLMResponse :=
  {| r_content := PStr t; r_usage := None; r_model := "gpt-4";
     r_finish_reason := Some "stop" |}.

(** A vendor that answers every request with the tool-call request, and
    one that answers with plain text. *)
Definition tool_call_vendor (_ : vendor_request) : result vendor_reply :=
  Ok (reply_with search_request).

Definition answer_vendor (_ : vendor_request) : result vendor_reply :=
  Ok (reply_with "Here are 3 links about cats.").

(** The response model on a content that is not a string: refused. *)
Definition str_only (_ : pyval) : bool := false.

(** A registry without servers. *)
Definition no_servers : MCPService := {| servers := []; config_file := None |}.

Definition cats_conversation : list LLMMessage :=
  build_llm_messages (Some "You are helpful")
    [ {| role := "user"; content := "search for cats" |} ].

(** Stand-ins for [str] and [json.dumps], whose text no property reads. *)
Definition show (v : pyval) : string :=
  match v with PStr s => s | _ => "" end.
Definition show_exn (e : exn) : string :=
  match e with
  | HTTPException _ detail => detail
  | ValueError msg => msg
  | VendorError msg => msg
  | KeyError k => k
  | _ => ""
  end.

(** The adapter as [stream_chat] calls it in a turn of a chat on gpt-4
    with that registry, behind it the vendor that asks for the search
    tool. *)
Definition openai_turn (svc : MCPService) (messages : list LLMMessage)
  : result LLMResponse :=
  Providers.generate_response tool_call_vendor Text.loads show str_only gpt
    messages 1000
    [("mcp_context", Chat.mcp_context (get_enabled_servers svc))].

(** A stand-in for [str(e)] that tells the exceptions apart. *)
Definition show_error (e : exn) : string :=
  match e with
  | ValidationError => "1 validation error for LLMResponse"
  | TypeError => "TypeError"
  | AttributeError => "AttributeError"
  | _ => show_exn e
  end.

Definition cats_chat : Models.chats.row :=
  {| Models.chats.id := 1; Models.chats.title := "Cats";
     Models.chats.user_id := 7; Models.chats.llm_provider := "google";
     Models.chats.model_name := "gemini-2.5-pro";
     Models.chats.max_tokens := Some 1000%Z;
     Models.chats.system_prompt := Some "You are helpful" |}.

Definition cats_question : Models.messages.row :=
  {| Models.messages.id := 1; Models.messages.chat_id := 1;
     Models.messages.role := "user";
     Models.messages.content := "search for cats";
     Models.messages.message_metadata := None |}.

(** One user, one chat, one stored message. *)
Definition one_chat_db : Models.database :=
  {| Models.chat_rows := [cats_chat]; Models.message_rows := [cats_question];
     Models.next_chat_id := 2; Models.next_message_id := 2 |}.

Definition google_key_only : Models.Settings :=
  {| Models.OPENAI_API_KEY := None; Models.ANTHROPIC_API_KEY := None;
     Models.GOOGLE_API_KEY := Some "g-key"; Models.GROQ_API_KEY := None |}.

(** A stand-in cipher: the token is the text behind a mark. *)
Definition mark_encrypt (_ plain : string) : string := String "*"%char plain.
Definition mark_decrypt (_ token : string) : result string :=
  match token with
  | String _ plain => Ok plain
  | EmptyString => Raise (ValueError "InvalidToken")
  end.

Definition openai_config : LlmConfigApi.llm_configs.row :=
  {| LlmConfigApi.llm_configs.id := 1;
     LlmConfigApi.llm_configs.user_id := 7;
     LlmConfigApi.llm_configs.provider := "openai";
     LlmConfigApi.llm_configs.api_key := Some "*sk-1";
     LlmConfigApi.llm_configs.model_name := "gpt-4";
     LlmConfigApi.llm_configs.is_default := Some true;
     LlmConfigApi.llm_configs.config_data := None |}.

Definition groq_config : LlmConfigApi.llm_configs.row :=
  {| LlmConfigApi.llm_configs.id := 2;
     LlmConfigApi.llm_configs.user_id := 7;
     LlmConfigApi.llm_configs.provider := "groq";
     LlmConfigApi.llm_configs.api_key := None;
     LlmConfigApi.llm_configs.model_name := "gemma-7b-it";
     LlmConfigApi.llm_configs.is_default := Some false;
     LlmConfigApi.llm_configs.config_data := None |}.

(** One user with two configurations, the first one the default. *)
Definition two_configs : LlmConfigApi.store :=
  {| LlmConfigApi.rows := [openai_config; groq_config];
     LlmConfigApi.next_id := 3;
     LlmConfigApi.key_file := Some "k" |}.

End Examples.

(** * Properties *)

(** ** Dictionaries *)

Section DictFacts.
Context {V : Type}.
Implicit Types (k : string) (v : V) (d : list (string * V)).

Lemma dict_get_In k v d : dict_get k d = Some v -> In (k, v) d.
Proof.
  induction d as [|[k' v'] d IH]; simpl; [discriminate|].
  destruct (String.eqb_spec k k') as [->|_].
  - intros [= ->]. now left.
  - intros H. right. now apply IH.
Qed.

Lemma dict_get_None k d : dict_get k d = None <-> ~ In k (keys d).
Proof.
  induction d as [|[k' v'] d IH]; simpl.
  - split; [intros _ []|reflexivity].
  - destruct (String.eqb_spec k k') as [->|Hne].
    + split; [discriminate|]. intros H. exfalso. apply H. now left.
    + rewrite IH. split.
      * intros H [E|HI]; [now apply Hne|now apply H].
      * intros H HI. apply H. now right.
Qed.

Lemma In_dict_get k v d :
  NoDup (keys d) -> In (k, v) d -> dict_get k d = Some v.
Proof.
  induction d as [|[k' v'] d IH]; simpl; [intros _ []|].
  intros Hnd [E|HI].
  - injection E as -> ->. now rewrite String.eqb_refl.
  - inversion Hnd as [|? ? Hnotin Hnd']; subst.
    destruct (String.eqb_spec k k') as [->|_].
    + exfalso. apply Hnotin. change (In (fst (k', v)) (map fst d)).
      now apply in_map.
    + now apply IH.
Qed.

Lemma dict_get_set_same k v d : dict_get k (dict_set k v d) = Some v.
Proof.
  induction d as [|[k' v'] d IH]; simpl.
  - now rewrite String.eqb_refl.
  - destruct (String.eqb_spec k k') as [->|Hne]; simpl.
    + now rewrite String.eqb_refl.
    + destruct (String.eqb_spec k k'); [contradiction|exact IH].
Qed.

Lemma dict_get_set_other k k' v d :
  k' <> k -> dict_get k' (dict_set k v d) = dict_get k' d.
Proof.
  intros Hne. induction d as [|[k0 v0] d IH]; simpl.
  - destruct (String.eqb_spec k' k); [contradiction|reflexivity].
  - destruct (String.eqb_spec k k0) as [->|Hk]; simpl.
    + destruct (String.eqb_spec k' k0); [contradiction|reflexivity].
    + destruct (String.eqb_spec k' k0); [reflexivity|exact IH].
Qed.

Lemma dict_set_set k v v' d : dict_set k v (dict_set k v' d) = dict_set k v d.
Proof.
  induction d as [|[k0 v0] d IH]; simpl.
  - now rewrite String.eqb_refl.
  - destruct (String.eqb_spec k k0) as [->|Hk]; simpl.
    + now rewrite String.eqb_refl.
    + destruct (String.eqb_spec k k0); [contradiction|]. now rewrite IH.
Qed.

Lemma dict_set_same_value k v d :
  dict_get k d = Some v -> dict_set k v d = d.
Proof.
  induction d as [|[k0 v0] d IH]; simpl; [discriminate|].
  destruct (String.eqb_spec k k0) as [->|_].
  - now intros [= ->].
  - intros H. now rewrite IH.
Qed.

Lemma keys_dict_set k v d :
  dict_get k d <> None -> keys (dict_set k v d) = keys d.
Proof.
  induction d as [|[k0 v0] d IH]; simpl; [congruence|].
  destruct (String.eqb_spec k k0) as [->|Hk]; simpl; [reflexivity|].
  intros H. f_equal. now apply IH.
Qed.
End DictFacts.

(** Closes [In x l -> False] and [~ In x l] for a literal list [l] that
    does not hold [x]. *)
Ltac not_in_literals :=
  let H := fresh "H" in
  simpl; intros H; repeat (destruct H as [H|H]; [discriminate H|]); exact H.

Lemma existsb_eqb_In (m : string) (l : list string) :
  existsb (String.eqb m) l = true <-> In m l.
Proof.
  rewrite existsb_exists. split.
  - intros [x [HI E]]. apply String.eqb_eq in E. now subst.
  - intros HI. exists m. split; [exact HI|apply String.eqb_refl].
Qed.

(** ** The provider factory *)

Section FactoryFacts.
Import LLMFactory.

Lemma provider_info_keys_NoDup : NoDup (keys _provider_info).
Proof.
  unfold keys; simpl.
  repeat (constructor; [not_in_literals|]).
  constructor.
Qed.

Lemma providers_have_info p c :
  dict_get p _providers = Some c ->
  exists info, dict_get p _provider_info = Some info.
Proof.
  unfold _providers, _provider_info; simpl.
  repeat (destruct (String.eqb p _); [eexists; reflexivity|]).
  discriminate.
Qed.

(** C3: [validate_provider_config p m] is true exactly when [p] is one of
    the declared providers and [m] is in the model list declared for it;
    the declared providers are the supported ones.  It is a function into
    [bool]: no effect, no exception. *)
Theorem validate_provider_config_iff (p m : string) :
  (validate_provider_config p m = true <->
   exists info, In (p, info) _provider_info /\ In m (models info)) /\
  (In p (keys _provider_info) <-> In p get_supported_providers).
Proof.
  split; [|reflexivity].
  unfold validate_provider_config. split.
  - destruct (dict_get p _provider_info) as [info|] eqn:E; [|discriminate].
    intros H. exists info. split.
    + now apply dict_get_In.
    + now apply existsb_eqb_In.
  - intros [info [HI Hm]].
    rewrite (In_dict_get _ _ _ provider_info_keys_NoDup HI).
    now apply existsb_eqb_In.
Qed.

(** The second scenario of the specification. *)
Example validate_openai_gpt9 : validate_provider_config "openai" "gpt-9" = false.
Proof. reflexivity. Qed.

(** C4: for an identifier that is not a key of the provider table,
    [create_provider] raises the unsupported-provider error and has built
    no client and sent nothing; for a known identifier and an absent or
    empty model, it builds the adapter of that provider's class bound to
    the default model declared for the provider.  No call of
    [create_provider] sends a request to a vendor. *)
Theorem create_provider_unknown_and_default (p key : string) (m : option string) :
  (forall c, ~ In (VendorRequest c) (fst (create_provider p key m))) /\
  (~ In p get_supported_providers ->
   create_provider p key m =
     ([], Raise (ValueError ("Unsupported provider: " ++ p)%string))) /\
  (In p get_supported_providers -> m = None \/ m = Some "" ->
   exists c info,
     In (p, c) _providers /\
     In (p, info) _provider_info /\
     create_provider p key m =
       ([ClientConstructed c key],
        Ok {| cls := c; api_key := key; model := default_model info;
              default_models := class_default_models c |})).
Proof.
  unfold get_supported_providers, create_provider. split; [|split].
  - intros c.
    destruct (dict_get p _providers); [|now intros []].
    destruct (model_unset m); [destruct (dict_get p _provider_info)|]; simpl;
      intros H; repeat (destruct H as [H|H]; [discriminate H|]); exact H.
  - intros Hn. apply dict_get_None in Hn. now rewrite Hn.
  - intros Hin Hm.
    destruct (dict_get p _providers) as [c|] eqn:Ec.
    + destruct (providers_have_info _ _ Ec) as [info Ei].
      exists c, info. split; [now apply dict_get_In|].
      split; [now apply dict_get_In|].
      rewrite Ei.
      destruct Hm as [-> | ->]; reflexivity.
    + apply dict_get_None in Ec. contradiction.
Qed.

Lemma create_provider_unknown_and_default_witness :
  create_provider "mistral" "sk-1" (Some "mistral-large") =
    ([], Raise (ValueError "Unsupported provider: mistral")) /\
  exists c info,
    In ("google", c) _providers /\
    In ("google", info) _provider_info /\
    create_provider "google" "sk-2" (Some "") =
      ([ClientConstructed c "sk-2"],
       Ok {| cls := c; api_key := "sk-2"; model := default_model info;
             default_models := class_default_models c |}).
Proof.
  split.
  - apply (proj1 (proj2 (create_provider_unknown_and_default "mistral" "sk-1"
                           (Some "mistral-large")))).
    unfold get_supported_providers. not_in_literals.
  - apply (proj2 (proj2 (create_provider_unknown_and_default "google" "sk-2"
                           (Some "")))).
    + unfold get_supported_providers; simpl. tauto.
    + now right.
Defined.

(** C10: the Google adapter advertises "gemini-pro", which the registry's
    validation refuses, and the registry accepts "gemini-2.5-flash", which
    the adapter's own list does not contain. *)
Theorem google_model_lists_disagree (key : string) (m : option string) :
  exists inst,
    create_provider "google" key m = ([ClientConstructed GoogleProvider key], Ok inst) /\
    (In "gemini-pro" (get_available_models inst) /\
     validate_provider_config "google" "gemini-pro" = false) /\
    (validate_provider_config "google" "gemini-2.5-flash" = true /\
     ~ In "gemini-2.5-flash" (get_available_models inst)).
Proof.
  unfold create_provider; simpl.
  destruct (model_unset m); eexists; (split; [reflexivity|]); simpl;
    (repeat split; [tauto|]);
    not_in_literals.
Qed.
End FactoryFacts.

(** ** The adapters *)

Section AdapterFacts.
Import LLMFactory Providers Spec.

Lemma split_system_spec (messages : list LLMMessage) :
  forall sys acc,
    split_system messages sys acc =
      (match last_system messages with Some c => Some c | None => sys end,
       acc ++ format_messages (inline_messages messages)).
Proof.
  induction messages as [|m rest IH]; intros sys acc; simpl.
  - now rewrite app_nil_r.
  - unfold is_system. destruct (String.eqb (role m) "system"); simpl; rewrite IH.
    + now destruct (last_system rest).
    + rewrite <- app_assoc. now destruct (last_system rest).
Qed.

Lemma inline_messages_not_system (messages : list LLMMessage) (m : LLMMessage) :
  In m (inline_messages messages) -> role m <> "system".
Proof.
  unfold inline_messages. rewrite filter_In. intros [_ H] E.
  unfold is_system in H. rewrite E in H. discriminate.
Qed.

Lemma last_system_None (messages : list LLMMessage) :
  last_system messages = None -> forall m, In m messages -> role m <> "system".
Proof.
  induction messages as [|m0 rest IH]; simpl; [intros _ m []|].
  destruct (last_system rest); [discriminate|].
  destruct (is_system m0) eqn:E; [discriminate|].
  intros _ m [<-|HI].
  - unfold is_system in E. intros Hr. rewrite Hr in E. discriminate.
  - now apply IH.
Qed.

Lemma last_system_Some (messages : list LLMMessage) (c : string) :
  last_system messages = Some c ->
  exists before after,
    messages = before ++ {| role := "system"; content := c |} :: after /\
    forall m, In m after -> role m <> "system".
Proof.
  induction messages as [|m0 rest IH]; simpl; [discriminate|].
  destruct (last_system rest) as [c'|] eqn:E.
  - intros [= ->]. destruct (IH eq_refl) as [before [after [-> Hafter]]].
    exists (m0 :: before), after. now split.
  - destruct (is_system m0) eqn:Es; [|discriminate].
    intros [= <-]. exists [], rest. split.
    + unfold is_system in Es. apply String.eqb_eq in Es.
      destruct m0 as [r0 c0]; simpl in *. now subst.
    + now apply last_system_None.
Qed.

(** C7, as the code has it: the Anthropic adapter passes the content of
    the last system-role message through the [system] argument ([None]
    when there is none), and the message list it forwards is the other
    messages in their order, none of them of system role. *)
Theorem anthropic_system_out_of_band (self : LLMInterface)
    (messages : list LLMMessage) (max_tokens : Z) (kwargs : list (string * pyval)) :
  exists system_message,
    anthropic_request self messages max_tokens kwargs =
      AnthropicMessages (model self) max_tokens system_message
        (format_messages (inline_messages messages)) kwargs /\
    (forall m, In m (inline_messages messages) -> role m <> "system") /\
    match system_message with
    | Some c =>
        exists before after,
          messages = before ++ {| role := "system"; content := c |} :: after /\
          forall m, In m after -> role m <> "system"
    | None => forall m, In m messages -> role m <> "system"
    end.
Proof.
  unfold anthropic_request. rewrite split_system_spec. simpl.
  exists (last_system messages). split.
  - now destruct (last_system messages).
  - split; [apply inline_messages_not_system|].
    destruct (last_system messages) as [c|] eqn:E.
    + now apply last_system_Some.
    + now apply last_system_None.
Qed.

(** C7 as stated fails: with two system-role messages the [system]
    argument is the second one, not the first. *)
Lemma anthropic_passes_last_system_message :
  first_system Examples.two_system_messages = Some "You are helpful" /\
  anthropic_request Examples.claude Examples.two_system_messages 1000 [] =
    AnthropicMessages "claude-3-sonnet-20240229" 1000 (Some "Answer in French")
      [PDict [("role", PStr "user"); ("content", PStr "search for cats")]] [] /\
  Some "Answer in French" <> first_system Examples.two_system_messages.
Proof.
  repeat split. discriminate.
Qed.
End AdapterFacts.

Section DetectionFacts.
Import LLMFactory Providers Text.
Variable vendor : vendor_request -> result vendor_reply.
Variable json_loads : string -> option pyval.
Variable py_str : pyval -> string.
Variable content_accepted : pyval -> bool.

Lemma new_LLMResponse_content c u m f :
  match new_LLMResponse content_accepted c u m f with
  | Ok r => r_content r = c
  | Raise e => e = ValidationError /\ content_accepted c = false
  end.
Proof.
  unfold new_LLMResponse.
  destruct c; try reflexivity; destruct (content_accepted _) eqn:E; auto.
Qed.

Lemma detect_tool_call_str (s : string) :
  detect_tool_call json_loads (PStr s) =
    match (if startswith (strip s) "{" && contains "tool_call" s
           then json_loads s else None) with
    | Some v => v
    | None => PStr s
    end.
Proof.
  unfold detect_tool_call, looks_like_tool_call.
  destruct (startswith (strip s) "{" && contains "tool_call" s); [|reflexivity].
  now destruct (json_loads s).
Qed.

(** C8, as the code has it.  For a vendor reply whose text is [s]: the
    OpenAI, Groq and Anthropic adapters hand over the value [json.loads]
    gives for [s] exactly when the stripped text starts with a brace, the
    text contains the substring tool_call (as a key or anywhere else) and
    the parse succeeds; the response then carries that value, or the
    response model refuses it.  In every other case, and always for the
    Google adapter, the response carries the text unchanged. *)
Theorem generate_response_tool_call_detection (self : LLMInterface)
    (messages : list LLMMessage) (max_tokens : Z) (kwargs : list (string * pyval))
    (reply : vendor_reply) (s : string) :
  (forall req, vendor req = Ok reply) ->
  text reply = PStr s ->
  (cls self = AnthropicProvider ->
   exists i o, usage_attr (reply_usage reply) "input_tokens" = Ok i /\
               usage_attr (reply_usage reply) "output_tokens" = Ok o) ->
  match (match cls self with
         | GoogleProvider => None
         | _ => if startswith (strip s) "{" && contains "tool_call" s
                then json_loads s else None
         end) with
  | Some v =>
      match generate_response vendor json_loads py_str content_accepted
              self messages max_tokens kwargs with
      | Ok r => r_content r = v
      | Raise e => e = ValidationError /\ content_accepted v = false
      end
  | None =>
      match generate_response vendor json_loads py_str content_accepted
              self messages max_tokens kwargs with
      | Ok r => r_content r = PStr s
      | Raise _ => False
      end
  end.
Proof.
  intros Hv Ht Hu.
  unfold generate_response, chat_generate_response, anthropic_generate_response,
    google_generate_response.
  destruct (cls self) eqn:Ec; rewrite !Hv; simpl; rewrite Ht.
  - rewrite detect_tool_call_str.
    destruct (if startswith (strip s) "{" && contains "tool_call" s
              then json_loads s else None) as [v|].
    + apply new_LLMResponse_content.
    + reflexivity.
  - destruct (Hu eq_refl) as [i [o [Hi Ho]]]. rewrite Hi, Ho; simpl.
    rewrite detect_tool_call_str.
    destruct (if startswith (strip s) "{" && contains "tool_call" s
              then json_loads s else None) as [v|].
    + apply new_LLMResponse_content.
    + reflexivity.
  - reflexivity.
  - rewrite detect_tool_call_str.
    destruct (if startswith (strip s) "{" && contains "tool_call" s
              then json_loads s else None) as [v|].
    + apply new_LLMResponse_content.
    + reflexivity.
Qed.
End DetectionFacts.

Lemma generate_response_tool_call_detection_witness :
  match Providers.generate_response
          (fun _ => Ok (Examples.reply_with Examples.search_request))
          Text.loads (fun _ => "") (fun _ => true) Examples.gpt [] 1000 [] with
  | Ok r =>
      Providers.r_content r =
        PDict [("tool_call",
                PDict [("name", PStr "search");
                       ("arguments", PDict [("query", PStr "cats")])])]
  | Raise e => e = ValidationError /\ true = false
  end.
Proof.
  apply (generate_response_tool_call_detection
           (fun _ => Ok (Examples.reply_with Examples.search_request))
           Text.loads (fun _ => "") (fun _ => true) Examples.gpt [] 1000 []
           (Examples.reply_with Examples.search_request) Examples.search_request).
  - intros req. reflexivity.
  - reflexivity.
  - intros H. discriminate H.
Defined.

(** C8 as stated fails: a reply that is a JSON object in which tool_call
    occurs as a value has no marker key and requests no tool, and yet the
    adapter parses it: the response carries the parsed object where the
    response model admits one, the call raises where it does not, and in
    neither case is the text carried unchanged. *)
Lemma detection_parses_text_without_marker_key :
  Text.loads Examples.marker_as_value = Some (PDict [("a", PStr "tool_call")]) /\
  dict_get "tool_call" [("a", PStr "tool_call")] = None /\
  Providers.generate_response
    (fun _ => Ok (Examples.reply_with Examples.marker_as_value))
    Text.loads Examples.show (fun _ => true) Examples.gpt [] 1000 []
  = Ok {| Providers.r_content := PDict [("a", PStr "tool_call")];
          Providers.r_usage := None;
          Providers.r_model := "gpt-4";
          Providers.r_finish_reason := Some "stop" |} /\
  Providers.generate_response
    (fun _ => Ok (Examples.reply_with Examples.marker_as_value))
    Text.loads Examples.show (fun _ => false) Examples.gpt [] 1000 []
  = Raise ValidationError /\
  PDict [("a", PStr "tool_call")] <> PStr Examples.marker_as_value.
Proof.
  repeat split. discriminate.
Qed.

(** ** The server registry *)

Section RegistryFacts.
Import MCP Spec.

Lemma new_MCPServer_to_dict (s : MCPServer) :
  new_MCPServer (name s) (to_dict s) = Ok s.
Proof. now destruct s. Qed.

Lemma dict_set_fresh {V : Type} (k : string) (v : V) (d : list (string * V)) :
  ~ In k (keys d) -> dict_set k v d = d ++ [(k, v)].
Proof.
  induction d as [|[k0 v0] d IH]; simpl; [reflexivity|].
  intros H. destruct (String.eqb_spec k k0) as [->|_].
  - exfalso. apply H. now left.
  - f_equal. apply IH. intros HI. apply H. now right.
Qed.

Lemma load_servers_saved (ss acc : list (string * MCPServer)) :
  NoDup (keys (acc ++ ss)) ->
  Forall (fun entry => name (snd entry) = fst entry) ss ->
  load_servers (map (fun entry => (fst entry, to_dict (snd entry))) ss) acc
    = Ok (acc ++ ss).
Proof.
  revert acc. induction ss as [|[k s] ss IH]; intros acc Hnd Hn;
    cbn [map load_servers fst snd].
  - now rewrite app_nil_r.
  - inversion Hn as [|? ? Hk Hn']; subst. simpl in Hk. subst k.
    rewrite new_MCPServer_to_dict. cbn [bind].
    rewrite dict_set_fresh.
    + rewrite IH; [now rewrite <- app_assoc| |exact Hn'].
      now rewrite <- app_assoc.
    + unfold keys in *. rewrite map_app in Hnd. simpl in Hnd.
      apply NoDup_remove_2 in Hnd. intros HI. apply Hnd.
      apply in_or_app. now left.
Qed.

Lemma load_servers_known (ss acc : list (string * MCPServer)) :
  (forall k s, In (k, s) ss -> name s = k /\ dict_get k acc = Some s) ->
  load_servers (map (fun entry => (fst entry, to_dict (snd entry))) ss) acc = Ok acc.
Proof.
  induction ss as [|[k s] ss IH]; intros H; cbn [map load_servers fst snd];
    [reflexivity|].
  destruct (H k s (or_introl eq_refl)) as [Hk Hg]. subst k.
  rewrite new_MCPServer_to_dict. cbn [bind].
  rewrite (dict_set_same_value _ _ _ Hg). apply IH.
  intros k' s' HI. apply H. now right.
Qed.

(** C5: for a registry with one entry per name saved to the configuration
    file, a service started on that file holds the same servers, every
    one with the command, args, env, disabled, description and tools it
    had, and leaves the file as it was written; so does the saving service
    itself when it loads the file again. *)
Theorem load_save_roundtrip (svc : MCPService) :
  well_formed (servers svc) ->
  servers (new_MCPService (config_file (save_config svc))) = servers svc /\
  config_file (new_MCPService (config_file (save_config svc)))
    = config_file (save_config svc) /\
  load_config (save_config svc) = save_config svc.
Proof.
  intros [Hnd Hn].
  unfold new_MCPService, load_config, save_config, config_data; simpl.
  rewrite (load_servers_saved (servers svc) [] Hnd Hn). simpl.
  split; [reflexivity|]. split; [reflexivity|].
  rewrite load_servers_known; [reflexivity|].
  intros k s HI. split.
  - rewrite Forall_forall in Hn. exact (Hn (k, s) HI).
  - now apply In_dict_get.
Qed.

Lemma default_servers_well_formed : well_formed default_servers.
Proof.
  split.
  - unfold keys; simpl.
    repeat (constructor; [not_in_literals|]).
    constructor.
  - repeat constructor.
Defined.

Lemma load_save_roundtrip_witness :
  servers (new_MCPService
             (config_file (save_config {| servers := default_servers;
                                          config_file := None |})))
    = default_servers /\
  config_file (new_MCPService
                 (config_file (save_config {| servers := default_servers;
                                              config_file := None |})))
    = config_file (save_config {| servers := default_servers;
                                  config_file := None |}) /\
  load_config (save_config {| servers := default_servers; config_file := None |})
    = save_config {| servers := default_servers; config_file := None |}.
Proof.
  apply (load_save_roundtrip {| servers := default_servers; config_file := None |}).
  exact default_servers_well_formed.
Defined.

Lemma switch_server_idempotent (v : bool) (svc : MCPService) (n : string) :
  fst (switch_server v (fst (switch_server v svc n)) n) = fst (switch_server v svc n).
Proof.
  unfold switch_server.
  destruct (dict_get n (servers svc)) as [s|] eqn:E; simpl.
  - rewrite dict_get_set_same. simpl. unfold save_config, with_servers; simpl.
    now rewrite dict_set_set.
  - now rewrite E.
Qed.

Lemma switch_first_again (v : bool) (tool_name : string) (ts ts' : list pyval) :
  switch_first v tool_name ts = Ok (Some ts') ->
  switch_first v tool_name ts' = Ok (Some ts').
Proof.
  revert ts'. induction ts as [|tool rest IH]; intros ts'; simpl; [discriminate|].
  destruct (getitem tool "name") as [n|e] eqn:En; simpl; [|discriminate].
  destruct (py_eq n (PStr tool_name)) eqn:Eq.
  - destruct tool as [| | | | |d]; simpl in *; try discriminate.
    intros [= <-]. simpl.
    destruct (dict_get "name" d) as [n'|] eqn:Ed; [|discriminate].
    injection En as ->.
    rewrite dict_get_set_other by discriminate. rewrite Ed. simpl.
    rewrite Eq. simpl. now rewrite dict_set_set.
  - destruct (switch_first v tool_name rest) as [[r|]|e] eqn:Er; simpl;
      try discriminate.
    intros [= <-]. simpl. rewrite En. simpl. rewrite Eq.
    now rewrite (IH r eq_refl).
Qed.

Lemma switch_tool_idempotent (v : bool) (svc : MCPService) (sn tn : string) :
  after (after svc (switch_tool v svc sn tn))
        (switch_tool v (after svc (switch_tool v svc sn tn)) sn tn)
    = after svc (switch_tool v svc sn tn).
Proof.
  destruct (switch_tool v svc sn tn) as [[svc' b]|e] eqn:H; simpl; [|now rewrite H].
  unfold switch_tool, get_server in H.
  destruct (dict_get sn (servers svc)) as [server|] eqn:E.
  2:{ injection H as <- <-. unfold switch_tool, get_server. now rewrite E. }
  destruct (iter (tools server)) as [ts|] eqn:Ei; simpl in H; [|discriminate].
  destruct (switch_first v tn ts) as [[ts'|]|] eqn:Es; simpl in H; try discriminate.
  - injection H as <- <-. unfold switch_tool, get_server; simpl.
    rewrite dict_get_set_same. simpl.
    rewrite (switch_first_again _ _ _ _ Es). simpl.
    unfold save_config, with_servers, set_tools; simpl.
    now rewrite dict_set_set.
  - injection H as <- <-. unfold switch_tool, get_server.
    rewrite E, Ei. simpl. now rewrite Es.
Qed.

(** C6: enabling or disabling a server, or a tool of a server, a second
    time leaves the servers and the configuration file exactly as the
    first time left them; this holds for every name, known or not. *)
Theorem enable_disable_idempotent (svc : MCPService) (server_name tool_name : string) :
  fst (enable_server (fst (enable_server svc server_name)) server_name)
    = fst (enable_server svc server_name) /\
  fst (disable_server (fst (disable_server svc server_name)) server_name)
    = fst (disable_server svc server_name) /\
  after (after svc (enable_tool svc server_name tool_name))
        (enable_tool (after svc (enable_tool svc server_name tool_name))
           server_name tool_name)
    = after svc (enable_tool svc server_name tool_name) /\
  after (after svc (disable_tool svc server_name tool_name))
        (disable_tool (after svc (disable_tool svc server_name tool_name))
           server_name tool_name)
    = after svc (disable_tool svc server_name tool_name).
Proof.
  repeat split.
  - apply switch_server_idempotent.
  - apply switch_server_idempotent.
  - apply switch_tool_idempotent.
  - apply switch_tool_idempotent.
Qed.
End RegistryFacts.

Section RefreshFacts.
Import MCP Spec.
Variable stdio_params : MCPServer -> result unit.
Variable session : MCPServer -> result pyval.

Lemma fetch_tools_returned (svc : MCPService) (n : string) (ts : pyval) :
  fetch_tools_for_server stdio_params session svc n = Ok ts ->
  exists server, get_server svc n = Some server /\ session server = Ok ts.
Proof.
  unfold fetch_tools_for_server.
  destruct (get_server svc n) as [server|]; [|discriminate].
  destruct (negb (truthy (command server))); [discriminate|].
  destruct (stdio_params server); simpl; [|discriminate].
  destruct (command server); try discriminate.
  intros H. now exists server.
Qed.

Lemma refresh_tools_cases (svc : MCPService) (self : MCPServer) :
  refresh_tools stdio_params session svc self = self \/
  exists server ts,
    get_server svc (name self) = Some server /\
    session server = Ok ts /\ truthy ts = true /\
    refresh_tools stdio_params session svc self = set_tools self ts.
Proof.
  unfold refresh_tools.
  destruct (fetch_tools_for_server stdio_params session svc (name self))
    as [ts|e] eqn:E; [|now left].
  destruct (truthy ts) eqn:Et; [|now left].
  right. destruct (fetch_tools_returned _ _ _ E) as [server [Hs Hr]].
  now exists server, ts.
Qed.

Lemma refresh_tools_failed (svc : MCPService) (self : MCPServer) :
  (forall server, get_server svc (name self) = Some server ->
                  session_fails session server) ->
  refresh_tools stdio_params session svc self = self.
Proof.
  intros Hf.
  destruct (refresh_tools_cases svc self) as [H|[server [ts [Hs [Hr [Ht _]]]]]];
    [exact H|].
  destruct (Hf server Hs) as [[e He]|[ts' [He Hn]]]; rewrite Hr in He.
  - discriminate.
  - injection He as <-. rewrite Ht in Hn. discriminate.
Qed.

(** C9: when the refresh of a server fails (the session raises, or what
    it returns is empty) the registry is left exactly as it was, tool
    list included.  In every case the refresh returns without raising,
    the server keeps its name, command, args, env, disabled flag and
    description, the other servers and the file are untouched, and the
    tool list changes only to the listing a session returned. *)
Theorem refresh_failure_keeps_tools (svc : MCPService) (key : string)
    (self : MCPServer) :
  get_server svc key = Some self ->
  ((forall server, get_server svc (name self) = Some server ->
                   session_fails session server) ->
   refresh_server stdio_params session svc key = svc) /\
  (exists self',
     get_server (refresh_server stdio_params session svc key) key = Some self' /\
     name self' = name self /\ command self' = command self /\
     args self' = args self /\ env self' = env self /\
     disabled self' = disabled self /\ description self' = description self /\
     (tools self' = tools self \/
      exists server ts,
        get_server svc (name self) = Some server /\
        session server = Ok ts /\ truthy ts = true /\ tools self' = ts)) /\
  keys (servers (refresh_server stdio_params session svc key)) = keys (servers svc) /\
  config_file (refresh_server stdio_params session svc key) = config_file svc /\
  (forall k, k <> key ->
     get_server (refresh_server stdio_params session svc key) k = get_server svc k).
Proof.
  unfold get_server, refresh_server. intros Hg. rewrite Hg. simpl.
  split; [|split; [|split; [|split]]].
  - intros Hf. rewrite (refresh_tools_failed svc self Hf).
    rewrite (dict_set_same_value _ _ _ Hg). now destruct svc.
  - exists (refresh_tools stdio_params session svc self).
    rewrite dict_get_set_same. split; [reflexivity|].
    destruct (refresh_tools_cases svc self) as [->|[server [ts [Hs [Hr [Ht ->]]]]]].
    + repeat split; try reflexivity. now left.
    + simpl. repeat split; try reflexivity. right. now exists server, ts.
  - apply keys_dict_set. rewrite Hg. discriminate.
  - reflexivity.
  - intros k Hk. now apply dict_get_set_other.
Qed.

(** The [print] of [fetch_tools_for_server] adds [server.command] to a
    string: for a command that is a list, the form of every default
    server, the fetch raises before any process is started and the
    refresh changes nothing. *)
Lemma refresh_tools_list_command (svc : MCPService) (self : MCPServer) :
  (forall server, get_server svc (name self) = Some server ->
                  exists l, command server = PList l) ->
  refresh_tools stdio_params session svc self = self.
Proof.
  intros H. unfold refresh_tools, fetch_tools_for_server.
  destruct (get_server svc (name self)) as [server|] eqn:E; [|reflexivity].
  destruct (H server eq_refl) as [l Hl]. rewrite Hl.
  destruct (negb (truthy (PList l))); [reflexivity|].
  now destruct (stdio_params server).
Qed.

(** At startup every server is refreshed in turn: when every session
    fails, the registry comes out as it went in. *)
Lemma refresh_all_failed (svc : MCPService) :
  (forall server, session_fails session server) ->
  refresh_all_mcp_tools stdio_params session svc = svc.
Proof.
  intros Hf. unfold refresh_all_mcp_tools.
  induction (keys (servers svc)) as [|key rest IH]; simpl; [reflexivity|].
  assert (E : refresh_server stdio_params session svc key = svc).
  { unfold refresh_server.
    destruct (dict_get key (servers svc)) as [self|] eqn:Hg; [|reflexivity].
    rewrite (refresh_tools_failed svc self (fun server _ => Hf server)).
    rewrite (dict_set_same_value _ _ _ Hg). now destruct svc. }
  rewrite E. exact IH.
Qed.
End RefreshFacts.

Lemma refresh_failure_keeps_tools_witness :
  MCP.refresh_server Examples.params_accepted Examples.no_process
    Examples.two_search_servers "web" = Examples.two_search_servers.
Proof.
  refine (proj1 (refresh_failure_keeps_tools Examples.params_accepted
                   Examples.no_process Examples.two_search_servers "web"
                   _ eq_refl) _).
  intros server _. left. eexists. reflexivity.
Defined.

(** A refresh that succeeds does replace the tool list. *)
Example refresh_success_replaces_tools :
  MCP.get_server
    (MCP.refresh_server Examples.params_accepted Examples.one_tool_listed
       Examples.two_search_servers "web") "web"
  = Some (MCP.set_tools (Examples.search_server "web" false)
            (PList [Examples.search_tool true])).
Proof. reflexivity. Qed.

(** ** Tool resolution and the tool-call loop *)

Section ResolutionFacts.
Import MCP Chat Spec.

Lemma any_named_exposes (tool_name : pyval) (ts : list pyval) (b : bool) :
  any_named tool_name ts = Ok b -> exposes tool_name ts -> b = true.
Proof.
  induction ts as [|t0 rest IH]; simpl.
  - intros _ [t [n [[] _]]].
  - destruct (getitem t0 "name") as [n0|e] eqn:E0; simpl; [|discriminate].
    destruct (py_eq n0 tool_name) eqn:Eq; [now intros [= <-]|].
    intros H [t [n [[<-|HI] [Hn Hp]]]].
    + rewrite E0 in Hn. injection Hn as ->. rewrite Eq in Hp. discriminate.
    + apply IH; [exact H|]. now exists t, n.
Qed.

Lemma enabled_only_In (ts ts' : list pyval) (t : pyval) :
  enabled_only ts = Ok ts' -> In t ts' -> In t ts.
Proof.
  revert ts'. induction ts as [|t0 rest IH]; intros ts'; simpl.
  - now intros [= <-].
  - destruct (get_default t0 "disabled" (PBool false)) as [d|]; simpl; [|discriminate].
    destruct (enabled_only rest) as [r|]; simpl; [|discriminate].
    destruct (truthy d); intros [= <-].
    + intros HI. right. now apply (IH r).
    + intros [<-|HI]; [now left|right; now apply (IH r)].
Qed.

Lemma exposes_enabled_listed (tool_name : pyval) (s : MCPServer) (b : bool) :
  exposes_enabled tool_name s -> lists_tool tool_name s = Ok b -> b = true.
Proof.
  unfold exposes_enabled, enabled_tools_of, lists_tool.
  intros [ts' [He [t [n [HI [Hn Hp]]]]]].
  destruct (iter (tools s)) as [ts|]; simpl in *; [|discriminate].
  intros Ha. apply (any_named_exposes _ _ _ Ha).
  exists t, n. split; [now apply (enabled_only_In ts ts')|now split].
Qed.

Lemma find_server_found (tool_name : pyval) (ss : list MCPServer) (s : MCPServer) :
  find_server tool_name ss = Ok (Some s) ->
  lists_tool tool_name s = Ok true /\
  exists before after,
    ss = before ++ s :: after /\
    Forall (fun s' => lists_tool tool_name s' = Ok false) before.
Proof.
  induction ss as [|s0 rest IH]; simpl; [discriminate|].
  destruct (lists_tool tool_name s0) as [[|]|] eqn:E; simpl; try discriminate.
  - intros [= <-]. split; [exact E|]. now exists [], rest.
  - intros H. destruct (IH H) as [Hl [before [after [-> Hb]]]].
    split; [exact Hl|]. exists (s0 :: before), after. split; [reflexivity|].
    now constructor.
Qed.

Lemma find_server_none (tool_name : pyval) (ss : list MCPServer) :
  find_server tool_name ss = Ok None <->
  Forall (fun s => lists_tool tool_name s = Ok false) ss.
Proof.
  induction ss as [|s0 rest IH]; simpl.
  - split; [constructor|reflexivity].
  - destruct (lists_tool tool_name s0) as [[|]|] eqn:E; simpl.
    + split; [discriminate|]. intros H. inversion H; congruence.
    + rewrite IH. split; [now constructor|]. intros H. now inversion H.
    + split; [discriminate|]. intros H. inversion H; congruence.
Qed.

Lemma find_server_total (tool_name : pyval) (ss : list MCPServer) :
  (forall s, In s ss -> exists b, lists_tool tool_name s = Ok b) ->
  exists r, find_server tool_name ss = Ok r.
Proof.
  induction ss as [|s0 rest IH]; simpl; intros H; [now eexists|].
  destruct (H s0 (or_introl eq_refl)) as [b ->]. simpl.
  destruct b; [now eexists|]. apply IH. intros s HI. apply H. now right.
Qed.

Lemma In_enabled_servers (svc : MCPService) (s : MCPServer) :
  In s (values (get_enabled_servers svc)) ->
  truthy (disabled s) = false /\ In s (values (servers svc)).
Proof.
  unfold values, get_enabled_servers. rewrite in_map_iff.
  intros [[k s'] [<- HI]]. apply filter_In in HI. destruct HI as [HI Hd].
  simpl in *. split.
  - now destruct (truthy (disabled s')).
  - apply in_map_iff. now exists (k, s').
Qed.

End ResolutionFacts.

Section LoopFacts.
Import LLMFactory Providers MCP Chat Spec.
Variable vendor : vendor_request -> result vendor_reply.
Variable json_loads : string -> option pyval.
Variable py_str : pyval -> string.
Variable content_accepted : pyval -> bool.
Variable json_dumps : pyval -> string.
Variable exn_str : exn -> string.

Local Abbreviation adapter self max_tokens kwargs :=
  (fun messages =>
     generate_response vendor json_loads py_str content_accepted self messages
       max_tokens kwargs).

Lemma new_LLMResponse_no_request (c : pyval) (u : option (list (string * pyval)))
    (m : string) (f : option string) (r : LLMResponse) :
  content_is_str content_accepted ->
  new_LLMResponse content_accepted c u m f = Ok r ->
  r_content r = c /\ requested_tool_call r = None.
Proof.
  intros H. unfold new_LLMResponse, requested_tool_call.
  destruct c as [| | | | |d]; [| | | | |rewrite (H d); discriminate];
    try (destruct (content_accepted _); [|discriminate]);
    intros [= <-]; split; reflexivity.
Qed.

Lemma adapter_never_requests (self : LLMInterface) (max_tokens : Z)
    (kwargs : list (string * pyval)) (messages : list LLMMessage)
    (response : LLMResponse) :
  content_is_str content_accepted ->
  adapter self max_tokens kwargs messages = Ok response ->
  requested_tool_call response = None.
Proof.
  intros H. unfold generate_response, chat_generate_response,
    anthropic_generate_response, google_generate_response.
  destruct (cls self).
  - destruct (vendor _) as [reply|]; simpl; [|discriminate].
    intros Hr. now destruct (new_LLMResponse_no_request _ _ _ _ _ H Hr).
  - destruct (vendor _) as [reply|]; simpl; [|discriminate].
    destruct (usage_attr _ "input_tokens"); simpl; [|discriminate].
    destruct (usage_attr _ "output_tokens"); simpl; [|discriminate].
    intros Hr. now destruct (new_LLMResponse_no_request _ _ _ _ _ H Hr).
  - destruct (vendor _) as [reply|]; simpl; [|discriminate].
    intros Hr. now destruct (new_LLMResponse_no_request _ _ _ _ _ H Hr).
  - destruct (vendor _) as [reply|]; simpl; [|discriminate].
    intros Hr. now destruct (new_LLMResponse_no_request _ _ _ _ _ H Hr).
Qed.

Lemma first_pass_ends (gen : list LLMMessage -> result LLMResponse)
    (enabled_servers : list (string * MCPServer)) :
  (forall messages response,
     gen messages = Ok response -> requested_tool_call response = None) ->
  forall fuel st,
    tool_call_loop gen py_str json_dumps enabled_servers (S fuel) st =
      Some (match gen (current_messages st) with
            | Ok final => Ok (final, tool_call_chain st)
            | Raise e => Raise e
            end) /\
    after_passes gen py_str json_dumps enabled_servers (S fuel) st = None.
Proof.
  intros Hgen fuel st. simpl. unfold loop_body.
  destruct (gen (current_messages st)) as [response|e] eqn:E; simpl.
  - rewrite (Hgen _ _ E). split; reflexivity.
  - split; reflexivity.
Qed.

Lemma stream_chat_first_pass (gen : list LLMMessage -> result LLMResponse)
    (enabled_servers : list (string * MCPServer)) :
  (forall messages response,
     gen messages = Ok response -> requested_tool_call response = None) ->
  forall fuel llm_messages,
    stream_chat gen py_str json_dumps exn_str enabled_servers (S fuel) llm_messages =
      match gen llm_messages with
      | Ok final =>
          Some (Ok (PDict [ ("content", r_content final); ("done", PBool true);
                            ("tool_calls", PList []) ]))
      | Raise e =>
          Some (Raise (HTTPException 500
                         ("Error generating response: " ++ exn_str e)%string))
      end.
Proof.
  intros Hgen fuel llm_messages. unfold stream_chat.
  rewrite (proj1 (first_pass_ends gen enabled_servers Hgen fuel _)).
  cbn [current_messages tool_call_chain].
  now destruct (gen llm_messages).
Qed.

Lemma detect_tool_call_request (s : string) (d : list (string * pyval)) :
  looks_like_tool_call (PStr s) = true -> json_loads s = Some (PDict d) ->
  detect_tool_call json_loads (PStr s) = PDict d.
Proof. intros Hl Hj. unfold detect_tool_call. now rewrite Hl, Hj. Qed.

Lemma tool_request_outcome (self : LLMInterface) (max_tokens : Z)
    (kwargs : list (string * pyval)) (messages : list LLMMessage) :
  content_is_str content_accepted ->
  vendor_always_requests_tool vendor json_loads ->
  match cls self with
  | GoogleProvider =>
      exists final s, adapter self max_tokens kwargs messages = Ok final /\
                      r_content final = PStr s /\
                      looks_like_tool_call (PStr s) = true
  | AnthropicProvider => exists e, adapter self max_tokens kwargs messages = Raise e
  | _ => adapter self max_tokens kwargs messages = Raise ValidationError
  end.
Proof.
  intros Hc Hv. unfold generate_response, chat_generate_response,
    anthropic_generate_response, google_generate_response.
  destruct (cls self).
  - destruct (Hv (ChatCompletion OpenAIProvider (model self)
                    (format_messages messages) max_tokens kwargs))
      as [reply [s [d [tc [-> [Ht [Hl [Hj _]]]]]]]].
    simpl. rewrite Ht, (detect_tool_call_request s d Hl Hj).
    unfold new_LLMResponse. now rewrite (Hc d).
  - destruct (Hv (anthropic_request self messages max_tokens kwargs))
      as [reply [s [d [tc [-> [Ht [Hl [Hj _]]]]]]]].
    simpl. rewrite Ht, (detect_tool_call_request s d Hl Hj).
    destruct (usage_attr _ "input_tokens"); simpl; [|now eexists].
    destruct (usage_attr _ "output_tokens"); simpl; [|now eexists].
    unfold new_LLMResponse. rewrite (Hc d). now eexists.
  - match goal with
    | |- context [vendor ?req] =>
        destruct (Hv req) as [reply [s [d [tc [-> [Ht [Hl _]]]]]]]
    end.
    simpl. rewrite Ht. simpl. eexists. exists s. now repeat split.
  - destruct (Hv (ChatCompletion GroqProvider (model self)
                    (format_messages messages) max_tokens kwargs))
      as [reply [s [d [tc [-> [Ht [Hl [Hj _]]]]]]]].
    simpl. rewrite Ht, (detect_tool_call_request s d Hl Hj).
    unfold new_LLMResponse. now rewrite (Hc d).
Qed.


End LoopFacts.

Lemma tool_call_vendor_requests :
  Spec.vendor_always_requests_tool Examples.tool_call_vendor Text.loads.
Proof.
  intros req.
  exists (Examples.reply_with Examples.search_request), Examples.search_request.
  do 2 eexists. repeat split; vm_compute; reflexivity.
Defined.

Lemma str_only_is_str : Spec.content_is_str Examples.str_only.
Proof. intros d. reflexivity. Defined.





(** ** The registry under its administrative operations *)

Section AdminFacts.
Import MCP Spec.

Lemma new_MCPServer_name (n : string) (config : pyval) (s : MCPServer) :
  new_MCPServer n config = Ok s -> name s = n.
Proof.
  unfold new_MCPServer. destruct config; simpl; try discriminate.
  now intros [= <-].
Qed.

Lemma new_MCPServer_dict (n : string) (config : pyval) :
  is_dict config = true -> exists s, new_MCPServer n config = Ok s.
Proof.
  destruct config; simpl; try discriminate. intros _. now eexists.
Qed.

Lemma new_MCPServer_not_dict (n : string) (config : pyval) :
  is_dict config = false -> new_MCPServer n config = Raise AttributeError.
Proof. destruct config; simpl; try discriminate; reflexivity. Qed.

Lemma keys_dict_set_cases {V : Type} (k : string) (v : V) (d : list (string * V)) :
  keys (dict_set k v d) = if dict_mem k d then keys d else keys d ++ [k].
Proof.
  unfold dict_mem. induction d as [|[k0 v0] d IH]; simpl; [reflexivity|].
  destruct (String.eqb_spec k k0) as [->|_]; simpl; [reflexivity|].
  rewrite IH. now destruct (dict_get k d).
Qed.

Lemma dict_mem_In {V : Type} (k : string) (d : list (string * V)) :
  dict_mem k d = true <-> In k (keys d).
Proof.
  unfold dict_mem. destruct (dict_get k d) eqn:E.
  - split; [|reflexivity]. intros _.
    apply dict_get_In in E. apply in_map_iff. now exists (k, v).
  - apply dict_get_None in E. split; [discriminate|contradiction].
Qed.

Lemma In_dict_set {V : Type} (k : string) (v : V) (d : list (string * V))
    (e : string * V) :
  In e (dict_set k v d) -> e = (k, v) \/ In e d.
Proof.
  induction d as [|[k0 v0] d IH]; simpl.
  - intros [<-|[]]. now left.
  - destruct (String.eqb_spec k k0) as [->|_]; simpl.
    + intros [<-|H]; [now left|right; now right].
    + intros [<-|H]; [right; now left|].
      destruct (IH H) as [->|H']; [now left|right; now right].
Qed.

Lemma well_formed_dict_set (ss : list (string * MCPServer)) (k : string)
    (s : MCPServer) :
  well_formed ss -> name s = k -> well_formed (dict_set k s ss).
Proof.
  intros [Hnd Hn] Hk. split.
  - rewrite keys_dict_set_cases. destruct (dict_mem k ss) eqn:E; [exact Hnd|].
    unfold keys in *. apply NoDup_app; [exact Hnd|repeat constructor; now intros []|].
    intros x Hx [Ex|[]]. subst x.
    assert (dict_mem k ss = true) by now apply dict_mem_In.
    congruence.
  - apply Forall_forall. intros e He.
    destruct (In_dict_set _ _ _ _ He) as [->|H]; [exact Hk|].
    rewrite Forall_forall in Hn. now apply Hn.
Qed.

Lemma In_dict_del {V : Type} (k : string) (d : list (string * V)) (e : string * V) :
  In e (dict_del k d) -> In e d.
Proof.
  induction d as [|[k0 v0] d IH]; simpl; [now intros []|].
  destruct (String.eqb_spec k k0) as [->|_]; simpl.
  - intros H. now right.
  - intros [<-|H]; [now left|right; now apply IH].
Qed.

Lemma keys_dict_del_NoDup {V : Type} (k : string) (d : list (string * V)) :
  NoDup (keys d) -> NoDup (keys (dict_del k d)) /\ ~ In k (keys (dict_del k d)).
Proof.
  induction d as [|[k0 v0] d IH]; simpl; intros Hnd.
  - split; [constructor|now intros []].
  - inversion Hnd as [|? ? Hnotin Hnd']; subst.
    destruct (String.eqb_spec k k0) as [->|Hne]; simpl.
    + now split.
    + destruct (IH Hnd') as [H1 H2]. split.
      * constructor; [|exact H1]. intros HI. apply Hnotin.
        unfold keys in *. apply in_map_iff in HI. destruct HI as [e [<- He]].
        apply in_map. now apply (In_dict_del k).
      * intros [E|HI]; [now apply Hne|now apply H2].
Qed.

Lemma well_formed_dict_del (ss : list (string * MCPServer)) (k : string) :
  well_formed ss -> well_formed (dict_del k ss).
Proof.
  intros [Hnd Hn]. split.
  - now apply keys_dict_del_NoDup.
  - apply Forall_forall. intros e He. rewrite Forall_forall in Hn.
    apply Hn. now apply (In_dict_del k).
Qed.

Lemma load_servers_well_formed (entries : list (string * pyval))
    (acc loaded : list (string * MCPServer)) :
  well_formed acc -> load_servers entries acc = Ok loaded -> well_formed loaded.
Proof.
  revert acc. induction entries as [|[n config] rest IH]; intros acc Hw; simpl.
  - now intros [= <-].
  - destruct (new_MCPServer n config) as [s|] eqn:E; simpl; [|discriminate].
    apply IH. apply well_formed_dict_set; [exact Hw|].
    now apply (new_MCPServer_name n config).
Qed.

Lemma well_formed_nil : well_formed [].
Proof. split; constructor. Qed.

Lemma load_config_well_formed (svc : MCPService) :
  well_formed (servers svc) -> well_formed (servers (load_config svc)).
Proof.
  intros Hw. unfold load_config.
  destruct (config_file svc) as [[|data]|]; try exact default_servers_well_formed.
  destruct (get_default data "mcpServers" (PDict [])) as [m|]; simpl;
    [|exact default_servers_well_formed].
  destruct (items m) as [entries|]; simpl; [|exact default_servers_well_formed].
  destruct (load_servers entries (servers svc)) as [loaded|] eqn:E;
    [|exact default_servers_well_formed].
  simpl. now apply (load_servers_well_formed entries (servers svc)).
Qed.

Lemma apply_op_cases (svc : MCPService) (op : admin_op) :
  apply_op svc op = svc \/
  exists ss, apply_op svc op = save_config (with_servers svc ss) /\
             (well_formed (servers svc) -> well_formed ss).
Proof.
  destruct op as [n c|n c|n|n|n|sn tn|sn tn]; simpl.
  - unfold add_server.
    destruct (new_MCPServer n c) as [s|] eqn:E; simpl; [|now left].
    right. eexists. split; [reflexivity|]. intros Hw.
    apply well_formed_dict_set; [exact Hw|now apply (new_MCPServer_name n c)].
  - unfold update_server. destruct (dict_mem n (servers svc)); [|now left].
    destruct (new_MCPServer n c) as [s|] eqn:E; simpl; [|now left].
    right. eexists. split; [reflexivity|]. intros Hw.
    apply well_formed_dict_set; [exact Hw|now apply (new_MCPServer_name n c)].
  - unfold remove_server. destruct (dict_mem n (servers svc)); [|now left].
    right. eexists. split; [reflexivity|]. apply well_formed_dict_del.
  - unfold enable_server, switch_server.
    destruct (dict_get n (servers svc)) as [s|] eqn:E; [|now left].
    right. eexists. split; [reflexivity|]. intros Hw.
    apply well_formed_dict_set; [exact Hw|]. simpl.
    destruct Hw as [_ Hn]. rewrite Forall_forall in Hn.
    exact (Hn (n, s) (dict_get_In _ _ _ E)).
  - unfold disable_server, switch_server.
    destruct (dict_get n (servers svc)) as [s|] eqn:E; [|now left].
    right. eexists. split; [reflexivity|]. intros Hw.
    apply well_formed_dict_set; [exact Hw|]. simpl.
    destruct Hw as [_ Hn]. rewrite Forall_forall in Hn.
    exact (Hn (n, s) (dict_get_In _ _ _ E)).
  - unfold enable_tool, switch_tool, get_server.
    destruct (dict_get sn (servers svc)) as [s|] eqn:E; [|now left].
    destruct (iter (tools s)) as [ts|]; simpl; [|now left].
    destruct (switch_first false tn ts) as [[ts'|]|]; simpl; try now left.
    right. eexists. split; [reflexivity|]. intros Hw.
    apply well_formed_dict_set; [exact Hw|]. simpl.
    destruct Hw as [_ Hn]. rewrite Forall_forall in Hn.
    exact (Hn (sn, s) (dict_get_In _ _ _ E)).
  - unfold disable_tool, switch_tool, get_server.
    destruct (dict_get sn (servers svc)) as [s|] eqn:E; [|now left].
    destruct (iter (tools s)) as [ts|]; simpl; [|now left].
    destruct (switch_first true tn ts) as [[ts'|]|]; simpl; try now left.
    right. eexists. split; [reflexivity|]. intros Hw.
    apply well_formed_dict_set; [exact Hw|]. simpl.
    destruct Hw as [_ Hn]. rewrite Forall_forall in Hn.
    exact (Hn (sn, s) (dict_get_In _ _ _ E)).
Qed.

Lemma restart_after_save (svc : MCPService) :
  well_formed (servers svc) ->
  servers (new_MCPService (config_file (save_config svc))) = servers svc.
Proof.
  intros [Hnd Hn].
  unfold new_MCPService, load_config, save_config, config_data; simpl.
  now rewrite (load_servers_saved (servers svc) [] Hnd Hn).
Qed.

Lemma restart_after_default (svc : MCPService) :
  servers (new_MCPService (config_file (create_default_config svc)))
    = servers (create_default_config svc).
Proof.
  apply (restart_after_save (with_servers svc default_servers)).
  exact default_servers_well_formed.
Qed.

Lemma restart_after_start (f : option file_content) :
  servers (new_MCPService (config_file (new_MCPService f))) = servers (new_MCPService f).
Proof.
  destruct f as [[|data]|].
  - apply (restart_after_default {| servers := []; config_file := Some Unreadable |}).
  - unfold new_MCPService at 2 3. unfold load_config. cbn [config_file].
    destruct (get_default data "mcpServers" (PDict [])) as [m|] eqn:Em; cbn [bind];
      [|apply restart_after_default].
    destruct (items m) as [entries|] eqn:Ei; cbn [bind];
      [|apply restart_after_default].
    cbn [servers]. destruct (load_servers entries []) as [loaded|] eqn:El;
      [|apply restart_after_default].
    unfold new_MCPService, load_config. cbn [config_file with_servers servers].
    rewrite Em. cbn [bind]. rewrite Ei. cbn [bind]. now rewrite El.
  - apply (restart_after_default {| servers := []; config_file := None |}).
Qed.

(** Whatever file the service starts on and whatever administrative
    operations follow, known or unknown names, accepted or raising, the
    registry has one entry per name, each server under its own name, and
    the file is in step with it: a service started on the file at that
    point holds the same servers. *)
Theorem registry_survives_restart (f : option file_content) (ops : list admin_op) :
  well_formed (servers (fold_left apply_op ops (new_MCPService f))) /\
  servers (new_MCPService
             (config_file (fold_left apply_op ops (new_MCPService f))))
    = servers (fold_left apply_op ops (new_MCPService f)).
Proof.
  assert (H0 : well_formed (servers (new_MCPService f)) /\
               servers (new_MCPService (config_file (new_MCPService f)))
                 = servers (new_MCPService f)).
  { split; [|apply restart_after_start].
    unfold new_MCPService. apply load_config_well_formed. exact well_formed_nil. }
  revert H0. generalize (new_MCPService f) as svc.
  induction ops as [|op rest IH]; intros svc [Hw Hr]; simpl; [now split|].
  apply IH. destruct (apply_op_cases svc op) as [->|[ss [-> Hss]]]; [now split|].
  split; [now apply Hss|].
  apply (restart_after_save (with_servers svc ss)). now apply Hss.
Qed.
End AdminFacts.

Section ServerFacts.
Import MCP Chat Spec.

Lemma dict_del_set_fresh {V : Type} (k : string) (v : V) (d : list (string * V)) :
  dict_get k d = None -> dict_del k (dict_set k v d) = d.
Proof.
  induction d as [|[k0 v0] d IH]; simpl.
  - now rewrite String.eqb_refl.
  - destruct (String.eqb_spec k k0) as [->|Hne]; [discriminate|]. simpl.
    destruct (String.eqb_spec k k0); [contradiction|]. intros H. now rewrite IH.
Qed.

Lemma dict_get_del_other {V : Type} (k k' : string) (d : list (string * V)) :
  k' <> k -> dict_get k' (dict_del k d) = dict_get k' d.
Proof.
  intros Hne. induction d as [|[k0 v0] d IH]; simpl; [reflexivity|].
  destruct (String.eqb_spec k k0) as [->|Hk]; simpl.
  - destruct (String.eqb_spec k' k0); [contradiction|reflexivity].
  - destruct (String.eqb_spec k' k0); [reflexivity|exact IH].
Qed.

Lemma dict_mem_set {V : Type} (k : string) (v : V) (d : list (string * V)) :
  dict_mem k (dict_set k v d) = true.
Proof. unfold dict_mem. now rewrite dict_get_set_same. Qed.

(** [add_server] raises on a configuration that is not a dictionary and
    otherwise stores the server under its name, where [get_server] finds
    it, leaving every other name as it was; an existing server of that
    name is overwritten without an error.  Removing a server that was added
    under a new name gives back the servers there were before. *)
Theorem add_server_then_lookup_and_remove (svc : MCPService) (n : string)
    (config : pyval) :
  (is_dict config = false -> add_server svc n config = Raise AttributeError) /\
  (is_dict config = true ->
   exists server svc',
     add_server svc n config = Ok (svc', server) /\
     name server = n /\
     get_server svc' n = Some server /\
     (forall k, k <> n -> get_server svc' k = get_server svc k) /\
     (get_server svc n = None ->
      snd (remove_server svc' n) = true /\
      servers (fst (remove_server svc' n)) = servers svc)).
Proof.
  split.
  - intros H. unfold add_server. now rewrite (new_MCPServer_not_dict n config H).
  - intros H. destruct (new_MCPServer_dict n config H) as [server E].
    unfold add_server. rewrite E. simpl. do 2 eexists. split; [reflexivity|].
    split; [now apply (new_MCPServer_name n config)|].
    unfold get_server; simpl. split; [apply dict_get_set_same|].
    split; [intros k Hk; now apply dict_get_set_other|].
    intros Hnone. unfold remove_server; simpl. rewrite dict_mem_set. simpl.
    split; [reflexivity|]. now apply dict_del_set_fresh.
Qed.

Lemma add_server_then_lookup_and_remove_witness :
  exists server svc',
    add_server Examples.default_service "git"
      (PDict [("command", PList [PStr "uvx"])]) = Ok (svc', server) /\
    name server = "git" /\
    get_server svc' "git" = Some server /\
    (forall k, k <> "git" -> get_server svc' k = get_server Examples.default_service k) /\
    (get_server Examples.default_service "git" = None ->
     snd (remove_server svc' "git") = true /\
     servers (fst (remove_server svc' "git")) = servers Examples.default_service).
Proof.
  apply (proj2 (add_server_then_lookup_and_remove Examples.default_service "git"
                  (PDict [("command", PList [PStr "uvx"])]))).
  reflexivity.
Defined.

(** [remove_server] reports whether the name was known; an unknown name
    leaves the service and the file untouched, a known one is gone
    afterwards while every other server stays as it was. *)
Theorem remove_server_forgets (svc : MCPService) (n : string) :
  well_formed (servers svc) ->
  (snd (remove_server svc n) = false <-> get_server svc n = None) /\
  (get_server svc n = None -> fst (remove_server svc n) = svc) /\
  get_server (fst (remove_server svc n)) n = None /\
  (forall k, k <> n ->
     get_server (fst (remove_server svc n)) k = get_server svc k).
Proof.
  intros [Hnd _]. unfold remove_server, get_server, dict_mem.
  destruct (dict_get n (servers svc)) as [s|] eqn:E; simpl.
  - split; [split; discriminate|]. split; [discriminate|]. split.
    + apply dict_get_None. now apply keys_dict_del_NoDup.
    + intros k Hk. now apply dict_get_del_other.
  - split; [now split|]. split; [reflexivity|]. split; [exact E|reflexivity].
Qed.

Lemma remove_server_forgets_witness :
  get_server (fst (remove_server Examples.default_service "sqlite")) "sqlite" = None.
Proof.
  exact (proj1 (proj2 (proj2 (remove_server_forgets Examples.default_service
                                "sqlite" default_servers_well_formed)))).
Defined.

(** [update_server] does nothing for an unknown name.  For a known one it
    replaces the server where it stands, so the order of the registry is
    kept, and it replaces rather than merges: what the new configuration
    does not mention goes back to its default, so a server that was
    switched off is enabled again and its tool list is emptied. *)
Theorem update_server_replaces (svc : MCPService) (n : string)
    (d : list (string * pyval)) :
  (get_server svc n = None -> update_server svc n (PDict d) = Ok (svc, None)) /\
  (get_server svc n <> None ->
   exists server svc',
     update_server svc n (PDict d) = Ok (svc', Some server) /\
     keys (servers svc') = keys (servers svc) /\
     get_server svc' n = Some server /\
     (forall k, k <> n -> get_server svc' k = get_server svc k) /\
     (dict_get "disabled" d = None -> disabled server = PBool false) /\
     (dict_get "tools" d = None -> tools server = PList [])).
Proof.
  unfold update_server, get_server, dict_mem.
  destruct (dict_get n (servers svc)) as [s|] eqn:E.
  - split; [discriminate|]. intros _. simpl.
    do 2 eexists. split; [reflexivity|]. simpl.
    split; [apply keys_dict_set; congruence|].
    split; [apply dict_get_set_same|].
    split; [intros k Hk; now apply dict_get_set_other|].
    split; intros ->; reflexivity.
  - split; [reflexivity|]. intros H. now contradiction H.
Qed.

Lemma update_server_replaces_witness :
  exists server svc',
    update_server Examples.search_switched_off "web"
      (PDict [("description", PStr "Web")]) = Ok (svc', Some server) /\
    keys (servers svc') = keys (servers Examples.search_switched_off) /\
    get_server svc' "web" = Some server /\
    (forall k, k <> "web" ->
       get_server svc' k = get_server Examples.search_switched_off k) /\
    (dict_get "disabled" [("description", PStr "Web")] = None ->
     disabled server = PBool false) /\
    (dict_get "tools" [("description", PStr "Web")] = None -> tools server = PList []).
Proof.
  apply (proj2 (update_server_replaces Examples.search_switched_off "web"
                  [("description", PStr "Web")])).
  discriminate.
Defined.
End ServerFacts.

Section SwitchFacts.
Import MCP Chat Spec.

Lemma In_get_enabled_servers (svc : MCPService) (k : string) (s : MCPServer) :
  In (k, s) (get_enabled_servers svc) <->
  In (k, s) (servers svc) /\ truthy (disabled s) = false.
Proof.
  unfold get_enabled_servers. rewrite filter_In. simpl.
  now destruct (truthy (disabled s)).
Qed.

Lemma In_keys_dict_get {V : Type} (k : string) (d : list (string * V)) :
  In k (keys d) -> exists v, dict_get k d = Some v.
Proof.
  intros H. destruct (dict_get k d) as [v|] eqn:E; [now exists v|].
  apply dict_get_None in E. contradiction.
Qed.

Lemma In_dict_set_other {V : Type} (k k' : string) (v v' : V) (d : list (string * V)) :
  k' <> k -> NoDup (keys d) -> dict_get k d <> None ->
  (In (k', v') (dict_set k v d) <-> In (k', v') d).
Proof.
  intros Hne Hnd Hk.
  assert (Hnd' : NoDup (keys (dict_set k v d))) by now rewrite keys_dict_set.
  split; intros HI.
  - apply (In_dict_get _ _ _ Hnd') in HI. rewrite dict_get_set_other in HI by exact Hne.
    now apply dict_get_In.
  - apply (In_dict_get _ _ _ Hnd) in HI. apply dict_get_In.
    now rewrite dict_get_set_other.
Qed.

(** Switching a known server on or off changes the flag of that server
    and nothing else: the order of the registry and every other server
    stay, the server is among the enabled ones afterwards exactly when it
    was switched on, and the other servers are enabled exactly when they
    were.  The tool scan of [stream_chat] therefore never resolves to a
    server that was just switched off. *)
Theorem switch_server_effect (v : bool) (svc : MCPService) (n : string)
    (s : MCPServer) :
  well_formed (servers svc) ->
  get_server svc n = Some s ->
  snd (switch_server v svc n) = true /\
  keys (servers (fst (switch_server v svc n))) = keys (servers svc) /\
  get_server (fst (switch_server v svc n)) n = Some (set_disabled s (PBool v)) /\
  (forall k, k <> n ->
     get_server (fst (switch_server v svc n)) k = get_server svc k) /\
  (In n (keys (get_enabled_servers (fst (switch_server v svc n)))) <-> v = false) /\
  (forall k, k <> n ->
     (In k (keys (get_enabled_servers (fst (switch_server v svc n)))) <->
      In k (keys (get_enabled_servers svc)))) /\
  (v = true ->
   forall tool_name found,
     find_server tool_name
       (values (get_enabled_servers (fst (switch_server v svc n)))) = Ok (Some found) ->
     name found <> n).
Proof.
  intros Hw Hg. unfold get_server in Hg.
  assert (Hk : dict_get n (servers svc) <> None) by congruence.
  assert (Hw' : well_formed (dict_set n (set_disabled s (PBool v)) (servers svc))).
  { apply well_formed_dict_set; [exact Hw|]. simpl.
    destruct Hw as [_ Hn]. rewrite Forall_forall in Hn.
    exact (Hn (n, s) (dict_get_In _ _ _ Hg)). }
  assert (Hmem : forall k, In k (keys (get_enabled_servers
                   (fst (switch_server v svc n)))) <->
                 exists s', In (k, s') (dict_set n (set_disabled s (PBool v)) (servers svc))
                            /\ truthy (disabled s') = false).
  { intros k. unfold switch_server. rewrite Hg. simpl. unfold keys.
    rewrite in_map_iff. split.
    - intros [[k' s'] [<- HI]]. apply In_get_enabled_servers in HI. now exists s'.
    - intros [s' HI]. exists (k, s'). split; [reflexivity|].
      now apply In_get_enabled_servers. }
  split; [unfold switch_server; now rewrite Hg|].
  split; [unfold switch_server; rewrite Hg; simpl; now apply keys_dict_set|].
  split; [unfold switch_server, get_server; rewrite Hg; simpl; apply dict_get_set_same|].
  split; [intros k Hne; unfold switch_server, get_server; rewrite Hg; simpl;
          now apply dict_get_set_other|].
  split; [|split].
  - rewrite Hmem. split.
    + intros [s' [HI Ht]]. apply (In_dict_get _ _ _ (proj1 Hw')) in HI.
      rewrite dict_get_set_same in HI. injection HI as <-. simpl in Ht.
      now destruct v.
    + intros ->. exists (set_disabled s (PBool false)). split; [|reflexivity].
      apply dict_get_In. apply dict_get_set_same.
  - intros k Hne. rewrite Hmem. unfold keys. rewrite in_map_iff. split.
    + intros [s' [HI Ht]]. exists (k, s'). split; [reflexivity|].
      apply In_get_enabled_servers. split; [|exact Ht].
      now apply (In_dict_set_other n k (set_disabled s (PBool v)) s' _ Hne (proj1 Hw) Hk).
    + intros [[k' s'] [<- HI]]. apply In_get_enabled_servers in HI.
      destruct HI as [HI Ht]. exists s'. split; [|exact Ht].
      now apply (In_dict_set_other n k' (set_disabled s (PBool v)) s' _ Hne (proj1 Hw) Hk).
  - intros -> tool_name found Hf Hname.
    destruct (find_server_found _ _ _ Hf) as [_ [before [after0 [E _]]]].
    assert (HI : In found (values (get_enabled_servers (fst (switch_server true svc n))))).
    { rewrite E. apply in_or_app. right. now left. }
    unfold values in HI. apply in_map_iff in HI. destruct HI as [[k s'] [<- HI]].
    apply In_get_enabled_servers in HI. destruct HI as [HI Ht].
    unfold switch_server in HI. rewrite Hg in HI. simpl in HI, Hname.
    destruct Hw' as [Hnd' Hn']. rewrite Forall_forall in Hn'.
    pose proof (Hn' (k, s') HI) as Hks. simpl in Hks.
    assert (Hkn : k = n) by congruence.
    apply (In_dict_get _ _ _ Hnd') in HI. rewrite Hkn, dict_get_set_same in HI.
    injection HI as <-. discriminate Ht.
Qed.

Lemma switch_server_effect_witness :
  In "sqlite" (keys (get_enabled_servers
                       (fst (switch_server true Examples.default_service "sqlite"))))
  <-> true = false.
Proof.
  refine (proj1 (proj2 (proj2 (proj2 (proj2
            (switch_server_effect true Examples.default_service "sqlite" _
               default_servers_well_formed eq_refl)))))).
Defined.

(** The later of two switches of a server wins, whichever they are. *)
Lemma switch_server_last_wins (v v' : bool) (svc : MCPService) (n : string) :
  fst (switch_server v (fst (switch_server v' svc n)) n) = fst (switch_server v svc n).
Proof.
  unfold switch_server.
  destruct (dict_get n (servers svc)) as [s|] eqn:E; simpl.
  - rewrite dict_get_set_same. simpl. unfold save_config, with_servers; simpl.
    now rewrite dict_set_set.
  - now rewrite E.
Qed.

Lemma switch_first_overrides (v v' : bool) (tool_name : string) (ts ts1 : list pyval) :
  switch_first v' tool_name ts = Ok (Some ts1) ->
  switch_first v tool_name ts1 = switch_first v tool_name ts.
Proof.
  revert ts1. induction ts as [|tool rest IH]; intros ts1; simpl; [discriminate|].
  destruct (getitem tool "name") as [n|e] eqn:En; simpl; [|discriminate].
  destruct (py_eq n (PStr tool_name)) eqn:Eq.
  - destruct tool as [| | | | |d]; simpl in *; try discriminate.
    intros [= <-]. simpl.
    destruct (dict_get "name" d) as [n'|] eqn:Ed; [|discriminate].
    injection En as ->.
    rewrite dict_get_set_other by discriminate. rewrite Ed. simpl.
    rewrite Eq. simpl. now rewrite dict_set_set.
  - destruct (switch_first v' tool_name rest) as [[r|]|e] eqn:Er; simpl;
      try discriminate.
    intros [= <-]. simpl. rewrite En. simpl. rewrite Eq.
    now rewrite (IH r eq_refl).
Qed.

Lemma switch_first_either (v v' : bool) (tool_name : string) (ts ts1 : list pyval) :
  switch_first v' tool_name ts = Ok (Some ts1) ->
  exists ts2, switch_first v tool_name ts = Ok (Some ts2).
Proof.
  revert ts1. induction ts as [|tool rest IH]; intros ts1; simpl; [discriminate|].
  destruct (getitem tool "name") as [n|e]; simpl; [|discriminate].
  destruct (py_eq n (PStr tool_name)).
  - destruct tool; simpl; try discriminate. intros _. now eexists.
  - destruct (switch_first v' tool_name rest) as [[r|]|e]; simpl; try discriminate.
    intros _. destruct (IH r eq_refl) as [ts2 ->]. simpl. now eexists.
Qed.

Lemma switch_tool_last_wins (v v' : bool) (svc : MCPService) (sn tn : string) :
  after (after svc (switch_tool v' svc sn tn))
        (switch_tool v (after svc (switch_tool v' svc sn tn)) sn tn)
    = after svc (switch_tool v svc sn tn).
Proof.
  destruct (switch_tool v' svc sn tn) as [[svc' b]|e] eqn:H; simpl; [|reflexivity].
  unfold switch_tool, get_server in H.
  destruct (dict_get sn (servers svc)) as [server|] eqn:E.
  2:{ now injection H as <- <-. }
  destruct (iter (tools server)) as [ts|] eqn:Ei; simpl in H; [|discriminate].
  destruct (switch_first v' tn ts) as [[ts'|]|] eqn:Es; simpl in H; try discriminate.
  - injection H as <- <-. unfold switch_tool, get_server; simpl.
    rewrite dict_get_set_same, E. simpl. rewrite Ei. simpl.
    rewrite (switch_first_overrides v v' _ _ _ Es).
    destruct (switch_first_either v v' _ _ _ Es) as [ts2 ->]. simpl.
    unfold save_config, with_servers, set_tools; simpl.
    now rewrite dict_set_set.
  - now injection H as <- <-.
Qed.

(** Switches compose by the last one: enabling after disabling, or the
    reverse, of a server or of a tool of a server leaves the servers and
    the file exactly as the later switch alone would. *)
Theorem later_switch_wins (svc : MCPService) (server_name tool_name : string) :
  fst (enable_server (fst (disable_server svc server_name)) server_name)
    = fst (enable_server svc server_name) /\
  fst (disable_server (fst (enable_server svc server_name)) server_name)
    = fst (disable_server svc server_name) /\
  after (after svc (disable_tool svc server_name tool_name))
        (enable_tool (after svc (disable_tool svc server_name tool_name))
           server_name tool_name)
    = after svc (enable_tool svc server_name tool_name) /\
  after (after svc (enable_tool svc server_name tool_name))
        (disable_tool (after svc (enable_tool svc server_name tool_name))
           server_name tool_name)
    = after svc (disable_tool svc server_name tool_name).
Proof.
  repeat split.
  - apply (switch_server_last_wins false true).
  - apply (switch_server_last_wins true false).
  - apply (switch_tool_last_wins false true).
  - apply (switch_tool_last_wins true false).
Qed.
End SwitchFacts.

Section ToolFacts.
Import MCP Chat Spec.

Lemma switch_first_shape (v : bool) (tool_name : string) (ts ts' : list pyval) :
  switch_first v tool_name ts = Ok (Some ts') ->
  exists pre d post,
    ts = pre ++ PDict d :: post /\
    ts' = pre ++ PDict (dict_set "disabled" (PBool v) d) :: post /\
    named tool_name (PDict d) /\
    Forall (fun t => ~ named tool_name t) pre.
Proof.
  revert ts'. induction ts as [|tool rest IH]; intros ts'; simpl; [discriminate|].
  destruct (getitem tool "name") as [n|e] eqn:En; simpl; [|discriminate].
  destruct (py_eq n (PStr tool_name)) eqn:Eq.
  - destruct tool as [| | | | |d]; simpl; try discriminate.
    intros [= <-]. exists [], d, rest. repeat split; try constructor.
    now exists n.
  - destruct (switch_first v tool_name rest) as [[r|]|e] eqn:Er; simpl;
      try discriminate.
    intros [= <-]. destruct (IH r eq_refl) as [pre [d [post [-> [-> [Hn Hp]]]]]].
    exists (tool :: pre), d, post. repeat split; try assumption.
    constructor; [|exact Hp]. intros [n' [Hn' Hq]].
    rewrite En in Hn'. injection Hn' as <-. congruence.
Qed.

Lemma any_named_after_switch (v : bool) (tool_name : string) (ts ts' : list pyval)
    (x : pyval) :
  switch_first v tool_name ts = Ok (Some ts') ->
  any_named x ts' = any_named x ts.
Proof.
  intros H. destruct (switch_first_shape _ _ _ _ H) as [pre [d [post [-> [-> _]]]]].
  clear H. induction pre as [|t pre IH]; simpl.
  - now rewrite dict_get_set_other by discriminate.
  - destruct (getitem t "name") as [n|]; simpl; [|reflexivity].
    destruct (py_eq n x); [reflexivity|exact IH].
Qed.

Lemma enabled_only_flag (ts ts' : list pyval) (t : pyval) :
  enabled_only ts = Ok ts' -> In t ts' ->
  exists flag, get_default t "disabled" (PBool false) = Ok flag /\ truthy flag = false.
Proof.
  revert ts'. induction ts as [|t0 rest IH]; intros ts'; simpl.
  - intros [= <-] [].
  - destruct (get_default t0 "disabled" (PBool false)) as [f|] eqn:E; simpl;
      [|discriminate].
    destruct (enabled_only rest) as [r|]; simpl; [|discriminate].
    destruct (truthy f) eqn:Ef; intros [= <-].
    + intros HI. now apply (IH r).
    + intros [<-|HI]; [now exists f|now apply (IH r)].
Qed.

(** A tool switch that succeeds changes one thing: the [disabled] entry
    of the first tool of that name in the server's list; the tools before
    and after it, their order and every other field stay.  After
    [disable_tool], when no later tool of the list bears the same name,
    [get_enabled_tools] returns no tool of that name. *)
Theorem switch_tool_changes_one_flag (v : bool) (svc svc' : MCPService)
    (server_name tool_name : string) :
  switch_tool v svc server_name tool_name = Ok (svc', true) ->
  exists server pre d post,
    get_server svc server_name = Some server /\
    iter (tools server) = Ok (pre ++ PDict d :: post) /\
    named tool_name (PDict d) /\
    Forall (fun t => ~ named tool_name t) pre /\
    get_server svc' server_name =
      Some (set_tools server
              (PList (pre ++ PDict (dict_set "disabled" (PBool v) d) :: post))) /\
    (forall k, k <> server_name -> get_server svc' k = get_server svc k) /\
    (v = true -> Forall (fun t => ~ named tool_name t) post ->
     forall enabled, get_enabled_tools svc' server_name = Ok enabled ->
                     ~ exposes (PStr tool_name) enabled).
Proof.
  unfold switch_tool, get_server.
  destruct (dict_get server_name (servers svc)) as [server|] eqn:E; [|discriminate].
  destruct (iter (tools server)) as [ts|] eqn:Ei; simpl; [|discriminate].
  destruct (switch_first v tool_name ts) as [[ts'|]|] eqn:Es; simpl; try discriminate.
  intros [= <-].
  destruct (switch_first_shape _ _ _ _ Es) as [pre [d [post [-> [-> [Hn Hp]]]]]].
  exists server, pre, d, post. simpl.
  split; [reflexivity|]. split; [exact Ei|]. split; [exact Hn|].
  split; [exact Hp|]. split; [apply dict_get_set_same|].
  split; [intros k Hk; now apply dict_get_set_other|].
  intros -> Hpost enabled. unfold get_enabled_tools, get_server; simpl.
  rewrite dict_get_set_same. unfold enabled_tools_of; simpl.
  intros He [t [n [HI [Hgn Hq]]]].
  destruct (enabled_only_flag _ _ _ He HI) as [flag [Hf Ht]].
  apply (enabled_only_In _ _ _ He) in HI.
  apply in_app_or in HI. destruct HI as [HI|[<-|HI]].
  - rewrite Forall_forall in Hp. apply (Hp t HI). now exists n.
  - simpl in Hf. rewrite dict_get_set_same in Hf. injection Hf as <-. discriminate.
  - rewrite Forall_forall in Hpost. apply (Hpost t HI). now exists n.
Qed.

Lemma switch_tool_changes_one_flag_witness :
  exists server pre d post,
    get_server Examples.default_service "filesystem" = Some server /\
    iter (tools server) = Ok (pre ++ PDict d :: post) /\
    named "write_file" (PDict d) /\
    Forall (fun t => ~ named "write_file" t) pre /\
    get_server (after Examples.default_service
                  (disable_tool Examples.default_service "filesystem" "write_file"))
      "filesystem" =
      Some (set_tools server
              (PList (pre ++ PDict (dict_set "disabled" (PBool true) d) :: post))) /\
    (forall k, k <> "filesystem" ->
       get_server (after Examples.default_service
                     (disable_tool Examples.default_service "filesystem" "write_file")) k
       = get_server Examples.default_service k) /\
    (true = true -> Forall (fun t => ~ named "write_file" t) post ->
     forall enabled,
       get_enabled_tools
         (after Examples.default_service
            (disable_tool Examples.default_service "filesystem" "write_file"))
         "filesystem" = Ok enabled ->
       ~ exposes (PStr "write_file") enabled).
Proof.
  apply (switch_tool_changes_one_flag true Examples.default_service _
           "filesystem" "write_file").
  reflexivity.
Defined.

Lemma find_server_dict_set (x : pyval) (k : string) (s s' : MCPServer)
    (d : list (string * MCPServer)) :
  dict_get k d = Some s ->
  disabled s' = disabled s -> name s' = name s ->
  lists_tool x s' = lists_tool x s ->
  resolved_name
    (find_server x (values (filter (fun e => negb (truthy (disabled (snd e))))
                              (dict_set k s' d))))
  = resolved_name
      (find_server x (values (filter (fun e => negb (truthy (disabled (snd e)))) d))).
Proof.
  intros Hg Hd Hn Hl. induction d as [|[k0 s0] rest IH]; simpl in *; [discriminate|].
  destruct (String.eqb_spec k k0) as [->|Hne]; simpl.
  - injection Hg as ->. rewrite Hd.
    destruct (negb (truthy (disabled s))); simpl; [|reflexivity].
    rewrite Hl. destruct (lists_tool x s) as [[|]|]; simpl; try reflexivity.
    now rewrite Hn.
  - destruct (negb (truthy (disabled s0))); simpl; [|now apply IH].
    destruct (lists_tool x s0) as [[|]|]; simpl; try reflexivity. now apply IH.
Qed.

(** Switching a tool on or off never changes what the tool scan of
    [stream_chat] resolves: for every requested name the scan over the
    enabled servers ends with a server of the same name, with nothing or
    with the same exception as before the switch. *)
Theorem switch_tool_leaves_resolution (v : bool) (svc : MCPService)
    (server_name tool_name : string) (requested : pyval) :
  resolved_name
    (find_server requested
       (values (get_enabled_servers
                  (after svc (switch_tool v svc server_name tool_name)))))
  = resolved_name (find_server requested (values (get_enabled_servers svc))).
Proof.
  destruct (switch_tool v svc server_name tool_name) as [[svc' b]|e] eqn:H; simpl;
    [|reflexivity].
  unfold switch_tool, get_server in H.
  destruct (dict_get server_name (servers svc)) as [server|] eqn:E.
  2:{ now injection H as <- <-. }
  destruct (iter (tools server)) as [ts|] eqn:Ei; simpl in H; [|discriminate].
  destruct (switch_first v tool_name ts) as [[ts'|]|] eqn:Es; simpl in H;
    try discriminate.
  - injection H as <- <-. unfold get_enabled_servers; simpl.
    apply (find_server_dict_set requested server_name server); try reflexivity.
    + exact E.
    + unfold lists_tool; simpl. rewrite Ei. simpl.
      now apply (any_named_after_switch v tool_name).
  - now injection H as <- <-.
Qed.
End ToolFacts.

Section LoadFacts.
Import MCP Spec.

Lemma load_servers_dicts (entries : list (string * pyval))
    (acc : list (string * MCPServer)) :
  forallb (fun e => is_dict (snd e)) entries = true ->
  exists loaded, load_servers entries acc = Ok loaded.
Proof.
  revert acc. induction entries as [|[n c] rest IH]; intros acc; simpl.
  - intros _. now eexists.
  - intros H. apply andb_true_iff in H. destruct H as [Hc Hr].
    destruct (new_MCPServer_dict n c Hc) as [s ->]. simpl. now apply IH.
Qed.

Lemma load_servers_not_dicts (entries : list (string * pyval))
    (acc : list (string * MCPServer)) :
  forallb (fun e => is_dict (snd e)) entries = false ->
  exists e, load_servers entries acc = Raise e.
Proof.
  revert acc. induction entries as [|[n c] rest IH]; intros acc; simpl; [discriminate|].
  destruct (is_dict c) eqn:Hc; simpl.
  - destruct (new_MCPServer_dict n c Hc) as [s ->]. simpl. apply IH.
  - intros _. rewrite (new_MCPServer_not_dict n c Hc). simpl. now eexists.
Qed.

(** What a start of the service does with the file it finds.  A file that
    is missing, does not parse, is not a dictionary, or holds under
    [mcpServers] anything but a dictionary of dictionaries, one bad entry
    being enough, is replaced: the registry is the three default servers
    and the file is overwritten with them.  Any other file is left as it
    is; when it has no [mcpServers] entry the registry is empty, not the
    default one. *)
Theorem start_falls_back_to_defaults (f : option file_content) :
  (loadable f = false ->
   servers (new_MCPService f) = default_servers /\
   config_file (new_MCPService f) =
     Some (Document (config_data {| servers := default_servers;
                                    config_file := None |}))) /\
  (loadable f = true ->
   config_file (new_MCPService f) = f /\
   forall top, f = Some (Document (PDict top)) ->
               dict_get "mcpServers" top = None ->
               servers (new_MCPService f) = []).
Proof.
  unfold new_MCPService, load_config. simpl.
  destruct f as [[|data]|]; simpl; try (split; [now split|discriminate]).
  destruct data as [| | | | |top]; simpl; try (split; [now split|discriminate]).
  destruct (dict_get "mcpServers" top) as [m|] eqn:Em; simpl.
  - destruct m as [| | | | |entries]; simpl; try (split; [now split|discriminate]).
    destruct (forallb (fun e => is_dict (snd e)) entries) eqn:Ef.
    + destruct (load_servers_dicts entries [] Ef) as [loaded ->]. simpl.
      split; [discriminate|]. intros _. split; [reflexivity|].
      intros top' [= <-]. congruence.
    + destruct (load_servers_not_dicts entries [] Ef) as [e ->]. simpl.
      split; [now split|discriminate].
  - split; [discriminate|]. intros _. split; [reflexivity|]. reflexivity.
Qed.

Lemma start_falls_back_to_defaults_witness :
  servers (new_MCPService
             (Some (Document (PDict [("mcpServers",
                                     PDict [("web", PStr "node server.js")])]))))
    = default_servers /\
  config_file (new_MCPService
                 (Some (Document (PDict [("mcpServers",
                                         PDict [("web", PStr "node server.js")])]))))
    = Some (Document (config_data {| servers := default_servers;
                                     config_file := None |})).
Proof.
  apply (proj1 (start_falls_back_to_defaults
                  (Some (Document (PDict [("mcpServers",
                                          PDict [("web", PStr "node server.js")])]))))).
  reflexivity.
Defined.

Lemma validate_server_config_errors (d : list (string * pyval)) :
  validate_server_config (PDict d) =
    Ok ((((if truthy (match dict_get "command" d with Some c => c | None => PNone end)
           then [] else ["Command is required"])
          ++ (if is_list (match dict_get "command" d with
                          | Some c => c | None => PList [] end)
              then [] else ["Command must be a list"]))
         ++ (if is_list (match dict_get "args" d with
                         | Some a => a | None => PList [] end)
             then [] else ["Args must be a list"]))
        ++ (if is_dict (match dict_get "env" d with
                        | Some e => e | None => PDict [] end)
            then [] else ["Environment variables must be a dictionary"])).
Proof.
  unfold validate_server_config; simpl.
  destruct (is_list (match dict_get "command" d with
                     | Some c => c | None => PList [] end));
    destruct (is_list (match dict_get "args" d with
                       | Some a => a | None => PList [] end));
    destruct (is_dict (match dict_get "env" d with
                       | Some e => e | None => PDict [] end));
    now rewrite ?app_nil_r.
Qed.

Lemma accepted_command_is_list (d : list (string * pyval)) :
  validate_server_config (PDict d) = Ok [] ->
  exists c rest, dict_get "command" d = Some (PList (c :: rest)).
Proof.
  rewrite validate_server_config_errors. intros H. injection H as H.
  apply app_eq_nil in H. destruct H as [H _].
  apply app_eq_nil in H. destruct H as [H _].
  apply app_eq_nil in H. destruct H as [H1 H2].
  destruct (dict_get "command" d) as [[| | | |[|c rest]|]|]; simpl in *;
    try discriminate. now exists c, rest.
Qed.

(** [validate_server_config] raises on a configuration that is not a
    dictionary, and on a dictionary it returns no error exactly when the
    command is a non-empty list, the args are absent or a list, and the
    env is absent or a dictionary. *)
Theorem validate_server_config_accepts (d : list (string * pyval)) :
  (forall config, is_dict config = false ->
                  validate_server_config config = Raise AttributeError) /\
  (validate_server_config (PDict d) = Ok [] <->
   (exists c rest, dict_get "command" d = Some (PList (c :: rest))) /\
   match dict_get "args" d with Some a => is_list a = true | None => True end /\
   match dict_get "env" d with Some e => is_dict e = true | None => True end).
Proof.
  split.
  - intros config H. destruct config; simpl in *; try discriminate; reflexivity.
  - rewrite validate_server_config_errors. split.
    + intros H. injection H as H.
      apply app_eq_nil in H. destruct H as [H H4].
      apply app_eq_nil in H. destruct H as [H H3].
      apply app_eq_nil in H. destruct H as [H1 H2].
      split; [|split].
      * destruct (dict_get "command" d) as [[| | | |[|c rest]|]|]; simpl in *;
          try discriminate. now exists c, rest.
      * destruct (dict_get "args" d) as [a|]; [|exact I].
        now destruct (is_list a).
      * destruct (dict_get "env" d) as [e|]; [|exact I].
        now destruct (is_dict e).
    + intros [[c [rest ->]] [Ha He]]. simpl.
      destruct (dict_get "args" d) as [a|]; [rewrite Ha|];
        (destruct (dict_get "env" d) as [e|]; [rewrite He|]); reflexivity.
Qed.

Lemma validate_server_config_accepts_witness :
  validate_server_config (PStr "npx") = Raise AttributeError.
Proof.
  apply (proj1 (validate_server_config_accepts [])). reflexivity.
Defined.

Section Validated.
Variable stdio_params : MCPServer -> result unit.
Variable session : MCPServer -> result pyval.

(** A server whose configuration passes [validate_server_config] is never
    refreshed: its command is a list, which [fetch_tools_for_server] adds
    to a string before it starts any process, so whatever the session
    would answer, the refresh of a server added with that configuration
    leaves the registry as it is. *)
Theorem validated_server_is_never_refreshed (svc svc' : MCPService) (n : string)
    (d : list (string * pyval)) (server : MCPServer) :
  validate_server_config (PDict d) = Ok [] ->
  add_server svc n (PDict d) = Ok (svc', server) ->
  refresh_server stdio_params session svc' n = svc'.
Proof.
  intros Hv Ha. apply accepted_command_is_list in Hv.
  destruct Hv as [c [rest Hc]].
  unfold add_server in Ha. simpl in Ha. rewrite Hc in Ha. injection Ha as <- <-.
  unfold refresh_server; simpl. rewrite dict_get_set_same.
  rewrite refresh_tools_list_command.
  - rewrite dict_set_set. reflexivity.
  - intros server0. unfold get_server; simpl. rewrite dict_get_set_same.
    intros [= <-]. now eexists.
Qed.
End Validated.

Lemma validated_server_is_never_refreshed_witness :
  refresh_server Examples.params_accepted Examples.one_tool_listed
    (after Examples.default_service
       (add_server Examples.default_service "git"
          (PDict [("command", PList [PStr "uvx"; PStr "mcp-server-git"])])))
    "git"
  = after Examples.default_service
      (add_server Examples.default_service "git"
         (PDict [("command", PList [PStr "uvx"; PStr "mcp-server-git"])])).
Proof.
  eapply (validated_server_is_never_refreshed Examples.params_accepted
            Examples.one_tool_listed Examples.default_service _ "git"
            [("command", PList [PStr "uvx"; PStr "mcp-server-git"])]).
  - reflexivity.
  - reflexivity.
Defined.
End LoadFacts.

(** ** The endpoints of the registry *)

Section ApiFacts.
Import MCP Spec.

Lemma switch_first_scan (v : bool) (tool_name : string) (ts : list pyval) :
  Forall (fun t => exists n, getitem t "name" = Ok n) ts ->
  (exists ts', switch_first v tool_name ts = Ok (Some ts') /\
               exposes (PStr tool_name) ts) \/
  (switch_first v tool_name ts = Ok None /\ ~ exposes (PStr tool_name) ts).
Proof.
  induction ts as [|t rest IH]; intros H; simpl.
  - right. split; [reflexivity|]. intros [t [n [[] _]]].
  - inversion H as [|? ? [n Hn] Hrest]; subst. rewrite Hn. simpl.
    destruct (py_eq n (PStr tool_name)) eqn:Eq.
    + left. destruct t; simpl in Hn; try discriminate. simpl.
      eexists. split; [reflexivity|]. eexists _, n. split; [now left|]. now split.
    + destruct (IH Hrest) as [[ts' [-> [t' [n' [HI [Hn' Hq]]]]]]|[-> Hno]]; simpl.
      * left. eexists. split; [reflexivity|]. exists t', n'.
        split; [now right|now split].
      * right. split; [reflexivity|]. intros [t' [n' [[<-|HI] [Hn' Hq]]]].
        -- rewrite Hn in Hn'. injection Hn' as <-. congruence.
        -- apply Hno. now exists t', n'.
Qed.

(** The switch endpoints answer 404 for a server that is not in the
    registry, and the tool endpoints also for a server none of whose
    tools bears the name; a request that fails, with 404 or with the
    exception of a malformed tool list, leaves the servers and the file
    as they were, and a request for a known server succeeds. *)
Theorem switch_endpoints_not_found (svc : MCPService) (server_name tool_name : string) :
  (get_server svc server_name = None ->
   McpApi.enable_server svc server_name
     = (svc, Raise (HTTPException 404 "Server not found")) /\
   McpApi.disable_server svc server_name
     = (svc, Raise (HTTPException 404 "Server not found")) /\
   McpApi.enable_tool svc server_name tool_name
     = (svc, Raise (HTTPException 404 "Tool or server not found")) /\
   McpApi.disable_tool svc server_name tool_name
     = (svc, Raise (HTTPException 404 "Tool or server not found"))) /\
  (forall e,
     (snd (McpApi.enable_server svc server_name) = Raise e ->
      fst (McpApi.enable_server svc server_name) = svc) /\
     (snd (McpApi.disable_server svc server_name) = Raise e ->
      fst (McpApi.disable_server svc server_name) = svc) /\
     (snd (McpApi.enable_tool svc server_name tool_name) = Raise e ->
      fst (McpApi.enable_tool svc server_name tool_name) = svc) /\
     (snd (McpApi.disable_tool svc server_name tool_name) = Raise e ->
      fst (McpApi.disable_tool svc server_name tool_name) = svc)) /\
  (get_server svc server_name <> None ->
   (exists body, snd (McpApi.enable_server svc server_name) = Ok body) /\
   (exists body, snd (McpApi.disable_server svc server_name) = Ok body)) /\
  (forall server ts,
     get_server svc server_name = Some server ->
     iter (tools server) = Ok ts ->
     Forall (fun t => exists n, getitem t "name" = Ok n) ts ->
     (snd (McpApi.disable_tool svc server_name tool_name)
        = Raise (HTTPException 404 "Tool or server not found") <->
      ~ exposes (PStr tool_name) ts) /\
     (snd (McpApi.enable_tool svc server_name tool_name)
        = Raise (HTTPException 404 "Tool or server not found") <->
      ~ exposes (PStr tool_name) ts)).
Proof.
  unfold McpApi.enable_server, McpApi.disable_server, McpApi.enable_tool,
    McpApi.disable_tool, enable_server, disable_server, enable_tool, disable_tool,
    switch_server, switch_tool, get_server.
  split; [|split; [|split]].
  - intros ->. now repeat split.
  - intros e. destruct (dict_get server_name (servers svc)) as [s|]; simpl.
    + split; [discriminate|]. split; [discriminate|].
      destruct (iter (tools s)) as [ts|]; simpl; [|now split].
      destruct (switch_first false tool_name ts) as [[?|]|];
        destruct (switch_first true tool_name ts) as [[?|]|]; simpl;
        split; try reflexivity; discriminate.
    + now repeat split.
  - intros H. destruct (dict_get server_name (servers svc)) as [s|];
      [|now contradiction H]. simpl. split; now eexists.
  - intros server ts -> Hi Hn. rewrite Hi. simpl.
    split.
    + destruct (switch_first_scan true tool_name ts Hn) as [[ts' [-> He]]|[-> Hno]];
        simpl; split; try discriminate; try reflexivity.
      * intros Hno. contradiction.
      * intros _. exact Hno.
    + destruct (switch_first_scan false tool_name ts Hn) as [[ts' [-> He]]|[-> Hno]];
        simpl; split; try discriminate; try reflexivity.
      * intros Hno. contradiction.
      * intros _. exact Hno.
Qed.

Lemma switch_endpoints_not_found_witness :
  McpApi.enable_server Examples.default_service "github"
    = (Examples.default_service, Raise (HTTPException 404 "Server not found")) /\
  McpApi.disable_server Examples.default_service "github"
    = (Examples.default_service, Raise (HTTPException 404 "Server not found")) /\
  McpApi.enable_tool Examples.default_service "github" "search"
    = (Examples.default_service, Raise (HTTPException 404 "Tool or server not found")) /\
  McpApi.disable_tool Examples.default_service "github" "search"
    = (Examples.default_service, Raise (HTTPException 404 "Tool or server not found")).
Proof.
  apply (proj1 (switch_endpoints_not_found Examples.default_service "github" "search")).
  reflexivity.
Defined.

Lemma server_views_spec (entries : list (string * MCPServer))
    (acc views : list (string * pyval)) :
  NoDup (keys acc ++ keys entries) ->
  McpApi.server_views entries acc = Ok views ->
  keys views = keys acc ++ keys entries /\
  (forall n v, dict_get n acc = Some v -> dict_get n views = Some v) /\
  (forall n server, In (n, server) entries ->
     exists v, McpApi.server_view n server = Ok v /\ dict_get n views = Some v).
Proof.
  revert acc views. induction entries as [|[n server] rest IH]; intros acc views Hnd;
    simpl.
  - intros [= <-]. rewrite app_nil_r. split; [reflexivity|].
    split; [auto|intros ? ? []].
  - destruct (McpApi.server_view n server) as [v|] eqn:Ev; simpl; [|discriminate].
    intros H.
    assert (Hfresh : ~ In n (keys acc)).
    { intros HI. apply NoDup_remove_2 in Hnd. apply Hnd. apply in_or_app. now left. }
    assert (Hnd' : NoDup (keys (dict_set n v acc) ++ keys rest)).
    { rewrite dict_set_fresh by exact Hfresh. unfold keys in *.
      rewrite map_app, <- app_assoc. exact Hnd. }
    destruct (IH _ _ Hnd' H) as [Hk [Hacc Hent]].
    split; [|split].
    + rewrite Hk, dict_set_fresh by exact Hfresh. unfold keys.
      now rewrite map_app, <- app_assoc.
    + intros n' v' Hg. apply Hacc. rewrite dict_get_set_other; [exact Hg|].
      intros ->. apply dict_get_None in Hfresh. congruence.
    + intros n' server' [[= <- <-]|HI].
      * exists v. split; [exact Ev|]. apply Hacc. apply dict_get_set_same.
      * now apply Hent.
Qed.

Lemma server_views_raise (entries : list (string * MCPServer))
    (acc : list (string * pyval)) (n : string) (server : MCPServer) (e : exn) :
  In (n, server) entries -> McpApi.server_view n server = Raise e ->
  exists e', McpApi.server_views entries acc = Raise e'.
Proof.
  revert acc. induction entries as [|[n0 s0] rest IH]; intros acc; simpl; [intros []|].
  intros [[= -> ->]|HI] He.
  - rewrite He. simpl. now eexists.
  - destruct (McpApi.server_view n0 s0); simpl; [now apply IH|now eexists].
Qed.

Lemma server_views_total (entries : list (string * MCPServer))
    (acc : list (string * pyval)) :
  (forall n server, In (n, server) entries ->
                    exists v, McpApi.server_view n server = Ok v) ->
  exists views, McpApi.server_views entries acc = Ok views.
Proof.
  revert acc. induction entries as [|[n0 s0] rest IH]; intros acc H; simpl;
    [now eexists|].
  destruct (H n0 s0 (or_introl eq_refl)) as [v ->]. simpl.
  apply IH. intros n server HI. apply H. now right.
Qed.

Lemma tool_views_shown (ts vs : list pyval) :
  McpApi.tool_views ts = Ok vs ->
  Forall2 (fun t v =>
             exists td tn,
               t = PDict td /\ dict_get "name" td = Some tn /\
               v = PDict [ ("name", tn);
                           ("description",
                            match dict_get "description" td with
                            | Some x => x | None => PStr "" end);
                           ("disabled",
                            match dict_get "disabled" td with
                            | Some x => x | None => PBool false end) ]) ts vs.
Proof.
  revert vs. induction ts as [|t rest IH]; intros vs; simpl.
  - intros [= <-]. constructor.
  - destruct t as [| | | | |td]; simpl; try discriminate.
    destruct (dict_get "name" td) as [tn|] eqn:En; simpl; [|discriminate].
    destruct (McpApi.tool_views rest) as [r|]; simpl; [|discriminate].
    intros [= <-]. constructor; [|now apply IH].
    exists td, tn. now repeat split.
Qed.

Lemma tool_views_total (ts : list pyval) :
  Forall listable ts -> exists vs, McpApi.tool_views ts = Ok vs.
Proof.
  induction 1 as [|t rest [td [tn [-> Hn]]] _ [r IH]]; simpl; [now eexists|].
  rewrite Hn. simpl. rewrite IH. simpl. now eexists.
Qed.

Lemma tool_views_listable (ts vs : list pyval) :
  McpApi.tool_views ts = Ok vs -> Forall listable ts.
Proof.
  intros H. apply tool_views_shown in H.
  induction H as [|t v ts' vs' [td [tn [-> [Hn _]]]] _ IH]; constructor; auto.
  now exists td, tn.
Qed.

Lemma server_view_listable (n : string) (server : MCPServer) :
  (exists v, McpApi.server_view n server = Ok v) <-> tools_listable server.
Proof.
  unfold McpApi.server_view, tools_listable. split.
  - intros [v H]. destruct (iter (tools server)) as [ts|]; simpl in H; [|discriminate].
    destruct (McpApi.tool_views ts) as [vs|] eqn:Ev; simpl in H; [|discriminate].
    exists ts. split; [reflexivity|]. now apply (tool_views_listable ts vs).
  - intros [ts [-> Hl]]. destruct (tool_views_total ts Hl) as [vs Hv].
    simpl. rewrite Hv. simpl. now eexists.
Qed.

Lemma server_view_shown (n : string) (server : MCPServer) (v : pyval) :
  McpApi.server_view n server = Ok v ->
  exists ts vs,
    iter (tools server) = Ok ts /\ McpApi.tool_views ts = Ok vs /\
    v = PDict [ ("name", PStr n); ("description", description server);
                ("disabled", disabled server); ("tools", PList vs) ].
Proof.
  unfold McpApi.server_view.
  destruct (iter (tools server)) as [ts|]; simpl; [|discriminate].
  destruct (McpApi.tool_views ts) as [vs|] eqn:Ev; simpl; [|discriminate].
  intros [= <-]. now exists ts, vs.
Qed.

(** [get_mcp_servers] answers exactly when every tool of every server is
    a dictionary with a name, and fails as a whole as soon as one tool of
    one server is not.  Its answer lists every server of the registry, in
    the order of the registry and whether enabled or not, each under its
    name with its name, description and disabled flag and with its tools
    in their order, each tool with its name and with its description and
    disabled flag or their defaults. *)
Theorem get_mcp_servers_lists_all (svc : MCPService) :
  well_formed (servers svc) ->
  ((exists views, McpApi.get_mcp_servers svc = Ok views) <->
   (forall n server, In (n, server) (servers svc) -> tools_listable server)) /\
  (forall views,
     McpApi.get_mcp_servers svc = Ok views ->
     exists d,
       views = PDict d /\ keys d = keys (servers svc) /\
       forall n server, get_server svc n = Some server ->
         exists ts vs,
           iter (tools server) = Ok ts /\
           dict_get n d =
             Some (PDict [ ("name", PStr n); ("description", description server);
                           ("disabled", disabled server); ("tools", PList vs) ]) /\
           Forall2 (fun t v =>
                      exists td tn,
                        t = PDict td /\ dict_get "name" td = Some tn /\
                        v = PDict [ ("name", tn);
                                    ("description",
                                     match dict_get "description" td with
                                     | Some x => x | None => PStr "" end);
                                    ("disabled",
                                     match dict_get "disabled" td with
                                     | Some x => x | None => PBool false end) ])
             ts vs) /\
  (forall n server,
     In (n, server) (servers svc) -> ~ tools_listable server ->
     exists e, McpApi.get_mcp_servers svc = Raise e).
Proof.
  intros [Hnd _]. unfold McpApi.get_mcp_servers, get_all_servers, get_server.
  split; [|split].
  - split.
    + intros [views H] n server HI.
      destruct (McpApi.server_views (servers svc) []) as [d|] eqn:E; simpl in H;
        [|discriminate].
      destruct (server_views_spec (servers svc) [] d Hnd E) as [_ [_ Hent]].
      destruct (Hent n server HI) as [v [Hv _]].
      apply (server_view_listable n). now exists v.
    + intros H.
      destruct (server_views_total (servers svc) []) as [views ->].
      * intros n server HI. apply server_view_listable. now apply (H n).
      * simpl. now eexists.
  - intros views.
    destruct (McpApi.server_views (servers svc) []) as [d|] eqn:E; simpl;
      [|discriminate].
    intros [= <-]. exists d. split; [reflexivity|].
    destruct (server_views_spec (servers svc) [] d Hnd E) as [Hk [_ Hent]].
    split; [exact Hk|]. intros n server Hg.
    destruct (Hent n server (dict_get_In _ _ _ Hg)) as [v [Hv Hd]].
    destruct (server_view_shown _ _ _ Hv) as [ts [vs [Hi [Ht ->]]]].
    exists ts, vs. split; [exact Hi|]. split; [exact Hd|].
    now apply tool_views_shown.
  - intros n server HI Hn.
    destruct (McpApi.server_view n server) as [v|e] eqn:Ev.
    + exfalso. apply Hn. apply (server_view_listable n). now exists v.
    + destruct (server_views_raise (servers svc) [] n server e HI Ev) as [e' ->].
      simpl. now eexists.
Qed.

Lemma search_switched_off_well_formed :
  well_formed (servers Examples.search_switched_off).
Proof.
  split.
  - unfold keys; simpl. repeat (constructor; [not_in_literals|]). constructor.
  - repeat constructor.
Defined.

Lemma get_mcp_servers_lists_all_witness :
  exists views, McpApi.get_mcp_servers Examples.search_switched_off = Ok views.
Proof.
  apply (proj2 (proj1 (get_mcp_servers_lists_all Examples.search_switched_off
                         search_switched_off_well_formed))).
  intros n server [[= <- <-]|[]].
  exists [Examples.search_tool true]. split; [reflexivity|].
  repeat constructor. do 2 eexists. split; reflexivity.
Defined.
End ApiFacts.

(** ** The provider factory, further *)

Section FactoryMoreFacts.
Import LLMFactory.

Lemma provider_info_entries (p : string) (info : LLMProviderInfo) :
  dict_get p _provider_info = Some info ->
  provider info = p /\
  In (default_model info) (models info) /\
  In p get_supported_providers.
Proof.
  intros H. apply dict_get_In in H. unfold _provider_info in H. simpl in H.
  repeat (destruct H as [H|H]; [injection H as <- <-; simpl; tauto|]).
  destruct H.
Qed.

Lemma info_for_supported (p : string) :
  In p get_supported_providers ->
  exists c info, dict_get p _providers = Some c /\ dict_get p _provider_info = Some info.
Proof.
  unfold get_supported_providers, keys, _providers. simpl.
  intros H. repeat (destruct H as [H|H]; [subst p; do 2 eexists; split; reflexivity|]).
  destruct H.
Qed.

(** [create_provider] never looks at the model: whether it raises depends
    on the provider alone, and then the error is the unsupported-provider
    one.  For a supported provider a model that is given is bound as it
    is, accepted by [validate_provider_config] or not, and a model that is
    left out is replaced by the declared default, which
    [validate_provider_config] accepts. *)
Theorem create_provider_binds_any_model (p key : string) (m : option string) :
  (forall e, snd (create_provider p key m) = Raise e ->
             ~ In p get_supported_providers /\
             e = ValueError ("Unsupported provider: " ++ p)%string) /\
  (In p get_supported_providers ->
   exists inst,
     snd (create_provider p key m) = Ok inst /\
     api_key inst = key /\
     (forall s, m = Some s -> s <> "" -> model inst = s) /\
     (model_unset m = true -> validate_provider_config p (model inst) = true)).
Proof.
  split.
  - intros e. unfold create_provider.
    destruct (dict_get p _providers) as [c|] eqn:Ec.
    + destruct (providers_have_info _ _ Ec) as [info Ei]. rewrite Ei.
      destruct (model_unset m); simpl; discriminate.
    + cbn [snd]. intros [= <-]. split; [|reflexivity].
      unfold get_supported_providers. now apply dict_get_None.
  - intros Hin. destruct (info_for_supported p Hin) as [c [info [Ec Ei]]].
    unfold create_provider. rewrite Ec, Ei.
    destruct (model_unset m) eqn:Em; simpl; eexists; (split; [reflexivity|]); simpl;
      (split; [reflexivity|]); split.
    + intros s -> Hs. simpl in Em. apply String.eqb_eq in Em. contradiction.
    + intros _. unfold validate_provider_config. rewrite Ei.
      apply existsb_eqb_In. now apply (provider_info_entries p info).
    + now intros s ->.
    + discriminate.
Qed.

Lemma create_provider_binds_any_model_witness :
  exists inst,
    snd (create_provider "openai" "sk-1" (Some "gpt-9")) = Ok inst /\
    api_key inst = "sk-1" /\
    (forall s, Some "gpt-9" = Some s -> s <> "" -> model inst = s) /\
    (model_unset (Some "gpt-9") = true ->
     validate_provider_config "openai" (model inst) = true).
Proof.
  apply (proj2 (create_provider_binds_any_model "openai" "sk-1" (Some "gpt-9"))).
  unfold get_supported_providers; simpl. tauto.
Defined.

(** [get_provider_info] without a provider, or with the empty string,
    lists the information of the supported providers in their order; with
    a name it raises the same error as [create_provider] exactly for the
    names [create_provider] refuses, and otherwise returns the entry of
    that provider, whose default model is one of its models. *)
Theorem get_provider_info_agrees (p : string) :
  (exists l, get_provider_info None = Ok (inr l) /\
             get_provider_info (Some "") = Ok (inr l) /\
             map provider l = get_supported_providers) /\
  (p <> "" ->
   match get_provider_info (Some p) with
   | Ok (inl info) =>
       provider info = p /\ In (default_model info) (models info) /\
       In p get_supported_providers
   | Ok (inr _) => False
   | Raise e =>
       ~ In p get_supported_providers /\
       forall key m, snd (create_provider p key m) = Raise e
   end).
Proof.
  split.
  - eexists. repeat split.
  - intros Hp. unfold get_provider_info.
    destruct (String.eqb_spec p "") as [->|_]; [now contradiction Hp|].
    destruct (dict_get p _provider_info) as [info|] eqn:Ei.
    + now apply provider_info_entries.
    + assert (Hn : ~ In p get_supported_providers).
      { intros HI. destruct (info_for_supported p HI) as [c [info [_ E]]]. congruence. }
      split; [exact Hn|]. intros key m. unfold create_provider.
      apply dict_get_None in Hn. now rewrite Hn.
Qed.

Lemma get_provider_info_agrees_witness :
  match get_provider_info (Some "mistral") with
  | Ok (inl info) =>
      provider info = "mistral" /\ In (default_model info) (models info) /\
      In "mistral" get_supported_providers
  | Ok (inr _) => False
  | Raise e =>
      ~ In "mistral" get_supported_providers /\
      forall key m, snd (create_provider "mistral" key m) = Raise e
  end.
Proof.
  apply (proj2 (get_provider_info_agrees "mistral")). discriminate.
Defined.
End FactoryMoreFacts.

(** ** The chat endpoints and the tables *)

Section RowFacts.
Import Models.
Context {A : Type}.
Implicit Types (p q : A -> bool) (l : list A).

Lemma filter_update_first q p (f : A -> A) l :
  (forall x, p x = true -> q x = false /\ q (f x) = false) ->
  filter q (update_first p f l) = filter q l.
Proof.
  intros H. induction l as [|x rest IH]; simpl; [reflexivity|].
  destruct (p x) eqn:E; simpl.
  - destruct (H x E) as [-> ->]. reflexivity.
  - now rewrite IH.
Qed.

Lemma filter_remove_first q p l :
  (forall x, p x = true -> q x = false) ->
  filter q (remove_first p l) = filter q l.
Proof.
  intros H. induction l as [|x rest IH]; simpl; [reflexivity|].
  destruct (p x) eqn:E; simpl.
  - now rewrite (H x E).
  - now rewrite IH.
Qed.

Lemma In_remove_first p l (x : A) : In x (remove_first p l) -> In x l.
Proof.
  induction l as [|y rest IH]; simpl; [now intros []|].
  destruct (p y); simpl; [now right|]. intros [<-|H]; [now left|right; now apply IH].
Qed.

Lemma In_update_first p (f : A -> A) l (x : A) :
  In x (update_first p f l) -> In x l \/ exists y, In y l /\ p y = true /\ x = f y.
Proof.
  induction l as [|y rest IH]; simpl; [now intros []|].
  destruct (p y) eqn:E; simpl.
  - intros [<-|H]; [right; exists y; auto|left; now right].
  - intros [<-|H]; [left; now left|].
    destruct (IH H) as [HI|[z [HI [Hp Hx]]]]; [left; now right|].
    right. exists z. auto.
Qed.

Lemma map_update_first {B : Type} (g : A -> B) p (f : A -> A) l :
  (forall x, p x = true -> g (f x) = g x) ->
  map g (update_first p f l) = map g l.
Proof.
  intros H. induction l as [|x rest IH]; simpl; [reflexivity|].
  destruct (p x) eqn:E; simpl; [now rewrite (H x E)|now rewrite IH].
Qed.

Lemma NoDup_map_remove_first {B : Type} (g : A -> B) p l :
  NoDup (map g l) -> NoDup (map g (remove_first p l)).
Proof.
  induction l as [|x rest IH]; simpl; [auto|]. intros H.
  inversion H as [|? ? Hn Hr]; subst. destruct (p x); simpl; [exact Hr|].
  constructor; [|now apply IH]. intros HI. apply Hn.
  apply in_map_iff in HI. destruct HI as [y [<- Hy]].
  apply in_map. now apply (In_remove_first p).
Qed.

Lemma In_map_remove_first {B : Type} (g : A -> B) p l (y : B) :
  (forall x, p x = true -> g x <> y) ->
  In y (map g l) -> In y (map g (remove_first p l)).
Proof.
  intros H. induction l as [|x rest IH]; simpl; [auto|].
  destruct (p x) eqn:E; simpl.
  - intros [Hx|HI]; [exfalso; now apply (H x E)|exact HI].
  - intros [Hx|HI]; [now left|right; now apply IH].
Qed.

Lemma NoDup_map_filter {B : Type} (g : A -> B) q l :
  NoDup (map g l) -> NoDup (map g (filter q l)).
Proof.
  induction l as [|x rest IH]; simpl; [auto|]. intros H.
  inversion H as [|? ? Hn Hr]; subst. destruct (q x); simpl; [|now apply IH].
  constructor; [|now apply IH]. intros HI. apply Hn.
  apply in_map_iff in HI. destruct HI as [y [<- Hy]].
  apply in_map. now apply filter_In in Hy.
Qed.
End RowFacts.

Section ChatApiFacts.
Import LLMFactory Models ChatApi ChatSpec.

Lemma find_chat_some (db : database) (chat_id u : Z) (chat : chats.row) :
  find_chat db chat_id u = Some chat ->
  In chat (chat_rows db) /\ chats.id chat = chat_id /\ chats.user_id chat = u.
Proof.
  unfold find_chat. intros H. apply find_some in H. destruct H as [HI Ho].
  unfold owned in Ho. apply andb_true_iff in Ho. destruct Ho as [H1 H2].
  apply Z.eqb_eq in H1. apply Z.eqb_eq in H2. auto.
Qed.

Lemma owned_user (chat_id u : Z) (c : chats.row) :
  owned chat_id u c = true -> chats.id c = chat_id /\ chats.user_id c = u.
Proof.
  unfold owned. intros H. apply andb_true_iff in H. destruct H as [H1 H2].
  apply Z.eqb_eq in H1. apply Z.eqb_eq in H2. auto.
Qed.

Lemma owned_not_foreign (chat_id u : Z) (c : chats.row) :
  owned chat_id u c = true -> foreign_chat u c = false.
Proof.
  intros H. destruct (owned_user _ _ _ H) as [_ Hu]. unfold foreign_chat.
  rewrite Hu, Z.eqb_refl. reflexivity.
Qed.

Lemma apply_update_keeps (u : ChatUpdate.t) (c c' : chats.row) :
  apply_update u c = Some c' ->
  chats.id c' = chats.id c /\ chats.user_id c' = chats.user_id c /\
  chats.llm_provider c' = chats.llm_provider c /\
  chats.model_name c' = chats.model_name c.
Proof.
  unfold apply_update.
  destruct (match ChatUpdate.title u with
            | Some new_title => new_title
            | None => Some (chats.title c)
            end); [|discriminate].
  intros [= <-]. simpl. auto.
Qed.

Lemma found_not_foreign_message (db : database) (chat_id u : Z) (chat : chats.row)
    (m : messages.row) :
  find_chat db chat_id u = Some chat ->
  messages.chat_id m = chat_id -> foreign_message db u m = false.
Proof.
  intros Hf Hm. unfold find_chat in Hf. apply find_some in Hf. destruct Hf as [HI Ho].
  unfold foreign_message. rewrite Hm.
  assert (E : existsb (owned chat_id u) (chat_rows db) = true).
  { apply existsb_exists. now exists chat. }
  now rewrite E.
Qed.

(** No request of the five chat endpoints changes a row that is not the
    caller's: the chats of every other user and the messages of chats the
    caller does not own are the same after it, whatever the identifiers
    in the request; and [get_chat] returns only a chat of the caller with
    the identifier asked for. *)
Theorem requests_touch_own_rows_only (db : database) (current_user : Z)
    (r : chat_request) :
  filter (foreign_chat current_user) (chat_rows (handle db current_user r))
    = filter (foreign_chat current_user) (chat_rows db) /\
  filter (foreign_message db current_user) (message_rows (handle db current_user r))
    = filter (foreign_message db current_user) (message_rows db) /\
  (forall chat_id chat,
     snd (get_chat db chat_id current_user) = Returned chat ->
     In chat (chat_rows db) /\ chats.id chat = chat_id /\
     chats.user_id chat = current_user).
Proof.
  split; [|split].
  - destruct r as [chat|chat_id|chat_id u|chat_id|chat_id m]; simpl.
    + unfold create_chat. destruct (negb _); simpl; [reflexivity|].
      rewrite filter_app. simpl. unfold foreign_chat at 2. simpl.
      rewrite Z.eqb_refl. simpl. now rewrite app_nil_r.
    + unfold get_chat. now destruct (find_chat db chat_id current_user).
    + unfold update_chat.
      destruct (find_chat db chat_id current_user) as [chat|] eqn:Ef; [|reflexivity].
      destruct (apply_update u chat) as [chat'|] eqn:Ea; [|reflexivity]. simpl.
      apply filter_update_first. intros x Hx.
      split; [now apply (owned_not_foreign chat_id)|].
      destruct (apply_update_keeps _ _ _ Ea) as [_ [Hu _]].
      destruct (find_chat_some _ _ _ _ Ef) as [_ [_ Hc]].
      unfold foreign_chat. rewrite Hu, Hc, Z.eqb_refl. reflexivity.
    + unfold delete_chat.
      destruct (find_chat db chat_id current_user) as [chat|]; [|reflexivity]. simpl.
      apply filter_remove_first. intros x Hx. now apply (owned_not_foreign chat_id).
    + unfold add_message. now destruct (find_chat db chat_id current_user).
  - destruct r as [chat|chat_id|chat_id u|chat_id|chat_id m]; simpl.
    + unfold create_chat. now destruct (negb _).
    + unfold get_chat. now destruct (find_chat db chat_id current_user).
    + unfold update_chat.
      destruct (find_chat db chat_id current_user) as [chat|]; [|reflexivity].
      now destruct (apply_update u chat).
    + unfold delete_chat.
      destruct (find_chat db chat_id current_user) as [chat|] eqn:Ef; [|reflexivity].
      simpl. induction (message_rows db) as [|m rest IH]; simpl; [reflexivity|].
      destruct (messages.chat_id m =? chats.id chat)%Z eqn:Em; simpl.
      * apply Z.eqb_eq in Em.
        destruct (find_chat_some _ _ _ _ Ef) as [_ [Hid _]].
        rewrite (found_not_foreign_message db chat_id current_user chat m Ef)
          by congruence.
        exact IH.
      * destruct (foreign_message db current_user m); [now rewrite IH|exact IH].
    + unfold add_message.
      destruct (find_chat db chat_id current_user) as [chat|] eqn:Ef; [|reflexivity].
      simpl. rewrite filter_app. simpl.
      rewrite (found_not_foreign_message db chat_id current_user chat _ Ef)
        by reflexivity.
      now rewrite app_nil_r.
  - intros chat_id chat. unfold get_chat.
    destruct (find_chat db chat_id current_user) as [c|] eqn:Ef; simpl;
      [|discriminate].
    intros [= <-]. now apply find_chat_some.
Qed.

(** The chat endpoints keep the stored chats acceptable to the factory:
    [create_chat] refuses, with 400 and no row written, a model the
    provider does not declare, and [update_chat] never changes the
    identifier, the owner, the provider or the model of a chat; so when
    every stored chat names a declared provider and model before a
    request, every stored chat does after it. *)
Theorem stored_chats_stay_valid (db : database) (current_user : Z)
    (r : chat_request) :
  (forall chat,
     validate_provider_config (ChatCreate.llm_provider chat)
       (ChatCreate.model_name chat) = false ->
     exists detail, create_chat db chat current_user = (db, Rejected 400 detail)) /\
  (forall chat_id u chat',
     snd (update_chat db chat_id u current_user) = Returned chat' ->
     exists chat,
       find_chat db chat_id current_user = Some chat /\
       chats.id chat' = chats.id chat /\
       chats.user_id chat' = chats.user_id chat /\
       chats.llm_provider chat' = chats.llm_provider chat /\
       chats.model_name chat' = chats.model_name chat) /\
  (chats_valid db -> chats_valid (handle db current_user r)).
Proof.
  split; [|split].
  - intros chat H. unfold create_chat. rewrite H. simpl. now eexists.
  - intros chat_id u chat'. unfold update_chat.
    destruct (find_chat db chat_id current_user) as [chat|]; simpl; [|discriminate].
    destruct (apply_update u chat) as [c|] eqn:Ea; simpl; [|discriminate].
    intros [= <-]. exists chat. split; [reflexivity|].
    now apply (apply_update_keeps u).
  - unfold chats_valid. intros Hv.
    destruct r as [chat|chat_id|chat_id u|chat_id|chat_id m]; simpl.
    + unfold create_chat.
      destruct (validate_provider_config _ _) eqn:E; simpl; [|exact Hv].
      apply Forall_app. split; [exact Hv|]. now repeat constructor.
    + unfold get_chat. now destruct (find_chat db chat_id current_user).
    + unfold update_chat.
      destruct (find_chat db chat_id current_user) as [chat|] eqn:Ef; [|exact Hv].
      destruct (apply_update u chat) as [chat'|] eqn:Ea; [|exact Hv]. simpl.
      apply Forall_forall. intros x Hx. rewrite Forall_forall in Hv.
      destruct (In_update_first _ _ _ _ Hx) as [HI|[y [HI [Hp ->]]]]; [now apply Hv|].
      destruct (apply_update_keeps _ _ _ Ea) as [_ [_ [-> ->]]].
      apply Hv. now apply (find_chat_some db chat_id current_user).
    + unfold delete_chat.
      destruct (find_chat db chat_id current_user) as [chat|]; [|exact Hv]. simpl.
      apply Forall_forall. intros x Hx. rewrite Forall_forall in Hv.
      apply Hv. now apply (In_remove_first (owned chat_id current_user)).
    + unfold add_message. now destruct (find_chat db chat_id current_user).
Qed.

Lemma stored_chats_stay_valid_witness :
  chats_valid (handle Examples.one_chat_db 7 (DeleteChat 1)).
Proof.
  apply (proj2 (proj2 (stored_chats_stay_valid Examples.one_chat_db 7 (DeleteChat 1)))).
  repeat constructor.
Defined.
End ChatApiFacts.

Section ConsistencyFacts.
Import LLMFactory Models ChatApi ChatSpec.

Lemma consistent_insert_message (db : database) (chat_id : Z) (r c : string)
    (meta : option pyval) :
  consistent db -> In chat_id (map chats.id (chat_rows db)) ->
  consistent (fst (insert_message db chat_id r c meta)).
Proof.
  intros [H1 [H2 [H3 [H4 H5]]]] Hin. unfold consistent; simpl.
  split; [exact H1|]. split; [exact H2|]. split; [|split].
  - apply Forall_app. split.
    + eapply Forall_impl; [|exact H3]. simpl. intros; lia.
    + repeat constructor. simpl. lia.
  - rewrite map_app. simpl. apply NoDup_app; [exact H4|repeat constructor; now intros []|].
    intros x Hx [Ex|[]]. subst x. rewrite Forall_forall in H3.
    apply in_map_iff in Hx. destruct Hx as [m [Hm HI]]. specialize (H3 m HI). lia.
  - apply Forall_app. split; [exact H5|]. now repeat constructor.
Qed.

(** The chat endpoints keep the tables consistent: primary keys stay
    distinct and below the next key, and no message is left without its
    chat, [delete_chat] taking the messages of the chat with it. *)
Theorem tables_stay_consistent (db : database) (current_user : Z)
    (r : chat_request) :
  consistent db -> consistent (handle db current_user r).
Proof.
  intros Hc. pose proof Hc as [H1 [H2 [H3 [H4 H5]]]].
  destruct r as [chat|chat_id|chat_id u|chat_id|chat_id m]; simpl.
  - unfold create_chat. destruct (negb _); simpl; [exact Hc|].
    unfold consistent; simpl. split; [|split; [|split; [|split]]]; try assumption.
    + apply Forall_app. split.
      * eapply Forall_impl; [|exact H1]. simpl. intros; lia.
      * repeat constructor. simpl. lia.
    + rewrite map_app. simpl.
      apply NoDup_app; [exact H2|repeat constructor; now intros []|].
      intros x Hx [Ex|[]]. subst x. rewrite Forall_forall in H1.
      apply in_map_iff in Hx. destruct Hx as [c [Hcid HI]]. specialize (H1 c HI). lia.
    + eapply Forall_impl; [|exact H5]. simpl. intros a Ha.
      rewrite map_app. apply in_or_app. now left.
  - unfold get_chat. now destruct (find_chat db chat_id current_user).
  - unfold update_chat.
    destruct (find_chat db chat_id current_user) as [chat|] eqn:Ef; [|exact Hc].
    destruct (apply_update u chat) as [chat'|] eqn:Ea; [|exact Hc].
    destruct (apply_update_keeps _ _ _ Ea) as [Hid _].
    destruct (find_chat_some _ _ _ _ Ef) as [HI [Hcid _]].
    assert (Hm : map chats.id (update_first (owned chat_id current_user)
                                 (fun _ => chat') (chat_rows db))
                 = map chats.id (chat_rows db)).
    { apply map_update_first. intros x Hx.
      destruct (owned_user _ _ _ Hx) as [-> _]. congruence. }
    unfold consistent; simpl. rewrite Hm.
    split; [|split; [|split; [|split]]]; try assumption.
    apply Forall_forall. intros x Hx. rewrite Forall_forall in H1.
    destruct (In_update_first _ _ _ _ Hx) as [Hx'|[y [Hy [_ ->]]]]; [now apply H1|].
    rewrite Hid. now apply H1.
  - unfold delete_chat.
    destruct (find_chat db chat_id current_user) as [chat|] eqn:Ef; [|exact Hc].
    destruct (find_chat_some _ _ _ _ Ef) as [HI [Hcid _]].
    unfold consistent; simpl. split; [|split; [|split; [|split]]].
    + apply Forall_forall. intros x Hx. rewrite Forall_forall in H1.
      apply H1. now apply (In_remove_first (owned chat_id current_user)).
    + now apply NoDup_map_remove_first.
    + apply Forall_forall. intros x Hx. rewrite Forall_forall in H3.
      apply H3. now apply filter_In in Hx.
    + now apply NoDup_map_filter.
    + apply Forall_forall. intros x Hx. apply filter_In in Hx. destruct Hx as [Hx Hne].
      rewrite Forall_forall in H5. apply In_map_remove_first; [|now apply H5].
      intros y Hy E. destruct (owned_user _ _ _ Hy) as [Hyid _].
      assert (Hx' : messages.chat_id x = chats.id chat) by congruence.
      rewrite Hx', Z.eqb_refl in Hne. discriminate.
  - unfold add_message.
    destruct (find_chat db chat_id current_user) as [chat|] eqn:Ef; [|exact Hc].
    destruct (find_chat_some _ _ _ _ Ef) as [HI [Hcid _]].
    apply (consistent_insert_message db chat_id _ _ _ Hc).
    rewrite <- Hcid. now apply in_map.
Qed.

Lemma one_chat_db_consistent : consistent Examples.one_chat_db.
Proof.
  unfold consistent; simpl.
  repeat split; repeat constructor; simpl; try lia; try tauto.
Defined.

Lemma tables_stay_consistent_witness :
  consistent (handle Examples.one_chat_db 7 (DeleteChat 1)).
Proof.
  exact (tables_stay_consistent Examples.one_chat_db 7 (DeleteChat 1)
           one_chat_db_consistent).
Defined.
End ConsistencyFacts.

(** ** The loop and the stream endpoint, further *)

Section LoopMoreFacts.
Import Providers MCP Chat Spec.
Variable generate_response : list LLMMessage -> result LLMResponse.
Variable py_str : pyval -> string.
Variable json_dumps : pyval -> string.
Variable enabled_servers : list (string * MCPServer).

Local Abbreviation body :=
  (loop_body generate_response py_str json_dumps enabled_servers).
Local Abbreviation loop :=
  (tool_call_loop generate_response py_str json_dumps enabled_servers).
Local Abbreviation passes :=
  (after_passes generate_response py_str json_dumps enabled_servers).

Lemma loop_body_break (st : loop_state) (final : LLMResponse) (chain : list pyval) :
  body st = Ok (Break final chain) ->
  generate_response (current_messages st) = Ok final /\
  requested_tool_call final = None /\ chain = tool_call_chain st.
Proof.
  unfold loop_body.
  destruct (generate_response (current_messages st)) as [response|]; simpl;
    [|discriminate].
  destruct (requested_tool_call response) as [tc|] eqn:Er.
  - destruct (getitem tc "name"); simpl; [|discriminate].
    destruct (get_default tc "arguments" (PDict [])); simpl; [|discriminate].
    destruct (find_server _ _) as [[s|]|]; simpl; discriminate.
  - intros [= <- <-]. auto.
Qed.

Lemma loop_body_continue (st st' : loop_state) :
  body st = Ok (Continue st') ->
  exists m call,
    current_messages st' = current_messages st ++ [m] /\ role m = "tool" /\
    tool_call_chain st' = tool_call_chain st ++ [call] /\ truthy call = true.
Proof.
  unfold loop_body.
  destruct (generate_response (current_messages st)) as [response|]; simpl;
    [|discriminate].
  unfold requested_tool_call.
  destruct (r_content response) as [| | | | |d]; try discriminate.
  destruct (dict_get "tool_call" d) as [tc|]; [|discriminate].
  destruct (truthy tc) eqn:Et; [|discriminate].
  destruct (getitem tc "name"); simpl; [|discriminate].
  destruct (get_default tc "arguments" (PDict [])); simpl; [|discriminate].
  destruct (find_server _ _) as [[s|]|]; simpl; try discriminate.
  intros [= <-]. simpl. do 2 eexists. repeat split. exact Et.
Qed.

Lemma loop_answer (fuel : nat) :
  forall st final chain,
    loop fuel st = Some (Ok (final, chain)) ->
    exists msgs calls,
      chain = tool_call_chain st ++ calls /\
      List.length msgs = List.length calls /\
      (List.length calls < fuel)%nat /\
      Forall (fun m => role m = "tool") msgs /\
      Forall (fun c => truthy c = true) calls /\
      generate_response (current_messages st ++ msgs) = Ok final /\
      requested_tool_call final = None.
Proof.
  induction fuel as [|fuel IH]; intros st final chain; simpl; [discriminate|].
  destruct (body st) as [[st'|final' chain']|e] eqn:E; [| |discriminate].
  - intros H. destruct (IH _ _ _ H) as [msgs [calls [Hc [Hl [Hf [Hm [Ht [Hg Hr]]]]]]]].
    destruct (loop_body_continue _ _ E) as [m [call [Em [Hrole [Ech Hcall]]]]].
    exists (m :: msgs), (call :: calls).
    rewrite Em, <- app_assoc in Hg. rewrite Ech, <- app_assoc in Hc. simpl in *.
    repeat split; try assumption; try lia; now constructor.
  - intros [= <- <-]. destruct (loop_body_break _ _ _ E) as [Hg [Hr ->]].
    exists [], []. rewrite !app_nil_r. repeat split; auto; simpl; lia.
Qed.

End LoopMoreFacts.


Section GoogleFacts.
Import LLMFactory Providers MCP Chat.
Variable vendor : vendor_request -> result vendor_reply.
Variable json_loads : string -> option pyval.
Variable py_str : pyval -> string.
Variable content_accepted : pyval -> bool.
Variable json_dumps : pyval -> string.
Variable enabled_servers : list (string * MCPServer).

(** With the Google adapter the loop never makes a tool call: the adapter
    returns the reply text unparsed, so for a vendor whose replies carry
    text the first pass ends the loop, with the error of the vendor or
    with the text as the answer and the chain as it was. *)
Theorem google_never_calls_tools (self : LLMInterface) (max_tokens : Z)
    (kwargs : list (string * pyval)) (st : loop_state) :
  cls self = GoogleProvider ->
  (forall req reply, vendor req = Ok reply -> exists s, text reply = PStr s) ->
  match tool_call_loop
          (fun messages =>
             generate_response vendor json_loads py_str content_accepted self
               messages max_tokens kwargs)
          py_str json_dumps enabled_servers 1 st with
  | Some (Ok (final, chain)) =>
      chain = tool_call_chain st /\ exists s, r_content final = PStr s
  | Some (Raise e) => exists req, vendor req = Raise e
  | None => False
  end.
Proof.
  intros Hc Hv. simpl. unfold loop_body, generate_response. rewrite Hc.
  unfold google_generate_response.
  destruct (vendor _) as [reply|e] eqn:E; simpl.
  - destruct (Hv _ _ E) as [s Hs]. rewrite Hs. simpl.
    split; [reflexivity|]. now exists s.
  - eexists. exact E.
Qed.
End GoogleFacts.

Lemma google_never_calls_tools_witness :
  match Chat.tool_call_loop
          (fun messages =>
             Providers.generate_response
               (fun _ => Ok (Examples.reply_with Examples.search_request))
               Text.loads Examples.show (fun _ => true)
               {| LLMFactory.cls := LLMFactory.GoogleProvider;
                  LLMFactory.api_key := "g-key";
                  LLMFactory.model := "gemini-2.5-pro";
                  LLMFactory.default_models := [] |}
               messages 1000 [])
          Examples.show Examples.show
          (MCP.get_enabled_servers Examples.default_service) 1
          {| Chat.current_messages := Examples.cats_conversation;
             Chat.tool_call_chain := [] |} with
  | Some (Ok (final, chain)) =>
      chain = [] /\ exists s, Providers.r_content final = PStr s
  | Some (Raise e) =>
      exists req, (fun _ : Providers.vendor_request =>
                     Ok (Examples.reply_with Examples.search_request)) req = Raise e
  | None => False
  end.
Proof.
  apply (google_never_calls_tools
           (fun _ => Ok (Examples.reply_with Examples.search_request))
           Text.loads Examples.show (fun _ => true) Examples.show
           (MCP.get_enabled_servers Examples.default_service)
           {| LLMFactory.cls := LLMFactory.GoogleProvider;
              LLMFactory.api_key := "g-key";
              LLMFactory.model := "gemini-2.5-pro";
              LLMFactory.default_models := [] |}
           1000 []
           {| Chat.current_messages := Examples.cats_conversation;
              Chat.tool_call_chain := [] |}).
  - reflexivity.
  - intros req reply [= <-]. now eexists.
Defined.

Section StreamEndpointFacts.
Import LLMFactory Providers MCP Models ChatApi.
Variable generate : LLMInterface -> option Z -> pyval -> list LLMMessage
                    -> result LLMResponse.
Variable py_str : pyval -> string.
Variable json_dumps : pyval -> string.
Variable exn_str : exn -> string.
Variable store_content : pyval -> result string.

Lemma select_api_key_supported (settings : Settings) (p key : string) :
  select_api_key settings p = Some key -> In p get_supported_providers.
Proof.
  unfold select_api_key, get_supported_providers, keys, _providers. simpl.
  destruct (String.eqb_spec p "openai") as [->|_]; [tauto|].
  destruct (String.eqb_spec p "anthropic") as [->|_]; [tauto|].
  destruct (String.eqb_spec p "google") as [->|_]; [tauto|].
  destruct (String.eqb_spec p "groq") as [->|_]; [tauto|].
  discriminate.
Qed.

Lemma create_provider_supported (p key : string) (m : option string) :
  In p get_supported_providers -> exists inst, snd (create_provider p key m) = Ok inst.
Proof.
  intros H. destruct (info_for_supported p H) as [c [info [Ec Ei]]].
  unfold create_provider. rewrite Ec, Ei. destruct (model_unset m); now eexists.
Qed.

Lemma provider_keys_select (settings : Settings) (p : string) (k : option string) :
  In (p, k) (ChatSpec.provider_keys settings) -> k = select_api_key settings p.
Proof.
  unfold ChatSpec.provider_keys. simpl.
  intros [H|[H|[H|[H|[]]]]]; injection H as <- <-; reflexivity.
Qed.

Lemma select_provider_keys (settings : Settings) (p key : string) :
  select_api_key settings p = Some key -> In (p, Some key) (ChatSpec.provider_keys settings).
Proof.
  unfold select_api_key, ChatSpec.provider_keys.
  destruct (String.eqb_spec p "openai") as [->|_]; [intros ->; now left|].
  destruct (String.eqb_spec p "anthropic") as [->|_];
    [intros ->; right; now left|].
  destruct (String.eqb_spec p "google") as [->|_];
    [intros ->; do 2 right; now left|].
  destruct (String.eqb_spec p "groq") as [->|_];
    [intros ->; do 3 right; now left|].
  discriminate.
Qed.

(** What a finished [stream_chat] request leaves behind.  A rejected
    request changes nothing: it is a 404 for a chat that is not the
    caller's; a 400 when no key is configured for the provider of the
    chat, that is, when the provider is none of the four or its own
    setting (OPENAI_API_KEY for openai, ANTHROPIC_API_KEY for anthropic,
    GOOGLE_API_KEY for google, GROQ_API_KEY for groq) is unset or empty;
    and otherwise, with a key configured, the 500 of an error while
    generating; the 500 of a provider that cannot be initialised does not
    occur once a key was found.  A request that returns had a key
    configured and stores one row, the assistant message with the final
    content, in the caller's chat: neither the message of the request nor
    any tool call or tool result of the turn is stored, and the answer is
    not a tool-call request. *)
Theorem stream_chat_stores_only_the_answer (fuel : nat) (db db' : database)
    (svc : MCPService) (settings : Settings) (chat_id : Z)
    (request : ChatStreamRequest.t) (current_user : Z) (resp : response pyval) :
  stream_chat generate py_str json_dumps exn_str store_content fuel db svc settings
    chat_id request current_user = Some (db', resp) ->
  match resp with
  | Returned body =>
      exists chat final chain stored,
        find_chat db chat_id current_user = Some chat /\
        ChatSpec.key_configured settings (chats.llm_provider chat) /\
        Chat.requested_tool_call final = None /\
        store_content (r_content final) = Ok stored /\
        body = PDict [ ("content", r_content final); ("done", PBool true);
                       ("tool_calls", PList chain) ] /\
        chat_rows db' = chat_rows db /\
        message_rows db' =
          message_rows db ++
          [ {| messages.id := next_message_id db;
               messages.chat_id := chat_id;
               messages.role := "assistant";
               messages.content := stored;
               messages.message_metadata := None |} ]
  | Rejected status detail =>
      db' = db /\
      ((status = 404%Z /\ detail = "Chat not found" /\
        find_chat db chat_id current_user = None) \/
       (status = 400%Z /\
        exists chat, find_chat db chat_id current_user = Some chat /\
                     ChatSpec.no_key_configured settings (chats.llm_provider chat) /\
                     detail = ("No API key configured for "
                               ++ chats.llm_provider chat)%string) \/
       (status = 500%Z /\
        exists chat e,
          find_chat db chat_id current_user = Some chat /\
          ChatSpec.key_configured settings (chats.llm_provider chat) /\
          detail = ("Error generating response: " ++ exn_str e)%string))
  | Failed => False
  end.
Proof.
  unfold stream_chat.
  destruct (find_chat db chat_id current_user) as [chat|] eqn:Ef.
  2:{ intros [= <- <-]. split; [reflexivity|]. left. now repeat split. }
  destruct (select_api_key settings (chats.llm_provider chat)) as [key|] eqn:Ek.
  2:{ intros [= <- <-]. split; [reflexivity|]. right. left.
      split; [reflexivity|]. exists chat. split; [reflexivity|].
      split; [|reflexivity]. intros k Hk. left.
      rewrite (provider_keys_select _ _ _ Hk). exact Ek. }
  destruct (String.eqb_spec key "") as [->|Hne].
  { intros [= <- <-]. split; [reflexivity|]. right. left.
    split; [reflexivity|]. exists chat. split; [reflexivity|].
    split; [|reflexivity]. intros k Hk. right.
    rewrite (provider_keys_select _ _ _ Hk). exact Ek. }
  assert (Hkey : ChatSpec.key_configured settings (chats.llm_provider chat)).
  { exists key. split; [now apply select_provider_keys|exact Hne]. }
  destruct (create_provider_supported (chats.llm_provider chat) key
              (Some (chats.model_name chat))
              (select_api_key_supported _ _ _ Ek)) as [inst ->].
  destruct (Chat.tool_call_loop _ _ _ _ _ _) as [[[final chain]|e]|] eqn:El;
    [| |discriminate].
  - destruct (store_content (r_content final)) as [stored|e] eqn:Es.
    + intros [= <- <-]. exists chat, final, chain, stored.
      split; [reflexivity|]. split; [exact Hkey|].
      split.
      { destruct (loop_answer _ _ _ _ _ _ _ _ El)
          as [msgs [calls [_ [_ [_ [_ [_ [_ Hr]]]]]]]]. exact Hr. }
      now repeat split.
    + intros [= <- <-]. split; [reflexivity|]. right. right.
      split; [reflexivity|]. now exists chat, e.
  - intros [= <- <-]. split; [reflexivity|]. right. right.
    split; [reflexivity|]. now exists chat, e.
Qed.
End StreamEndpointFacts.

Lemma stream_chat_stores_only_the_answer_witness :
  exists chat final chain stored,
    ChatApi.find_chat Examples.one_chat_db 1 7 = Some chat /\
    ChatSpec.key_configured Examples.google_key_only (Models.chats.llm_provider chat) /\
    Chat.requested_tool_call final = None /\
    (fun _ : pyval => Ok "Hello") (Providers.r_content final) = Ok stored /\
    PDict [ ("content", PStr "Hello"); ("done", PBool true); ("tool_calls", PList []) ]
      = PDict [ ("content", Providers.r_content final); ("done", PBool true);
                ("tool_calls", PList chain) ] /\
    Models.chat_rows
      (fst (ChatApi.insert_message Examples.one_chat_db 1 "assistant" "Hello" None))
      = Models.chat_rows Examples.one_chat_db /\
    Models.message_rows
      (fst (ChatApi.insert_message Examples.one_chat_db 1 "assistant" "Hello" None))
      = Models.message_rows Examples.one_chat_db ++
        [ {| Models.messages.id := Models.next_message_id Examples.one_chat_db;
             Models.messages.chat_id := 1;
             Models.messages.role := "assistant";
             Models.messages.content := stored;
             Models.messages.message_metadata := None |} ].
Proof.
  apply (stream_chat_stores_only_the_answer
           (fun _ _ _ _ => Ok (Examples.text_response "Hello")) Examples.show
           Examples.show Examples.show_exn (fun _ => Ok "Hello")
           3 Examples.one_chat_db
           (fst (ChatApi.insert_message Examples.one_chat_db 1 "assistant" "Hello" None))
           Examples.default_service Examples.google_key_only 1
           {| Models.ChatStreamRequest.message := "hi";
              Models.ChatStreamRequest.max_tokens := None |}
           7
           (Models.Returned
              (PDict [ ("content", PStr "Hello"); ("done", PBool true);
                       ("tool_calls", PList []) ]))).
  reflexivity.
Defined.

Section PromptFacts.
Import LLMFactory Providers Chat Spec.

(** For a chat whose stored messages are not of system role, the system
    argument of the Anthropic request is the system prompt of the chat,
    absent when the chat has none or an empty one, and the forwarded
    messages are the stored ones in their order. *)
Theorem anthropic_system_is_chat_prompt (self : LLMInterface)
    (system_prompt : option string) (history : list LLMMessage)
    (max_tokens : Z) (kwargs : list (string * pyval)) :
  (forall m, In m history -> role m <> "system") ->
  anthropic_request self (build_llm_messages system_prompt history) max_tokens kwargs
  = AnthropicMessages (model self) max_tokens
      (match system_prompt with
       | Some p => if String.eqb p "" then None else Some p
       | None => None
       end)
      (format_messages history) kwargs.
Proof.
  intros H.
  assert (Hl : last_system history = None).
  { induction history as [|m rest IH]; simpl; [reflexivity|].
    rewrite IH by (intros m' Hm'; apply H; now right).
    unfold is_system. destruct (String.eqb_spec (role m) "system") as [E|_];
      [|reflexivity].
    exfalso. apply (H m); [now left|exact E]. }
  assert (Hi : inline_messages history = history).
  { unfold inline_messages. induction history as [|m rest IH]; simpl; [reflexivity|].
    unfold is_system at 1.
    destruct (String.eqb_spec (role m) "system") as [E|_].
    - exfalso. apply (H m); [now left|exact E].
    - simpl. f_equal. apply IH.
      + intros m' Hm'. apply H. now right.
      + simpl in Hl. destruct (last_system rest); [discriminate|reflexivity]. }
  unfold anthropic_request, build_llm_messages.
  destruct system_prompt as [p|]; [destruct (String.eqb p "")|];
    rewrite split_system_spec; simpl; rewrite ?Hl, ?Hi; reflexivity.
Qed.

Lemma anthropic_system_is_chat_prompt_witness :
  anthropic_request Examples.claude
    (build_llm_messages (Some "You are helpful")
       [ {| role := "user"; content := "search for cats" |} ]) 1000 []
  = AnthropicMessages "claude-3-sonnet-20240229" 1000 (Some "You are helpful")
      (format_messages [ {| role := "user"; content := "search for cats" |} ]) [].
Proof.
  apply (anthropic_system_is_chat_prompt Examples.claude (Some "You are helpful")
           [ {| role := "user"; content := "search for cats" |} ] 1000 []).
  intros m [<-|[]]. discriminate.
Defined.
End PromptFacts.

(** ** The configuration endpoints *)

Section ConfigListFacts.
Context {A : Type}.
Implicit Types (a b : A -> bool) (h : A -> A) (l : list A).

Lemma filter_map_length_le a b h l :
  (forall r, In r l -> a (h r) = true -> b r = true) ->
  (List.length (filter a (map h l)) <= List.length (filter b l))%nat.
Proof.
  induction l as [|r rest IH]; intros H; simpl; [lia|].
  assert (IH' : (List.length (filter a (map h rest))
                 <= List.length (filter b rest))%nat).
  { apply IH. intros r' Hr'. apply H. now right. }
  destruct (a (h r)) eqn:Ea; simpl.
  - rewrite (H r (or_introl eq_refl) Ea). simpl. lia.
  - destruct (b r); simpl; lia.
Qed.

Lemma filter_map_same a h l :
  (forall r, In r l -> a r = true -> h r = r) ->
  (forall r, In r l -> a (h r) = a r) ->
  filter a (map h l) = filter a l.
Proof.
  induction l as [|r rest IH]; intros H1 H2; simpl; [reflexivity|].
  rewrite (H2 r (or_introl eq_refl)).
  assert (IH' : filter a (map h rest) = filter a rest).
  { apply IH.
    - intros r' Hr'. apply H1. now right.
    - intros r' Hr'. apply H2. now right. }
  rewrite IH'. destruct (a r) eqn:Ea; [|reflexivity].
  now rewrite (H1 r (or_introl eq_refl) Ea).
Qed.

Lemma filter_none a l : (forall r, In r l -> a r = false) -> filter a l = [].
Proof.
  induction l as [|r rest IH]; intros H; simpl; [reflexivity|].
  rewrite (H r (or_introl eq_refl)). apply IH. intros r' Hr'. apply H. now right.
Qed.

Lemma filter_length_remove_first a b l :
  (List.length (filter a (Models.remove_first b l)) <= List.length (filter a l))%nat.
Proof.
  induction l as [|r rest IH]; simpl; [lia|].
  destruct (b r); simpl.
  - destruct (a r); simpl; lia.
  - destruct (a r); simpl; lia.
Qed.

Lemma update_first_as_map {B : Type} (key : A -> B) (p : A -> bool) (x : A)
    (g : A -> A) l :
  NoDup (map key l) ->
  (forall r r', p r = true -> p r' = true -> key r = key r') ->
  (forall r, p (g r) = p r) ->
  Models.update_first p (fun _ => x) (map g l)
    = map (fun r => if p r then x else g r) l.
Proof.
  intros Hnd Hk Hp. induction l as [|r rest IH]; simpl; [reflexivity|].
  inversion Hnd as [|? ? Hn Hr]; subst. rewrite Hp.
  destruct (p r) eqn:E.
  - f_equal. apply map_ext_in. intros r' Hr'.
    destruct (p r') eqn:E'; [|reflexivity].
    exfalso. apply Hn. rewrite (Hk r r' E E'). now apply in_map.
  - f_equal. now apply IH.
Qed.

Lemma filter_unique_length {B : Type} (key : A -> B) (p : A -> bool) l :
  NoDup (map key l) ->
  (forall r r', p r = true -> p r' = true -> key r = key r') ->
  (List.length (filter p l) <= 1)%nat.
Proof.
  intros Hnd Hk. induction l as [|r rest IH]; simpl; [lia|].
  inversion Hnd as [|? ? Hn Hr]; subst.
  destruct (p r) eqn:E; [|now apply IH]. simpl.
  rewrite filter_none; [simpl; lia|].
  intros r' Hr'. destruct (p r') eqn:E'; [|reflexivity].
  exfalso. apply Hn. rewrite (Hk r r' E E'). now apply in_map.
Qed.

Lemma NoDup_map_In_eq {B : Type} (key : A -> B) l (r r' : A) :
  NoDup (map key l) -> In r l -> In r' l -> key r = key r' -> r = r'.
Proof.
  induction l as [|x rest IH]; simpl; [now intros _ []|].
  intros Hnd. inversion Hnd as [|? ? Hn Hr]; subst.
  intros [<-|H1] [<-|H2] E; auto.
  - exfalso. apply Hn. rewrite E. now apply in_map.
  - exfalso. apply Hn. rewrite <- E. now apply in_map.
Qed.
End ConfigListFacts.

Section ConfigFacts.
Import LLMFactory Models LlmConfigApi ConfigSpec.
Variable generate_key : string.
Variable fernet_encrypt : string -> string -> string.

Lemma is_default_of (u : Z) (r : llm_configs.row) :
  ((llm_configs.user_id r =? u)%Z && is_true (llm_configs.is_default r)) = true ->
  llm_configs.user_id r = u /\ is_true (llm_configs.is_default r) = true.
Proof.
  intros H. apply andb_true_iff in H. destruct H as [H1 H2].
  apply Z.eqb_eq in H1. auto.
Qed.

Lemma map_keeps (st : store) (h : llm_configs.row -> llm_configs.row)
    (u : Z) (k : option string) :
  consistent st ->
  (forall r, In r (rows st) -> keeps_keys h r) ->
  (forall r, In r (rows st) -> llm_configs.user_id r <> u -> h r = r) ->
  (List.length (defaults_of u (map h (rows st))) <= 1)%nat ->
  consistent {| rows := map h (rows st); next_id := next_id st; key_file := k |}.
Proof.
  intros [H1 [H2 [H3 H4]]] Hk Ho Hu. unfold consistent; simpl.
  assert (Eid : map llm_configs.id (map h (rows st)) = map llm_configs.id (rows st)).
  { rewrite map_map. apply map_ext_in. intros r Hr. apply (Hk r Hr). }
  split; [|split; [|split]].
  - apply Forall_forall. intros x Hx. apply in_map_iff in Hx.
    destruct Hx as [r [<- Hr]]. rewrite Forall_forall in H1.
    destruct (Hk r Hr) as [-> _]. now apply H1.
  - now rewrite Eid.
  - intros u'. destruct (Z.eq_dec u' u) as [->|Hne]; [exact Hu|].
    unfold defaults_of. rewrite filter_map_same; [apply H3| |].
    + intros r Hr Hd. apply Ho; [exact Hr|].
      destruct (is_default_of _ _ Hd) as [-> _]. exact Hne.
    + intros r Hr. destruct (Z.eq_dec (llm_configs.user_id r) u) as [E|E].
      * destruct (Hk r Hr) as [_ [-> _]]. rewrite E.
        destruct (Z.eqb_spec u u'); [congruence|reflexivity].
      * now rewrite (Ho r Hr E).
  - rewrite map_map.
    rewrite (map_ext_in _ (fun r => (llm_configs.user_id r, llm_configs.provider r)));
      [exact H4|].
    intros r Hr. destruct (Hk r Hr) as [_ [-> ->]]. reflexivity.
Qed.

Lemma clear_keeps (c : llm_configs.row -> bool) (r : llm_configs.row) :
  keeps_keys (fun r => if c r then set_is_default (Some false) r else r) r.
Proof. unfold keeps_keys. destruct (c r); simpl; auto. Qed.

Lemma clear_defaults_le (c : llm_configs.row -> bool) (u : Z)
    (rs : list llm_configs.row) :
  (List.length (defaults_of u
     (map (fun r => if c r then set_is_default (Some false) r else r) rs))
   <= List.length (defaults_of u rs))%nat.
Proof.
  unfold defaults_of. apply filter_map_length_le. intros r _.
  destruct (c r); simpl; [|auto]. rewrite andb_false_r. discriminate.
Qed.

Lemma find_config_some (st : store) (config_id u : Z) (config : llm_configs.row) :
  find_config st config_id u = Some config ->
  In config (rows st) /\ llm_configs.id config = config_id /\
  llm_configs.user_id config = u /\ owned config_id u config = true.
Proof.
  unfold find_config. intros H. apply find_some in H. destruct H as [HI Ho].
  pose proof Ho as Ho'. unfold owned in Ho.
  apply andb_true_iff in Ho. destruct Ho as [Ha Hb].
  apply Z.eqb_eq in Ha. apply Z.eqb_eq in Hb. auto.
Qed.

Lemma owned_keys (config_id u : Z) (r : llm_configs.row) :
  owned config_id u r = true ->
  llm_configs.id r = config_id /\ llm_configs.user_id r = u.
Proof.
  unfold owned. intros H. apply andb_true_iff in H. destruct H as [Ha Hb].
  apply Z.eqb_eq in Ha. apply Z.eqb_eq in Hb. auto.
Qed.

Lemma owned_is_found (st : store) (config_id u : Z) (config r : llm_configs.row) :
  consistent st -> find_config st config_id u = Some config ->
  In r (rows st) -> owned config_id u r = true -> r = config.
Proof.
  intros [_ [Hnd _]] Hf Hr Ho.
  destruct (find_config_some _ _ _ _ Hf) as [Hc [Hid _]].
  destruct (owned_keys _ _ _ Ho) as [Hrid _].
  apply (NoDup_map_In_eq llm_configs.id (rows st)); auto. congruence.
Qed.

(** The replacement of the found row, with the other rows of the user
    possibly cleared first, keeps the table consistent as long as the new
    row keeps the keys and the user ends with at most one default. *)
Lemma replace_keeps (st : store) (config_id u : Z) (config config' : llm_configs.row)
    (c : llm_configs.row -> bool) (k : option string) :
  consistent st ->
  find_config st config_id u = Some config ->
  llm_configs.id config' = llm_configs.id config ->
  llm_configs.user_id config' = llm_configs.user_id config ->
  llm_configs.provider config' = llm_configs.provider config ->
  (forall r, c r = true -> llm_configs.user_id r = u) ->
  ((forall r, In r (rows st) -> llm_configs.user_id r = u ->
              is_true (llm_configs.is_default r) = true ->
              owned config_id u r = false -> c r = true) \/
   (is_true (llm_configs.is_default config') = true ->
    is_true (llm_configs.is_default config) = true)) ->
  consistent
    {| rows := update_first (owned config_id u) (fun _ => config')
                 (map (fun r => if c r then set_is_default (Some false) r else r)
                    (rows st));
       next_id := next_id st; key_file := k |}.
Proof.
  intros Hc Hf Hid Hus Hpr Hcu Hd.
  pose proof Hc as [H1 [H2 [H3 H4]]].
  destruct (find_config_some _ _ _ _ Hf) as [Hin [Hcid [Hcu' Hown]]].
  rewrite (update_first_as_map llm_configs.id); [|exact H2| |].
  2:{ intros r r' Hr Hr'. destruct (owned_keys _ _ _ Hr) as [-> _].
      now destruct (owned_keys _ _ _ Hr') as [-> _]. }
  2:{ intros r. unfold owned. now destruct (c r). }
  apply (map_keeps st _ u k Hc).
  - intros r Hr. unfold keeps_keys. cbn beta.
    destruct (owned config_id u r) eqn:Eo; [|destruct (c r); simpl; auto].
    rewrite (owned_is_found st config_id u config r Hc Hf Hr Eo). auto.
  - intros r Hr Hne. cbn beta. destruct (owned config_id u r) eqn:Eo.
    + destruct (owned_keys _ _ _ Eo) as [_ E]. contradiction.
    + destruct (c r) eqn:Ec; [|reflexivity]. now contradiction (Hcu r Ec).
  - destruct Hd as [Hd|Hd].
    + etransitivity; [|apply (filter_unique_length llm_configs.id
                                (owned config_id u) (rows st) H2)].
      * unfold defaults_of. apply filter_map_length_le. intros r Hr. cbn beta.
        destruct (owned config_id u r) eqn:Eo; [reflexivity|].
        destruct (c r) eqn:Ec; simpl; [rewrite andb_false_r; discriminate|].
        intros Hdr. destruct (is_default_of _ _ Hdr) as [Hu Ht].
        rewrite (Hd r Hr Hu Ht Eo) in Ec. discriminate.
      * intros r r' Hr Hr'. destruct (owned_keys _ _ _ Hr) as [-> _].
        now destruct (owned_keys _ _ _ Hr') as [-> _].
    + etransitivity; [|apply (H3 u)].
      unfold defaults_of. apply filter_map_length_le. intros r Hr. cbn beta.
      destruct (owned config_id u r) eqn:Eo.
      * rewrite (owned_is_found st config_id u config r Hc Hf Hr Eo).
        intros Hdr. destruct (is_default_of _ _ Hdr) as [Hu Ht].
        rewrite Hcu', Z.eqb_refl. simpl. now apply Hd.
      * destruct (c r); simpl; [rewrite andb_false_r; discriminate|auto].
Qed.
Lemma replace_keeps_plain (st : store) (config_id u : Z)
    (config config' : llm_configs.row) (k : option string) :
  consistent st ->
  find_config st config_id u = Some config ->
  llm_configs.id config' = llm_configs.id config ->
  llm_configs.user_id config' = llm_configs.user_id config ->
  llm_configs.provider config' = llm_configs.provider config ->
  (is_true (llm_configs.is_default config') = true ->
   is_true (llm_configs.is_default config) = true) ->
  consistent
    {| rows := update_first (owned config_id u) (fun _ => config') (rows st);
       next_id := next_id st; key_file := k |}.
Proof.
  intros Hc Hf Hid Hus Hpr Hd.
  pose proof (replace_keeps st config_id u config config' (fun _ => false) k
                Hc Hf Hid Hus Hpr) as H.
  cbn beta in H. rewrite map_id in H. apply H; [discriminate|now right].
Qed.

Lemma append_keeps (st : store) (new : llm_configs.row) (k : option string) :
  consistent st ->
  llm_configs.id new = next_id st ->
  ~ In (llm_configs.user_id new, llm_configs.provider new)
       (map (fun r => (llm_configs.user_id r, llm_configs.provider r)) (rows st)) ->
  (is_true (llm_configs.is_default new) = true ->
   defaults_of (llm_configs.user_id new) (rows st) = []) ->
  consistent {| rows := rows st ++ [new]; next_id := (next_id st + 1)%Z;
                key_file := k |}.
Proof.
  intros [H1 [H2 [H3 H4]]] Hid Hp Hd. unfold consistent; simpl.
  split; [|split; [|split]].
  - apply Forall_app. split.
    + eapply Forall_impl; [|exact H1]. simpl. intros; lia.
    + constructor; [lia|constructor].
  - rewrite map_app. simpl. apply NoDup_app; [exact H2|repeat constructor; auto|].
    intros x Hx [<-|[]]. rewrite Forall_forall in H1.
    apply in_map_iff in Hx. destruct Hx as [r [E Hr]].
    specialize (H1 r Hr). lia.
  - intros u. unfold defaults_of. rewrite filter_app, length_app. simpl.
    destruct ((llm_configs.user_id new =? u)%Z
              && is_true (llm_configs.is_default new)) eqn:E; simpl.
    + destruct (is_default_of _ _ E) as [<- Ht].
      unfold defaults_of in Hd. rewrite (Hd Ht). simpl. lia.
    + specialize (H3 u). unfold defaults_of in H3. lia.
  - rewrite map_app. simpl. apply NoDup_app; [exact H4|repeat constructor; auto|].
    intros x Hx [<-|[]]. contradiction.
Qed.

Lemma existing_none (u : Z) (p : string) (rs : list llm_configs.row) :
  existsb (fun r => (llm_configs.user_id r =? u)%Z
                    && String.eqb (llm_configs.provider r) p) rs = false ->
  ~ In (u, p) (map (fun r => (llm_configs.user_id r, llm_configs.provider r)) rs).
Proof.
  intros H HI. apply in_map_iff in HI. destruct HI as [r [E Hr]].
  inversion E; subst.
  assert (Ht : existsb (fun r0 => (llm_configs.user_id r0 =? llm_configs.user_id r)%Z
                 && String.eqb (llm_configs.provider r0) (llm_configs.provider r)) rs
               = true).
  { apply existsb_exists. exists r. split; [exact Hr|].
    now rewrite Z.eqb_refl, String.eqb_refl. }
  congruence.
Qed.

Lemma no_rows_no_defaults (u : Z) (rs : list llm_configs.row) :
  List.length (filter (fun r => (llm_configs.user_id r =? u)%Z) rs) = 0%nat ->
  defaults_of u rs = [].
Proof.
  intros H. unfold defaults_of. apply filter_none. intros r Hr.
  destruct (llm_configs.user_id r =? u)%Z eqn:E; [|reflexivity]. exfalso.
  assert (HI : In r (filter (fun r => (llm_configs.user_id r =? u)%Z) rs)).
  { apply filter_In. auto. }
  destruct (filter (fun r => (llm_configs.user_id r =? u)%Z) rs);
    [contradiction|discriminate].
Qed.

Lemma cleared_no_defaults (u : Z) (rs : list llm_configs.row) :
  defaults_of u
    (map (fun r => if (llm_configs.user_id r =? u)%Z
                      && is_true (llm_configs.is_default r)
                   then set_is_default (Some false) r else r) rs) = [].
Proof.
  unfold defaults_of. apply filter_none. intros x Hx.
  apply in_map_iff in Hx. destruct Hx as [r [<- _]].
  destruct ((llm_configs.user_id r =? u)%Z && is_true (llm_configs.is_default r))
    eqn:E; [simpl; apply andb_false_r|exact E].
Qed.

Lemma apply_update_keys (upd : LLMConfigUpdate.t) (encrypted : option string)
    (config config' : llm_configs.row) :
  apply_update upd encrypted config = Some config' ->
  llm_configs.id config' = llm_configs.id config /\
  llm_configs.user_id config' = llm_configs.user_id config /\
  llm_configs.provider config' = llm_configs.provider config /\
  llm_configs.is_default config' =
    match LLMConfigUpdate.is_default upd with
    | None => llm_configs.is_default config
    | Some v => v
    end.
Proof.
  unfold apply_update. intros H.
  destruct (match LLMConfigUpdate.model_name upd with
            | Some m => m | None => Some (llm_configs.model_name config) end);
    [|discriminate].
  inversion H; subst. simpl. auto.
Qed.

Lemma create_keeps (st : store) (config : LLMConfigCreate.t) (u : Z) :
  consistent st ->
  consistent (fst (create_llm_config generate_key fernet_encrypt st config u)).
Proof.
  intros Hc. unfold create_llm_config.
  destruct (negb _); [exact Hc|].
  destruct (existsb _ (rows st)) eqn:Ex; [exact Hc|].
  destruct (encrypt_optional generate_key fernet_encrypt (key_file st)
              (LLMConfigCreate.api_key config)) as [k' enc].
  pose proof (existing_none _ _ _ Ex) as Hn.
  destruct (LLMConfigCreate.is_default config) eqn:Ed; cbn [fst orb].
  - set (g := fun r => if (llm_configs.user_id r =? u)%Z
                          && is_true (llm_configs.is_default r)
                       then set_is_default (Some false) r else r).
    assert (Hm : consistent {| rows := map g (rows st); next_id := next_id st;
                               key_file := key_file st |}).
    { apply (map_keeps st g u (key_file st) Hc).
      - intros r _. apply clear_keeps.
      - intros r _ Hne. unfold g.
        destruct (Z.eqb_spec (llm_configs.user_id r) u); [contradiction|reflexivity].
      - etransitivity; [apply clear_defaults_le|]. apply Hc. }
    apply (append_keeps _ _ k' Hm); simpl; [reflexivity| |].
    + rewrite map_map.
      rewrite (map_ext _ (fun r => (llm_configs.user_id r, llm_configs.provider r)));
        [exact Hn|].
      intros r. destruct (clear_keeps (fun r => (llm_configs.user_id r =? u)%Z
                             && is_true (llm_configs.is_default r)) r)
        as [_ [E1 E2]]. unfold g. now rewrite E1, E2.
    + intros _. apply cleared_no_defaults.
  - assert (Hs : consistent {| rows := rows st; next_id := next_id st;
                               key_file := key_file st |}) by exact Hc.
    apply (append_keeps _ _ k' Hs); simpl; [reflexivity|exact Hn|].
    intros Ht. apply no_rows_no_defaults. apply Nat.eqb_eq.
    now destruct (Nat.eqb _ 0).
Qed.

Lemma update_keeps (st : store) (config_id : Z) (upd : LLMConfigUpdate.t) (u : Z) :
  consistent st ->
  consistent (fst (update_llm_config generate_key fernet_encrypt st config_id upd u)).
Proof.
  intros Hc. unfold update_llm_config.
  destruct (find_config st config_id u) as [config|] eqn:Hf; [|exact Hc].
  destruct (match model_given upd with
            | Some m => if validate_provider_config (llm_configs.provider config) m
                        then None else Some m
            | None => None end); [exact Hc|].
  destruct (encrypt_optional generate_key fernet_encrypt (key_file st)
              (LLMConfigUpdate.api_key upd)) as [k' enc].
  destruct (apply_update upd enc config) as [config'|] eqn:Ha; [|exact Hc].
  destruct (apply_update_keys _ _ _ _ Ha) as [Hid [Hus [Hpr Hd]]].
  cbn [fst].
  assert (Hplain :
    (is_true (llm_configs.is_default config') = true ->
     is_true (llm_configs.is_default config) = true) ->
    consistent {| rows := update_first (owned config_id u) (fun _ => config') (rows st);
                  next_id := next_id st; key_file := k' |}).
  { intros Hi. now apply (replace_keeps_plain st config_id u config). }
  destruct (LLMConfigUpdate.is_default upd) as [[[|]|]|] eqn:Ed.
  - apply (replace_keeps st config_id u config config'
             (fun r => (llm_configs.user_id r =? u)%Z
                       && negb (llm_configs.id r =? config_id)%Z
                       && is_true (llm_configs.is_default r)) k' Hc Hf Hid Hus Hpr).
    + intros r Hr. apply andb_true_iff in Hr. destruct Hr as [Hr _].
      apply andb_true_iff in Hr. destruct Hr as [Hr _]. now apply Z.eqb_eq.
    + left. intros r _ Hu Ht Ho. unfold owned in Ho. rewrite Hu, Z.eqb_refl in *.
      rewrite andb_true_r in Ho. now rewrite Ho, Ht.
  - apply Hplain. rewrite Hd. discriminate.
  - apply Hplain. rewrite Hd. discriminate.
  - apply Hplain. now rewrite Hd.
Qed.

Lemma set_default_keeps (st : store) (config_id u : Z) :
  consistent st -> consistent (fst (set_default_config st config_id u)).
Proof.
  intros Hc. unfold set_default_config.
  destruct (find_config st config_id u) as [config|] eqn:Hf; [|exact Hc].
  cbn [fst]. unfold with_rows.
  apply (replace_keeps st config_id u config (set_is_default (Some true) config)
           (fun r => (llm_configs.user_id r =? u)%Z
                     && negb (llm_configs.id r =? config_id)%Z)
           (key_file st) Hc Hf); try reflexivity.
  - intros r Hr. apply andb_true_iff in Hr. destruct Hr as [Hr _].
    now apply Z.eqb_eq.
  - left. intros r _ Hu _ Ho. unfold owned in Ho. rewrite Hu, Z.eqb_refl in *.
    rewrite andb_true_r in Ho. now rewrite Ho.
Qed.

Lemma delete_keeps (st : store) (config_id u : Z) :
  consistent st -> consistent (fst (delete_llm_config st config_id u)).
Proof.
  intros Hc. unfold delete_llm_config.
  destruct (find_config st config_id u) as [config|]; [|exact Hc].
  destruct Hc as [H1 [H2 [H3 H4]]]. unfold consistent; simpl.
  split; [|split; [|split]].
  - rewrite Forall_forall in *. intros x Hx. apply H1.
    now apply (In_remove_first (owned config_id u)).
  - now apply NoDup_map_remove_first.
  - intros u'. etransitivity; [apply filter_length_remove_first|apply H3].
  - now apply NoDup_map_remove_first.
Qed.

(** Whatever a user asks of the configuration endpoints, the table keeps
    distinct primary keys below the next one, at most one default
    configuration per user and at most one configuration per user and
    provider. *)
Theorem config_table_stays_consistent (st : store) (u : Z) (r : config_request) :
  consistent st -> consistent (handle generate_key fernet_encrypt st u r).
Proof.
  intros Hc. destruct r as [config|config_id|config_id upd|config_id|config_id];
    unfold handle.
  - now apply create_keeps.
  - unfold get_llm_config. now destruct (find_config st config_id u).
  - now apply update_keeps.
  - now apply delete_keeps.
  - now apply set_default_keeps.
Qed.
End ConfigFacts.

Lemma two_configs_consistent : ConfigSpec.consistent Examples.two_configs.
Proof.
  unfold ConfigSpec.consistent; simpl. split; [|split; [|split]].
  - repeat constructor; simpl; lia.
  - repeat constructor; simpl; intuition discriminate.
  - intros u. unfold ConfigSpec.defaults_of.
    destruct u as [|q|q]; simpl; try lia.
    destruct (7 =? q)%positive; simpl; lia.
  - repeat constructor; simpl; intuition discriminate.
Defined.

Lemma config_table_stays_consistent_witness :
  ConfigSpec.consistent
    (ConfigSpec.handle "k0" Examples.mark_encrypt Examples.two_configs 7
       (ConfigSpec.SetDefault 2)).
Proof.
  exact (config_table_stays_consistent "k0" Examples.mark_encrypt
           Examples.two_configs 7 (ConfigSpec.SetDefault 2) two_configs_consistent).
Defined.

Section ConfigListFacts2.
Context {A : Type}.
Implicit Types (a p : A -> bool) (l : list A).

Lemma find_update_first p (x : A) l :
  p x = true -> (exists r, In r l /\ p r = true) ->
  find p (Models.update_first p (fun _ => x) l) = Some x.
Proof.
  intros Hx. induction l as [|r rest IH]; intros [r0 [Hr0 Hp]]; [destruct Hr0|].
  simpl. destruct (p r) eqn:E; simpl.
  - now rewrite Hx.
  - rewrite E. apply IH. destruct Hr0 as [<-|Hr0]; [congruence|]. now exists r0.
Qed.

Lemma find_remove_first {B : Type} (key : A -> B) p l :
  NoDup (map key l) ->
  (forall r r', p r = true -> p r' = true -> key r = key r') ->
  find p (Models.remove_first p l) = None.
Proof.
  intros Hnd Hk. induction l as [|r rest IH]; simpl; [reflexivity|].
  inversion Hnd as [|? ? Hn Hr]; subst.
  destruct (p r) eqn:E; simpl.
  - destruct (find p rest) as [r'|] eqn:Ef; [|reflexivity].
    apply find_some in Ef. destruct Ef as [HI Hp]. exfalso. apply Hn.
    rewrite (Hk r r' E Hp). now apply in_map.
  - rewrite E. now apply IH.
Qed.

Lemma filter_map_single {B : Type} (key : A -> B) a (h : A -> A) l (r0 x : A) :
  NoDup (map key l) -> In r0 l ->
  (forall r, In r l -> key r = key r0 -> h r = x) ->
  (forall r, In r l -> key r <> key r0 -> a (h r) = false) ->
  a x = true ->
  filter a (map h l) = [x].
Proof.
  intros Hnd Hin Hsame Hother Hx. induction l as [|r rest IH]; [destruct Hin|].
  inversion Hnd as [|? ? Hn Hr]; subst. simpl.
  destruct Hin as [->|Hin].
  - rewrite (Hsame r0 (or_introl eq_refl) eq_refl), Hx. f_equal.
    apply filter_none. intros y Hy. apply in_map_iff in Hy.
    destruct Hy as [r [<- Hr']]. apply Hother; [now right|].
    intros E. apply Hn. rewrite <- E. now apply in_map.
  - assert (Hne : key r <> key r0).
    { intros E. apply Hn. rewrite E. now apply in_map. }
    rewrite (Hother r (or_introl eq_refl) Hne). apply IH; auto.
    + intros r' Hr'. apply Hsame. now right.
    + intros r' Hr'. apply Hother. now right.
Qed.

Lemma find_app_new p l (x : A) :
  (forall r, In r l -> p r = false) -> p x = true -> find p (l ++ [x]) = Some x.
Proof.
  intros H Hx. induction l as [|r rest IH]; simpl; [now rewrite Hx|].
  rewrite (H r (or_introl eq_refl)). apply IH. intros r' Hr'. apply H. now right.
Qed.
End ConfigListFacts2.

Section ConfigProps.
Import LLMFactory Models LlmConfigApi ConfigSpec.
Variable generate_key : string.
Variable fernet_encrypt : string -> string -> string.
Variable fernet_decrypt : string -> string -> result string.

Lemma owned_same_id (config_id u : Z) (r r' : llm_configs.row) :
  owned config_id u r = true -> owned config_id u r' = true ->
  llm_configs.id r = llm_configs.id r'.
Proof.
  intros H H'. destruct (owned_keys _ _ _ H) as [-> _].
  now destruct (owned_keys _ _ _ H') as [-> _].
Qed.

Lemma foreign_cleared (u : Z) (c : llm_configs.row -> bool)
    (rs : list llm_configs.row) :
  (forall r, c r = true -> llm_configs.user_id r = u) ->
  filter (fun x => negb (llm_configs.user_id x =? u)%Z)
    (map (fun r => if c r then set_is_default (Some false) r else r) rs)
  = filter (fun x => negb (llm_configs.user_id x =? u)%Z) rs.
Proof.
  intros Hc. apply filter_map_same.
  - intros r _ Hq. destruct (c r) eqn:Ec; [|reflexivity].
    rewrite (Hc r Ec), Z.eqb_refl in Hq. discriminate.
  - intros r _. now destruct (c r).
Qed.

Lemma foreign_replaced (config_id u : Z) (config' : llm_configs.row)
    (rs : list llm_configs.row) :
  llm_configs.user_id config' = u ->
  filter (fun x => negb (llm_configs.user_id x =? u)%Z)
    (update_first (owned config_id u) (fun _ => config') rs)
  = filter (fun x => negb (llm_configs.user_id x =? u)%Z) rs.
Proof.
  intros Hu. apply filter_update_first. intros x Hx.
  destruct (owned_keys _ _ _ Hx) as [_ ->]. now rewrite Hu, Z.eqb_refl.
Qed.

(** No request of the configuration endpoints changes a configuration of
    another user: the rows that are not the caller's are the same, in the
    same order, after it. *)
Theorem config_requests_touch_own_rows_only (st : store) (current_user : Z)
    (r : config_request) :
  filter (fun x => negb (llm_configs.user_id x =? current_user)%Z)
    (rows (handle generate_key fernet_encrypt st current_user r))
  = filter (fun x => negb (llm_configs.user_id x =? current_user)%Z) (rows st).
Proof.
  destruct r as [config|config_id|config_id upd|config_id|config_id];
    unfold handle.
  - unfold create_llm_config.
    destruct (negb _); [reflexivity|].
    destruct (existsb _ (rows st)); [reflexivity|].
    destruct (encrypt_optional generate_key fernet_encrypt (key_file st)
                (LLMConfigCreate.api_key config)) as [k' enc].
    cbn [fst rows]. rewrite filter_app. cbn [filter llm_configs.user_id].
    rewrite Z.eqb_refl. cbn [negb]. rewrite app_nil_r.
    destruct (LLMConfigCreate.is_default config); [|reflexivity].
    apply foreign_cleared. intros x Hx. apply andb_true_iff in Hx.
    destruct Hx as [Hx _]. now apply Z.eqb_eq.
  - unfold get_llm_config. now destruct (find_config st config_id current_user).
  - unfold update_llm_config.
    destruct (find_config st config_id current_user) as [config|] eqn:Hf;
      [|reflexivity].
    destruct (match model_given upd with
              | Some m => if validate_provider_config (llm_configs.provider config) m
                          then None else Some m
              | None => None end); [reflexivity|].
    destruct (encrypt_optional generate_key fernet_encrypt (key_file st)
                (LLMConfigUpdate.api_key upd)) as [k' enc].
    destruct (apply_update upd enc config) as [config'|] eqn:Ha; [|reflexivity].
    destruct (apply_update_keys _ _ _ _ Ha) as [_ [Hus _]].
    destruct (find_config_some _ _ _ _ Hf) as [_ [_ [Hu _]]].
    cbn [fst rows]. rewrite foreign_replaced by congruence.
    destruct (LLMConfigUpdate.is_default upd) as [[[|]|]|]; try reflexivity.
    apply foreign_cleared. intros x Hx. apply andb_true_iff in Hx.
    destruct Hx as [Hx _]. apply andb_true_iff in Hx.
    destruct Hx as [Hx _]. now apply Z.eqb_eq.
  - unfold delete_llm_config.
    destruct (find_config st config_id current_user); [|reflexivity].
    cbn [fst rows with_rows]. apply filter_remove_first. intros x Hx.
    destruct (owned_keys _ _ _ Hx) as [_ ->]. now rewrite Z.eqb_refl.
  - unfold set_default_config.
    destruct (find_config st config_id current_user) as [config|] eqn:Hf;
      [|reflexivity].
    destruct (find_config_some _ _ _ _ Hf) as [_ [_ [Hu _]]].
    cbn [fst rows with_rows]. rewrite foreign_replaced by exact Hu.
    apply foreign_cleared. intros x Hx. apply andb_true_iff in Hx.
    destruct Hx as [Hx _]. now apply Z.eqb_eq.
Qed.

(** With distinct primary keys, [set_default_config] on a configuration
    of the caller leaves the caller with exactly one default
    configuration, the one asked for with only its flag changed, and
    answers with its message. *)
Theorem set_default_config_makes_the_only_default (st : store)
    (config_id current_user : Z) (config : llm_configs.row) :
  NoDup (map llm_configs.id (rows st)) ->
  find_config st config_id current_user = Some config ->
  defaults_of current_user (rows (fst (set_default_config st config_id current_user)))
    = [set_is_default (Some true) config] /\
  find_config (fst (set_default_config st config_id current_user))
    config_id current_user = Some (set_is_default (Some true) config) /\
  snd (set_default_config st config_id current_user)
    = Returned (PDict [("message", PStr "Configuration set as default")]).
Proof.
  intros Hnd Hf. unfold set_default_config. rewrite Hf. cbn [fst snd rows with_rows].
  destruct (find_config_some _ _ _ _ Hf) as [Hin [Hid [Hu Hown]]].
  split; [|split; [|reflexivity]].
  - rewrite (update_first_as_map llm_configs.id); [|exact Hnd| |].
    2:{ intros r r'. apply owned_same_id. }
    2:{ intros r. unfold owned.
        now destruct ((llm_configs.user_id r =? current_user)%Z && negb _). }
    unfold defaults_of.
    apply (filter_map_single llm_configs.id _ _ (rows st) config); auto.
    + intros r Hr E. cbn beta.
      assert (Ho : owned config_id current_user r = true).
      { unfold owned. rewrite E, Hid, Z.eqb_refl. simpl.
        rewrite (NoDup_map_In_eq llm_configs.id (rows st) r config Hnd Hr Hin E).
        rewrite Hu. apply Z.eqb_refl. }
      now rewrite Ho.
    + intros r Hr Hne. cbn beta.
      destruct (owned config_id current_user r) eqn:Eo.
      * destruct (owned_keys _ _ _ Eo) as [E _]. congruence.
      * destruct (Z.eqb_spec (llm_configs.user_id r) current_user) as [E|E];
          simpl.
        -- destruct (Z.eqb_spec (llm_configs.id r) config_id) as [E'|E'];
             [congruence|]. simpl. apply andb_false_r.
        -- destruct (Z.eqb_spec (llm_configs.user_id r) current_user);
             [contradiction|reflexivity].
    + simpl. rewrite Hu, Z.eqb_refl. reflexivity.
  - unfold find_config. cbn [rows]. apply find_update_first; [exact Hown|].
    exists (if (llm_configs.user_id config =? current_user)%Z
               && negb (llm_configs.id config =? config_id)%Z
            then set_is_default (Some false) config else config).
    split.
    + apply (in_map (fun r => if (llm_configs.user_id r =? current_user)%Z
                                 && negb (llm_configs.id r =? config_id)%Z
                              then set_is_default (Some false) r else r)).
      exact Hin.
    + now destruct ((llm_configs.user_id config =? current_user)%Z && negb _).
Qed.

(** With distinct primary keys, a configuration the caller deletes is not
    found any more: reading it is answered 404. *)
Theorem delete_llm_config_forgets (st : store) (config_id current_user : Z)
    (config : llm_configs.row) :
  NoDup (map llm_configs.id (rows st)) ->
  find_config st config_id current_user = Some config ->
  snd (delete_llm_config st config_id current_user)
    = Returned (PDict [("message", PStr "Configuration deleted successfully")]) /\
  snd (get_llm_config (fst (delete_llm_config st config_id current_user))
         config_id current_user)
    = Rejected 404 "Configuration not found".
Proof.
  intros Hnd Hf. unfold delete_llm_config. rewrite Hf. cbn [fst snd].
  split; [reflexivity|]. unfold get_llm_config, find_config. cbn [rows with_rows].
  rewrite (find_remove_first llm_configs.id); [reflexivity|exact Hnd|].
  intros r r'. apply owned_same_id.
Qed.

(** A configuration of another user is not found: reading, updating,
    deleting it or making it the default is answered 404 and changes
    nothing. *)
Theorem foreign_config_not_found (st : store) (current_user : Z)
    (config : llm_configs.row) (upd : LLMConfigUpdate.t) :
  NoDup (map llm_configs.id (rows st)) ->
  In config (rows st) ->
  llm_configs.user_id config <> current_user ->
  get_llm_config st (llm_configs.id config) current_user
    = (st, Rejected 404 "Configuration not found") /\
  update_llm_config generate_key fernet_encrypt st (llm_configs.id config) upd
    current_user = (st, Rejected 404 "Configuration not found") /\
  delete_llm_config st (llm_configs.id config) current_user
    = (st, Rejected 404 "Configuration not found") /\
  set_default_config st (llm_configs.id config) current_user
    = (st, Rejected 404 "Configuration not found").
Proof.
  intros Hnd Hin Hne.
  assert (Hf : find_config st (llm_configs.id config) current_user = None).
  { destruct (find_config st (llm_configs.id config) current_user) as [r|] eqn:E;
      [|reflexivity].
    destruct (find_config_some _ _ _ _ E) as [Hr [Hid [Hu _]]].
    rewrite (NoDup_map_In_eq llm_configs.id (rows st) r config Hnd Hr Hin Hid) in Hu.
    contradiction. }
  unfold get_llm_config, update_llm_config, delete_llm_config, set_default_config.
  now rewrite Hf.
Qed.
Lemma validate_provider_config_empty (p : string) :
  validate_provider_config p "" = false.
Proof.
  unfold validate_provider_config.
  destruct (dict_get p _provider_info) as [info|] eqn:E; [|reflexivity].
  apply dict_get_In in E. unfold _provider_info in E. simpl in E.
  repeat (destruct E as [E|E]; [injection E as <- <-; reflexivity|]).
  destruct E.
Qed.

(** [update_llm_config] checks a new model only when it is not empty: a
    non-empty model the provider of the configuration does not list is
    answered 400 and nothing changes, while the empty string, a model of no
    provider, is stored as the model of the configuration. *)
Theorem update_llm_config_model_check (st : store) (config_id current_user : Z)
    (config : llm_configs.row) (upd : LLMConfigUpdate.t) (m : string) :
  find_config st config_id current_user = Some config ->
  LLMConfigUpdate.model_name upd = Some (Some m) ->
  validate_provider_config (llm_configs.provider config) m = false ->
  if String.eqb m ""
  then exists config',
         find_config
           (fst (update_llm_config generate_key fernet_encrypt st config_id upd
                   current_user)) config_id current_user = Some config' /\
         llm_configs.model_name config' = ""
  else update_llm_config generate_key fernet_encrypt st config_id upd current_user
       = (st, Rejected 400 ("Invalid model " ++ m ++ " for provider "
                            ++ llm_configs.provider config)%string).
Proof.
  intros Hf Hm Hv. unfold update_llm_config, model_given. rewrite Hf, Hm.
  destruct (String.eqb_spec m "") as [->|Hne].
  - destruct (encrypt_optional generate_key fernet_encrypt (key_file st)
                (LLMConfigUpdate.api_key upd)) as [k' enc].
    destruct (apply_update upd enc config) as [config'|] eqn:Ha.
    + destruct (apply_update_keys _ _ _ _ Ha) as [Hid [Hus _]].
      destruct (find_config_some _ _ _ _ Hf) as [Hin [Hcid [Hu Hown]]].
      exists config'. split.
      * cbn [fst]. unfold find_config. cbn [rows]. apply find_update_first.
        -- unfold owned. rewrite Hid, Hus, Hcid, Hu, !Z.eqb_refl. reflexivity.
        -- destruct (LLMConfigUpdate.is_default upd) as [[[|]|]|];
             try (exists config; split; [exact Hin|exact Hown]).
           exists (if (llm_configs.user_id config =? current_user)%Z
                      && negb (llm_configs.id config =? config_id)%Z
                      && is_true (llm_configs.is_default config)
                   then set_is_default (Some false) config else config).
           split.
           ++ apply (in_map (fun r => if (llm_configs.user_id r =? current_user)%Z
                                        && negb (llm_configs.id r =? config_id)%Z
                                        && is_true (llm_configs.is_default r)
                                      then set_is_default (Some false) r else r)).
              exact Hin.
           ++ now destruct ((llm_configs.user_id config =? current_user)%Z
                            && negb _ && _).
      * unfold apply_update in Ha. rewrite Hm in Ha. now inversion Ha.
    + unfold apply_update in Ha. rewrite Hm in Ha. discriminate.
  - rewrite Hv. reflexivity.
Qed.

(** [create_llm_config] with a model of the provider: a second
    configuration of the caller for a provider is answered 400 and nothing
    changes; otherwise the new configuration is found under the next
    primary key, it is the default when the request asks for it or when it
    is the caller's first one, and when it is the default it is the
    caller's only default. *)
Theorem create_llm_config_then_found (st : store) (config : LLMConfigCreate.t)
    (current_user : Z) :
  consistent st ->
  validate_provider_config (LLMConfigCreate.provider config)
    (LLMConfigCreate.model_name config) = true ->
  if existsb (fun r => (llm_configs.user_id r =? current_user)%Z
                       && String.eqb (llm_configs.provider r)
                            (LLMConfigCreate.provider config)) (rows st)
  then create_llm_config generate_key fernet_encrypt st config current_user
       = (st, Rejected 400 ("Configuration for " ++ LLMConfigCreate.provider config
                            ++ " already exists")%string)
  else exists row,
         find_config
           (fst (create_llm_config generate_key fernet_encrypt st config current_user))
           (next_id st) current_user = Some row /\
         llm_configs.provider row = LLMConfigCreate.provider config /\
         llm_configs.model_name row = LLMConfigCreate.model_name config /\
         llm_configs.is_default row
           = Some (LLMConfigCreate.is_default config
                   || Nat.eqb (List.length
                                 (filter (fun r => (llm_configs.user_id r =? current_user)%Z)
                                    (rows st))) 0) /\
         (is_true (llm_configs.is_default row) = true ->
          defaults_of current_user
            (rows (fst (create_llm_config generate_key fernet_encrypt st config
                          current_user))) = [row]).
Proof.
  intros Hc Hv. unfold create_llm_config. rewrite Hv. cbn [negb].
  destruct (existsb _ (rows st)) eqn:Ex; [reflexivity|].
  destruct (encrypt_optional generate_key fernet_encrypt (key_file st)
              (LLMConfigCreate.api_key config)) as [k' enc].
  cbn [fst rows]. eexists. split; [|split; [|split; [|split]]].
  - unfold find_config. cbn [rows]. apply find_app_new.
    + intros r Hr. unfold owned.
      assert (Hlt : (llm_configs.id r < next_id st)%Z).
      { destruct Hc as [H1 _]. rewrite Forall_forall in H1.
        destruct (LLMConfigCreate.is_default config); [|now apply H1].
        apply in_map_iff in Hr. destruct Hr as [x [<- Hx]].
        specialize (H1 x Hx).
        now destruct ((llm_configs.user_id x =? current_user)%Z && _). }
      destruct (Z.eqb_spec (llm_configs.id r) (next_id st)); [lia|reflexivity].
    + unfold owned. cbn [llm_configs.id llm_configs.user_id].
      now rewrite !Z.eqb_refl.
  - reflexivity.
  - reflexivity.
  - cbn [llm_configs.is_default].
    destruct (LLMConfigCreate.is_default config); reflexivity.
  - cbn [llm_configs.is_default is_true]. intros Hd.
    unfold defaults_of. rewrite filter_app.
    cbn [filter llm_configs.user_id llm_configs.is_default is_true].
    rewrite Z.eqb_refl, Hd. cbn [andb].
    destruct (LLMConfigCreate.is_default config) eqn:Ed.
    + pose proof (cleared_no_defaults current_user (rows st)) as E.
      unfold defaults_of in E. rewrite E. reflexivity.
    + cbn [orb] in Hd.
      pose proof (no_rows_no_defaults current_user (rows st)) as E.
      unfold defaults_of in E. rewrite E; [reflexivity|].
      apply Nat.eqb_eq. now destruct (Nat.eqb _ 0).
Qed.

(** When the cipher decrypts what it encrypts and its tokens are not
    empty, [decrypt_api_key] gives back the key [encrypt_api_key] was
    given, the empty key included, reading the key file the encryption
    left; and an existing key file is never replaced. *)
Theorem api_key_round_trip (k : option string) (api_key : string) :
  (forall key m, fernet_decrypt key (fernet_encrypt key m) = Ok m) ->
  (forall key m, m <> "" -> fernet_encrypt key m <> "") ->
  decrypt_api_key generate_key fernet_decrypt
    (fst (encrypt_api_key generate_key fernet_encrypt k api_key))
    (snd (encrypt_api_key generate_key fernet_encrypt k api_key))
  = (fst (encrypt_api_key generate_key fernet_encrypt k api_key), Ok api_key) /\
  (forall key, k = Some key ->
     fst (encrypt_api_key generate_key fernet_encrypt k api_key) = k).
Proof.
  intros Hrt Hne. unfold encrypt_api_key, decrypt_api_key, get_encryption_key.
  destruct (String.eqb_spec api_key "") as [->|Hk].
  - split; [reflexivity|]. intros key _. reflexivity.
  - destruct k as [key|]; cbn [fst snd].
    + split; [|reflexivity].
      destruct (String.eqb_spec (fernet_encrypt key api_key) "") as [E|_].
      * now contradiction (Hne key api_key Hk).
      * now rewrite Hrt.
    + split; [|discriminate].
      destruct (String.eqb_spec (fernet_encrypt generate_key api_key) "") as [E|_].
      * now contradiction (Hne generate_key api_key Hk).
      * now rewrite Hrt.
Qed.
End ConfigProps.

Lemma two_configs_ids :
  NoDup (map LlmConfigApi.llm_configs.id (LlmConfigApi.rows Examples.two_configs)).
Proof. repeat constructor; simpl; intuition discriminate. Defined.

Lemma set_default_config_makes_the_only_default_witness :
  ConfigSpec.defaults_of 7
    (LlmConfigApi.rows (fst (LlmConfigApi.set_default_config Examples.two_configs 2 7)))
  = [LlmConfigApi.set_is_default (Some true) Examples.groq_config].
Proof.
  apply (set_default_config_makes_the_only_default Examples.two_configs 2 7
           Examples.groq_config two_configs_ids eq_refl).
Defined.

Lemma delete_llm_config_forgets_witness :
  snd (LlmConfigApi.get_llm_config
         (fst (LlmConfigApi.delete_llm_config Examples.two_configs 1 7)) 1 7)
  = Models.Rejected 404 "Configuration not found".
Proof.
  apply (delete_llm_config_forgets Examples.two_configs 1 7
           Examples.openai_config two_configs_ids eq_refl).
Defined.

Lemma foreign_config_not_found_witness :
  LlmConfigApi.delete_llm_config Examples.two_configs 1 8
  = (Examples.two_configs, Models.Rejected 404 "Configuration not found").
Proof.
  apply (foreign_config_not_found "k0" Examples.mark_encrypt Examples.two_configs 8
           Examples.openai_config
           {| LlmConfigApi.LLMConfigUpdate.model_name := None;
              LlmConfigApi.LLMConfigUpdate.api_key := None;
              LlmConfigApi.LLMConfigUpdate.is_default := None;
              LlmConfigApi.LLMConfigUpdate.config_data := None |}
           two_configs_ids (or_introl eq_refl)).
  simpl. lia.
Defined.

Lemma update_llm_config_model_check_witness :
  exists config',
    LlmConfigApi.find_config
      (fst (LlmConfigApi.update_llm_config "k0" Examples.mark_encrypt
              Examples.two_configs 1
              {| LlmConfigApi.LLMConfigUpdate.model_name := Some (Some "");
                 LlmConfigApi.LLMConfigUpdate.api_key := None;
                 LlmConfigApi.LLMConfigUpdate.is_default := None;
                 LlmConfigApi.LLMConfigUpdate.config_data := None |} 7)) 1 7
    = Some config' /\
    LlmConfigApi.llm_configs.model_name config' = "".
Proof.
  exact (update_llm_config_model_check "k0" Examples.mark_encrypt
           Examples.two_configs 1 7 Examples.openai_config
           {| LlmConfigApi.LLMConfigUpdate.model_name := Some (Some "");
              LlmConfigApi.LLMConfigUpdate.api_key := None;
              LlmConfigApi.LLMConfigUpdate.is_default := None;
              LlmConfigApi.LLMConfigUpdate.config_data := None |}
           "" eq_refl eq_refl eq_refl).
Defined.

Lemma create_llm_config_then_found_witness :
  LlmConfigApi.create_llm_config "k0" Examples.mark_encrypt Examples.two_configs
    {| LlmConfigApi.LLMConfigCreate.provider := "openai";
       LlmConfigApi.LLMConfigCreate.model_name := "gpt-4-turbo";
       LlmConfigApi.LLMConfigCreate.is_default := false;
       LlmConfigApi.LLMConfigCreate.config_data := None;
       LlmConfigApi.LLMConfigCreate.api_key := Some "sk-2" |} 7
  = (Examples.two_configs,
     Models.Rejected 400 "Configuration for openai already exists").
Proof.
  exact (create_llm_config_then_found "k0" Examples.mark_encrypt Examples.two_configs
           {| LlmConfigApi.LLMConfigCreate.provider := "openai";
              LlmConfigApi.LLMConfigCreate.model_name := "gpt-4-turbo";
              LlmConfigApi.LLMConfigCreate.is_default := false;
              LlmConfigApi.LLMConfigCreate.config_data := None;
              LlmConfigApi.LLMConfigCreate.api_key := Some "sk-2" |} 7
           two_configs_consistent eq_refl).
Defined.

Lemma api_key_round_trip_witness :
  LlmConfigApi.decrypt_api_key "k0" Examples.mark_decrypt
    (fst (LlmConfigApi.encrypt_api_key "k0" Examples.mark_encrypt None "sk-1"))
    (snd (LlmConfigApi.encrypt_api_key "k0" Examples.mark_encrypt None "sk-1"))
  = (Some "k0", Py.Ok "sk-1").
Proof.
  apply (api_key_round_trip "k0" Examples.mark_encrypt Examples.mark_decrypt
           None "sk-1").
  - reflexivity.
  - discriminate.
Defined.
